(** * Attendance backend: face recognizer, verification sessions, offline sync

    A shallow embedding of [backend/opencv_face_recognition.py],
    [backend/security.py], [backend/config.py] and the attendance handlers of
    [backend/app.py], followed by the properties proved about them.

    Conventions of the embedding:
    - a Python [dict] is an insertion-ordered association list ([Py.dict]);
    - a Python exception is a value of [Py.Exn]; code that can raise returns
      [Py.Result];
    - OpenCV, numpy, base64, bleach and the date parser are interfaces
      ([CV2], [Host]); their answers are not computed here, only consumed;
    - SQLite tables are lists of rows, a connection works on a private copy
      that replaces the stored one on [commit] only; the objects bound to a
      statement keep their Python type ([Sqlite.Param]);
    - the files an upload writes are outcomes of the calls ([Admin.Storage]);
    - timestamps are seconds on one clock ([Z]); floats are rationals ([Q]). *)

From Stdlib Require Import ZArith QArith List String Ascii Bool Lia Lqa
  DecimalString.
Import ListNotations.

Local Open Scope string_scope.
Local Open Scope list_scope.
Local Open Scope Z_scope.

(* ================================================================== *)
(** * Python values, exceptions and dictionaries *)
(* ================================================================== *)

Module Py.

(** The exceptions the modelled code can meet. *)
Inductive Exn : Type :=
| TypeError (msg : string)
| NameError (name : string)
| KeyError (key : string)
| IntegrityError (msg : string)          (* sqlite3.IntegrityError *)
| BindingError (position : Z) (type : string)
    (* sqlite3: a parameter of a type that has no adapter *)
| OperationalError (msg : string)        (* sqlite3.OperationalError *)
| HTTPException (status_code : Z) (detail : string)
| LibraryError (msg : string).           (* raised inside cv2 / base64 / numpy *)

Definition str_of_Z (z : Z) : string := NilZero.string_of_int (Z.to_int z).

(** [str(e)] *)
Definition str (e : Exn) : string :=
  match e with
  | TypeError m => m
  | NameError n => "name '" ++ n ++ "' is not defined"
  | KeyError k => "'" ++ k ++ "'"
  | IntegrityError m => m
  | BindingError p t =>
      "Error binding parameter " ++ str_of_Z p ++ ": type '" ++ t
      ++ "' is not supported"
  | OperationalError m => m
  | HTTPException c d => str_of_Z c ++ ": " ++ d
  | LibraryError m => m
  end.

Inductive Result (A : Type) : Type :=
| Return (a : A)
| Raise (e : Exn).
Arguments Return {A} a.
Arguments Raise {A} e.

Definition bind {A B} (m : Result A) (k : A -> Result B) : Result B :=
  match m with
  | Return a => k a
  | Raise e => Raise e
  end.

(** [str] and [bytes] objects; the content is kept as text in both. *)
Inductive Data : Type :=
| PyStr (s : string)
| PyBytes (b : string).

(** [s.encode('utf-8')] *)
Definition encode (s : string) : Data := PyBytes s.

(** Truth value of an optional string ([None] and [''] are false). *)
Definition truthy (o : option string) : bool :=
  match o with
  | None => false
  | Some s => negb (String.eqb s EmptyString)
  end.

(** Insertion-ordered dictionary with string keys. *)
Definition dict (V : Type) : Type := list (string * V).

Fixpoint get {V} (d : dict V) (k : string) : option V :=
  match d with
  | [] => None
  | (k', v) :: d' => if String.eqb k' k then Some v else get d' k
  end.

(** [k in d] *)
Definition contains {V} (d : dict V) (k : string) : bool :=
  match get d k with Some _ => true | None => false end.

(** [d[k] = v]: an existing key keeps its position, a new one goes last. *)
Fixpoint set {V} (d : dict V) (k : string) (v : V) : dict V :=
  match d with
  | [] => [(k, v)]
  | (k', v') :: d' =>
      if String.eqb k' k then (k', v) :: d' else (k', v') :: set d' k v
  end.

(** [del d[k]] for a key that is present (keys are unique). *)
Fixpoint del {V} (d : dict V) (k : string) : dict V :=
  match d with
  | [] => []
  | (k', v') :: d' => if String.eqb k' k then d' else (k', v') :: del d' k
  end.

(** [l[-n:]] *)
Definition last_n {A} (n : nat) (l : list A) : list A :=
  skipn (List.length l - n) l.

(** The objects the modelled code puts into a dictionary that goes to
    [json.dumps].  A comparison with a numpy float yields a [numpy.bool_],
    which is not a [bool]. *)
Inductive Object : Type :=
| PyFloat (x : Q)
| PyBool (b : bool)
| NumpyBool (b : bool).

(** [json.dumps(d)]: the encoder knows [float] and [bool]; for any other
    object it raises.  The text it returns is not modelled. *)
Definition json_dumps (d : dict Object) : Result unit :=
  match find (fun kv => match snd kv with
                        | NumpyBool _ => true
                        | _ => false
                        end) d with
  | Some _ => Raise (TypeError "Object of type bool_ is not JSON serializable")
  | None => Return tt
  end.

(** Binding of a call's arguments to a signature: more positional
    arguments than parameters, or a keyword that names no parameter, is a
    [TypeError]. *)
Definition check_call (fname : string) (params : list string)
           (positional : nat) (keywords : list string) : Result unit :=
  if (List.length params <? positional)%nat
  then Raise (TypeError (fname ++ "() takes too many positional arguments"))
  else
    match find (fun k => negb (existsb (String.eqb k) params)) keywords with
    | Some k =>
        Raise (TypeError (fname ++ "() got an unexpected keyword argument '"
                                ++ k ++ "'"))
    | None => Return tt
    end.

(** Lookup of a global name in a module's namespace. *)
Definition resolve (globals : list string) (name : string) : Result unit :=
  if existsb (String.eqb name) globals then Return tt
  else Raise (NameError name).

End Py.

Notation "x <- m ;; k" := (Py.bind m (fun x => k))
  (at level 61, m at next level, right associativity).

(* ================================================================== *)
(** * The OpenCV interface *)
(* ================================================================== *)

(** What the recognizer asks of OpenCV.  [None] (or [false]) stands for a
    raised exception, which every caller catches. *)
Class CV2 : Type := {
  Image : Type;
  (** A 100x100 equalised grayscale face patch. *)
  Template : Type;
  (** A face encoding of the [face_recognition] library. *)
  Encoding : Type;
  (** [cvtColor] to gray, then [face_cascade.detectMultiScale]: boxes as
      [(x, y, w, h)]. *)
  detectMultiScale : Image -> option (list (Z * Z * Z * Z));
  (** Crop the box [(top, right, bottom, left)], gray, resize, equalise;
      [None] for an empty crop or a raised error. *)
  face_patch : Image -> Z * Z * Z * Z -> option Template;
  (** [LBPHFaceRecognizer.train(faces, labels)]; [false] when it raises. *)
  lbph_train : list (Template * Z) -> bool;
  (** [LBPHFaceRecognizer.predict(face)] on a recognizer trained with the
      given samples: label and distance. *)
  lbph_predict : list (Template * Z) -> Template -> option (Z * Q)
}.

(* ================================================================== *)
(** * backend/opencv_face_recognition.py *)
(* ================================================================== *)

Module Recognizer.
Section WithCV2.
Context {cv : CV2}.

(** The attributes of [OpenCVFaceRecognizer].  [recognizer] is the corpus
    the LBPH object was last trained with; [encodings_file] is the pickle
    last written by [save_encodings]. *)
Record t : Type := {
  known_encodings : Py.dict (list Template);
  label_map : Py.dict Z;
  next_label : Z;
  model_trained : bool;
  recognizer : list (Template * Z);
  encodings_file : option (Py.dict (list Template) * Py.dict Z * Z)
}.

(** [__init__] with no encodings file on disk. *)
Definition init : t :=
  {| known_encodings := []; label_map := []; next_label := 0;
     model_trained := false; recognizer := []; encodings_file := None |}.

Definition save_encodings (r : t) : t :=
  {| known_encodings := known_encodings r; label_map := label_map r;
     next_label := next_label r; model_trained := model_trained r;
     recognizer := recognizer r;
     encodings_file :=
       Some (known_encodings r, label_map r, next_label r) |}.

Definition detect_faces (image : Image) : list (Z * Z * Z * Z) :=
  match detectMultiScale image with
  | Some faces =>
      map (fun '(x, y, w, h) => (y, x + w, y + h, x)) faces
  | None => []
  end.

Definition extract_face_features (image : Image) (face_box : Z * Z * Z * Z)
  : option Template :=
  face_patch image face_box.

(** The training pairs, in dictionary order; [None] is the [KeyError] of
    [self.label_map[student_id]]. *)
Fixpoint training_data (encodings : Py.dict (list Template))
         (labels : Py.dict Z) : option (list (Template * Z)) :=
  match encodings with
  | [] => Some []
  | (student_id, face_samples) :: rest =>
      match Py.get labels student_id with
      | None => None
      | Some label =>
          match training_data rest labels with
          | None => None
          | Some more =>
              Some (map (fun s => (s, label)) face_samples ++ more)
          end
      end
  end.

Definition _train_recognizer (r : t) : t * bool :=
  match known_encodings r with
  | [] => (r, false)
  | _ :: _ =>
      match training_data (known_encodings r) (label_map r) with
      | None => (r, false)
      | Some [] => (r, false)
      | Some (s :: l) =>
          if lbph_train (s :: l)
          then ({| known_encodings := known_encodings r;
                   label_map := label_map r;
                   next_label := next_label r;
                   model_trained := true;
                   recognizer := s :: l;
                   encodings_file := encodings_file r |}, true)
          else (r, false)
      end
  end.

Definition MAX_SAMPLES : nat := 5.

Definition register_face (r : t) (student_id : string) (image : Image)
  : t * bool :=
  match detect_faces image with
  | [] => (r, false)
  | _ :: _ :: _ => (r, false)
  | [face] =>
      match extract_face_features image face with
      | None => (r, false)
      | Some face_features =>
          let '(labels, next) :=
            if Py.contains (label_map r) student_id
            then (label_map r, next_label r)
            else (Py.set (label_map r) student_id (next_label r),
                  next_label r + 1) in
          let encodings :=
            if Py.contains (known_encodings r) student_id
            then known_encodings r
            else Py.set (known_encodings r) student_id [] in
          let samples :=
            match Py.get encodings student_id with
            | Some l => l ++ [face_features]
            | None => [face_features]
            end in
          let samples :=
            if (MAX_SAMPLES <? List.length samples)%nat
            then Py.last_n MAX_SAMPLES samples else samples in
          let r1 := {| known_encodings := Py.set encodings student_id samples;
                       label_map := labels;
                       next_label := next;
                       model_trained := model_trained r;
                       recognizer := recognizer r;
                       encodings_file := encodings_file r |} in
          (save_encodings (fst (_train_recognizer r1)), true)
      end
  end.

(** The result dictionaries of [recognize_face]. *)
Inductive Message : Type :=
| NoFacesRegistered        (* "No faces registered in the system" *)
| NoFaceDetected           (* "No face detected in image" *)
| MultipleFaces            (* "Multiple faces detected" *)
| NoFeatures               (* "Could not extract face features" *)
| StudentNotFound          (* "Face recognized but student not found" *)
| ConfidenceTooLow (score : Q)
| Recognized (score : Q)
| RecognitionError (e : Py.Exn).

Record Result : Type := {
  is_match : bool;                   (* "match" *)
  message : Message;
  confidence : Q;
  student_id : option string
}.

Definition failure (m : Message) (c : Q) (sid : option string) : Result :=
  {| is_match := false; message := m; confidence := c; student_id := sid |}.

Definition Qltb (x y : Q) : bool := negb (Qle_bool y x).

(** [max(0, 100 - confidence)] *)
Definition confidence_score (distance : Q) : Q :=
  if Qltb 0 (100 - distance) then (100 - distance)%Q else 0%Q.

(** The first key of [label_map] that carries [label]. *)
Fixpoint student_of_label (labels : Py.dict Z) (label : Z) : option string :=
  match labels with
  | [] => None
  | (sid, lbl) :: rest =>
      if lbl =? label then Some sid else student_of_label rest label
  end.

Definition recognize_face (r : t) (image : Image) (confidence_threshold : Q)
  : Result :=
  if negb (model_trained r) then failure NoFacesRegistered 0 None
  else
    match detect_faces image with
    | [] => failure NoFaceDetected 0 None
    | _ :: _ :: _ => failure MultipleFaces 0 None
    | [face] =>
        match extract_face_features image face with
        | None => failure NoFeatures 0 None
        | Some face_features =>
            match lbph_predict (recognizer r) face_features with
            | None =>
                failure (RecognitionError (Py.LibraryError "cv2.error")) 0 None
            | Some (label, distance) =>
                let score := confidence_score distance in
                match student_of_label (label_map r) label with
                | None => failure StudentNotFound score None
                | Some sid =>
                    if Qltb score confidence_threshold
                    then failure (ConfidenceTooLow score) score (Some sid)
                    else {| is_match := true; message := Recognized score;
                            confidence := score; student_id := Some sid |}
                end
            end
        end
    end.

Definition get_registered_students (r : t) : list string :=
  map fst (known_encodings r).

Definition remove_student (r : t) (sid : string) : t * bool :=
  let encodings :=
    if Py.contains (known_encodings r) sid
    then Py.del (known_encodings r) sid else known_encodings r in
  let labels :=
    if Py.contains (label_map r) sid
    then Py.del (label_map r) sid else label_map r in
  let r1 := {| known_encodings := encodings; label_map := labels;
               next_label := next_label r;
               model_trained := model_trained r;
               recognizer := recognizer r;
               encodings_file := encodings_file r |} in
  (save_encodings (fst (_train_recognizer r1)), true).

(** [pickle.load] of the encodings file, then the assignments of
    [load_encodings]; the recognizer is trained when there is data.  A
    missing file leaves the attributes as they are. *)
Definition load_encodings (r : t) : t * bool :=
  match encodings_file r with
  | None => (r, false)
  | Some (encodings, labels, next) =>
      let r1 := {| known_encodings := encodings; label_map := labels;
                   next_label := next; model_trained := model_trained r;
                   recognizer := recognizer r;
                   encodings_file := encodings_file r |} in
      match encodings with
      | [] => (r1, true)
      | _ :: _ => (fst (_train_recognizer r1), true)
      end
  end.

(** [OpenCVFaceRecognizer(encodings_file, ...)] in a new process that finds
    the given pickle on disk. *)
Definition restart
           (file : option (Py.dict (list Template) * Py.dict Z * Z)) : t :=
  fst (load_encodings
         {| known_encodings := []; label_map := []; next_label := 0;
            model_trained := false; recognizer := [];
            encodings_file := file |}).

Record Stats : Type := {
  registered_students : nat;
  total_samples : nat;
  stats_model_trained : bool
}.

Definition get_stats (r : t) : Stats :=
  {| registered_students := List.length (known_encodings r);
     total_samples :=
       list_sum (map (fun p => List.length (snd p)) (known_encodings r));
     stats_model_trained := model_trained r |}.

(** The states a recognizer goes through from a first start. *)
Inductive reachable : t -> Prop :=
| reach_init : reachable init
| reach_register (r : t) (sid : string) (image : Image) :
    reachable r -> reachable (fst (register_face r sid image))
| reach_remove (r : t) (sid : string) :
    reachable r -> reachable (fst (remove_student r sid)).

End WithCV2.
End Recognizer.

(* ================================================================== *)
(** * String helpers of the Python code *)
(* ================================================================== *)

Module Text.

Definition is_digit (c : ascii) : bool :=
  let n := nat_of_ascii c in ((48 <=? n) && (n <=? 57))%nat.

(** [str.isspace] on the ASCII range. *)
Definition is_space (c : ascii) : bool :=
  let n := nat_of_ascii c in
  (((9 <=? n) && (n <=? 13)) || ((28 <=? n) && (n <=? 32)))%nat.

Fixpoint lstrip (l : list ascii) : list ascii :=
  match l with
  | c :: l' => if is_space c then lstrip l' else l
  | [] => []
  end.

(** [s.strip()] *)
Definition strip (s : string) : string :=
  string_of_list_ascii
    (rev (lstrip (rev (lstrip (list_ascii_of_string s))))).

(** [s[:n]] *)
Definition prefix (n : nat) (s : string) : string := String.substring 0 n s.

Fixpoint all_digits (l : list ascii) : bool :=
  match l with
  | [] => true
  | c :: l' => is_digit c && all_digits l'
  end.

(** [s.replace('Z', '+00:00')] *)
Fixpoint replace_Z (s : string) : string :=
  match s with
  | EmptyString => EmptyString
  | String c s' =>
      if Ascii.eqb c "Z"%char then "+00:00" ++ replace_Z s'
      else String c (replace_Z s')
  end.

(** [',' in s] *)
Fixpoint has_comma (s : string) : bool :=
  match s with
  | EmptyString => false
  | String c s' => Ascii.eqb c ","%char || has_comma s'
  end.

Fixpoint until_comma (s : string) : string :=
  match s with
  | EmptyString => EmptyString
  | String c s' =>
      if Ascii.eqb c ","%char then EmptyString else String c (until_comma s')
  end.

Fixpoint after_comma (s : string) : string :=
  match s with
  | EmptyString => EmptyString
  | String c s' => if Ascii.eqb c ","%char then s' else after_comma s'
  end.

(** [s.split(',')[1]] for a string that holds a comma. *)
Definition split_comma_1 (s : string) : string := until_comma (after_comma s).

Fixpoint digits_value (l : list ascii) (acc : Z) : Z :=
  match l with
  | [] => acc
  | c :: l' => digits_value l' (10 * acc + (Z.of_nat (nat_of_ascii c) - 48))
  end.

(** [int(s)] for an optionally signed decimal numeral (surrounding blanks
    allowed); anything else is the [ValueError]. *)
Definition int (s : string) : option Z :=
  match list_ascii_of_string (strip s) with
  | [] => None
  | c :: l =>
      if Ascii.eqb c "-"%char then
        match l with
        | [] => None
        | _ => if all_digits l then Some (- digits_value l 0) else None
        end
      else if Ascii.eqb c "+"%char then
        match l with
        | [] => None
        | _ => if all_digits l then Some (digits_value l 0) else None
        end
      else if all_digits (c :: l) then Some (digits_value (c :: l) 0)
      else None
  end.

End Text.

(* ================================================================== *)
(** * backend/security.py *)
(* ================================================================== *)

Module Security.

(** [re.match(r'^\d{4}CIT\d{4}$', student_id)] on ASCII text: four digits,
    [CIT], four digits, and, as [$] allows, one final newline. *)
Definition validate_student_id (student_id : string) : bool :=
  match list_ascii_of_string student_id with
  | d1 :: d2 :: d3 :: d4 :: c :: i :: t :: e1 :: e2 :: e3 :: e4 :: rest =>
      Text.all_digits [d1; d2; d3; d4]
      && Ascii.eqb c "C"%char && Ascii.eqb i "I"%char && Ascii.eqb t "T"%char
      && Text.all_digits [e1; e2; e3; e4]
      && match rest with
         | [] => true
         | [nl] => Ascii.eqb nl "010"%char
         | _ => false
         end
  | _ => false
  end.

(** [def log_security_event(event_type, details, level="WARNING")] *)
Definition log_security_event_params : list string :=
  ["event_type"; "details"; "level"].

(** A call of [log_security_event] with the given number of positional
    arguments and the given keywords. *)
Definition log_security_event (positional : nat) (keywords : list string)
  : Py.Result unit :=
  Py.check_call "log_security_event" log_security_event_params
                positional keywords.

End Security.

(* ================================================================== *)
(** * backend/config.py *)
(* ================================================================== *)

Module Config.

(** [os.getenv(key, default)] over the process environment. *)
Definition getenv (environ : Py.dict string) (key default : string) : string :=
  match Py.get environ key with
  | Some v => v
  | None => default
  end.

(** [int(os.getenv('MAX_OFFLINE_RECORDS_PER_BATCH', '50'))] *)
Definition MAX_OFFLINE_RECORDS_PER_BATCH (environ : Py.dict string)
  : option Z :=
  Text.int (getenv environ "MAX_OFFLINE_RECORDS_PER_BATCH" "50").

(** [int(os.getenv('OFFLINE_SYNC_RETRY_DELAY', '300'))] *)
Definition OFFLINE_SYNC_RETRY_DELAY (environ : Py.dict string) : option Z :=
  Text.int (getenv environ "OFFLINE_SYNC_RETRY_DELAY" "300").

End Config.

(* ================================================================== *)
(** * The SQLite tables of init_db *)
(* ================================================================== *)

Module Sqlite.

Record Student : Type := {
  st_student_id : string;
  st_name : string;
  st_has_face_encoding : bool
}.

(** [attendance]: [date] is a day number, [check_in_time] the second of
    the day. *)
Record Attendance : Type := {
  att_student_id : string;
  att_student_name : string;
  att_date : Z;
  att_check_in_time : Z;
  att_method : string;
  att_confidence_score : Q;
  att_is_offline : Z
}.

Record Session : Type := {
  ses_student_id : string;
  ses_session_token : string;
  ses_qr_verified : Z;
  ses_face_verified : Z;
  ses_created_at : Z;
  ses_expires_at : Z
}.

Record Notification : Type := {
  ntf_recipient : string;
  ntf_subject : string;
  ntf_status : string
}.

Record DB {cv : CV2} : Type := {
  students : list Student;
  attendance : list Attendance;
  attendance_sessions : list Session;
  face_encodings : list (string * Encoding);
  notifications : list Notification
}.

(** [method TEXT DEFAULT 'face_recognition'] *)
Definition DEFAULT_METHOD : string := "face_recognition".

Definition CURRENT_DATE (now : Z) : Z := now / 86400.
Definition CURRENT_TIME (now : Z) : Z := now mod 86400.

(** [SELECT name FROM students WHERE student_id = ?], [fetchone()] *)
Definition select_student_name (tbl : list Student) (sid : string)
  : option string :=
  option_map st_name
    (find (fun s => String.eqb (st_student_id s) sid) tbl).

(** Rows in conflict with [UNIQUE(student_id, date)]. *)
Definition same_student_date (sid : string) (d : Z) (r : Attendance) : bool :=
  String.eqb (att_student_id r) sid && (att_date r =? d).

Definition UNIQUE_attendance : string :=
  "UNIQUE constraint failed: attendance.student_id, attendance.date".

(** [INSERT INTO attendance ...] under [UNIQUE(student_id, date)].  The
    foreign key is declared but not enforced (no [PRAGMA foreign_keys]). *)
Definition insert_attendance (tbl : list Attendance) (row : Attendance)
  : Py.Result (list Attendance) :=
  if existsb (same_student_date (att_student_id row) (att_date row)) tbl
  then Py.Raise (Py.IntegrityError UNIQUE_attendance)
  else Py.Return (tbl ++ [row]).

(** The Python objects handed to [execute] for the [?] of a statement. *)
Inductive Param : Type :=
| PText (s : string)                     (* str *)
| PReal (x : Q)                          (* float *)
| PDate (day : Z)                        (* datetime.date *)
| PTime (second : Z).                    (* datetime.time *)

(** The binding of the parameters, before the statement runs: [str] and
    [float] are bound as they are and a [datetime.date] through the default
    adapter of [sqlite3]; [datetime.time] has no adapter and the call
    raises.  Positions count from 1, as in the message of Python 3.11 and
    later (earlier versions word the same error differently). *)
Fixpoint bind_from (position : Z) (params : list Param) : Py.Result unit :=
  match params with
  | [] => Py.Return tt
  | PTime _ :: _ => Py.Raise (Py.BindingError position "datetime.time")
  | _ :: rest => bind_from (position + 1) rest
  end.

Definition bind_parameters (params : list Param) : Py.Result unit :=
  bind_from 1 params.

(** [DELETE FROM attendance_sessions WHERE expires_at < CURRENT_TIMESTAMP] *)
Definition delete_expired (tbl : list Session) (now : Z) : list Session :=
  filter (fun s => negb (ses_expires_at s <? now)) tbl.

(** [DELETE FROM attendance_sessions WHERE student_id = ?] *)
Definition delete_sessions_of (tbl : list Session) (sid : string)
  : list Session :=
  filter (fun s => negb (String.eqb (ses_student_id s) sid)) tbl.

(** [SELECT * FROM attendance_sessions WHERE student_id = ? AND
    qr_verified = 1 AND face_verified = 0 AND expires_at >
    CURRENT_TIMESTAMP], [fetchone()]: the first matching row in table
    order. *)
Definition select_open_session (tbl : list Session) (sid : string) (now : Z)
  : option Session :=
  find (fun s => String.eqb (ses_student_id s) sid
                 && (ses_qr_verified s =? 1) && (ses_face_verified s =? 0)
                 && (now <? ses_expires_at s)) tbl.

(** [UPDATE attendance_sessions SET face_verified = 1 WHERE student_id = ?
    AND session_token = ?] *)
Definition mark_face_verified (tbl : list Session) (sid token : string)
  : list Session :=
  map (fun s =>
         if String.eqb (ses_student_id s) sid
            && String.eqb (ses_session_token s) token
         then {| ses_student_id := ses_student_id s;
                 ses_session_token := ses_session_token s;
                 ses_qr_verified := ses_qr_verified s;
                 ses_face_verified := 1;
                 ses_created_at := ses_created_at s;
                 ses_expires_at := ses_expires_at s |}
         else s) tbl.

(** [INSERT INTO attendance_sessions ...] under
    [UNIQUE(student_id, session_token)]. *)
Definition insert_session (tbl : list Session) (row : Session)
  : Py.Result (list Session) :=
  if existsb (fun s => String.eqb (ses_student_id s) (ses_student_id row)
                       && String.eqb (ses_session_token s)
                                     (ses_session_token row)) tbl
  then Py.Raise (Py.IntegrityError
    "UNIQUE constraint failed: attendance_sessions.student_id, attendance_sessions.session_token")
  else Py.Return (tbl ++ [row]).

End Sqlite.

(* ================================================================== *)
(** * The libraries behind backend/app.py *)
(* ================================================================== *)

(** What the handlers ask of bleach, base64, numpy, OpenCV, the date parser
    and the [face_recognition] library.  [None] stands for a raised
    exception. *)
Class Host {cv : CV2} : Type := {
  (** [security.sanitize_input]: [bleach.clean], the regex filters, [strip]. *)
  sanitize_input : string -> string;
  (** [base64.b64decode(s)] returns. *)
  b64decode_ok : string -> bool;
  (** [b64decode], [frombuffer], [imdecode], the [None] test and the
      conversion to RGB, on base64 text. *)
  imdecode : string -> option Image;
  (** [np.mean(cv2.cvtColor(image, cv2.COLOR_RGB2GRAY))]; [None] when the
      conversion or the mean raises. *)
  mean_brightness : Image -> option Q;
  (** [enhance_low_light_image], which returns its argument when it fails. *)
  equalize_luminance : Image -> Image;
  (** [datetime.fromisoformat]: day number and second of the day. *)
  fromisoformat : string -> option (Z * Z);
  (** [face_recognition.face_locations(image, model="hog")] *)
  face_locations : Image -> option (list (Z * Z * Z * Z));
  (** [face_recognition.face_encodings(image, face_locations)] *)
  face_encodings_of : Image -> list (Z * Z * Z * Z) -> option (list Encoding);
  (** [face_recognition.face_distance([known], unknown)[0]] *)
  face_distance : Encoding -> Encoding -> Q;
  (** [round(x, ndigits)] *)
  round : Q -> Z -> Q
}.

(* ================================================================== *)
(** * backend/app.py *)
(* ================================================================== *)

Module App.
Section WithHost.
Context {cv : CV2} {host : Host}.

Import Sqlite.

(** The names bound in the module namespace of [app.py]: its imports, its
    assignments, its classes and functions. *)
Definition module_globals : list string :=
  [ "FastAPI"; "HTTPException"; "Request"; "Depends"; "CORSMiddleware";
    "HTTPBearer"; "HTTPAuthorizationCredentials"; "TrustedHostMiddleware";
    "Limiter"; "get_remote_address"; "RateLimitExceeded";
    "SlowAPIMiddleware"; "sqlite3"; "json"; "base64"; "io"; "cv2"; "np";
    "datetime"; "date";
    "BaseModel"; "os"; "logging"; "Optional"; "Dict"; "Any"; "hashlib";
    "secrets"; "requests"; "smtplib"; "contextmanager"; "time"; "uuid";
    "re"; "Path"; "Thread"; "List"; "Query"; "uvicorn"; "MIMEText";
    "MIMEMultipart"; "auth_manager"; "UserRole"; "LoginCredentials";
    "Token"; "limiter"; "rate_limit_exceeded_handler"; "sanitize_input";
    "validate_student_id"; "validate_email"; "log_security_event";
    "SecurityHeaders"; "InputValidator"; "audit_log"; "SecurityConfig";
    "brute_force"; "get_rate_limit"; "LOW_LIGHT_THRESHOLD";
    "APPLY_HISTOGRAM_EQUALIZATION"; "SMTP_SERVER"; "SMTP_PORT";
    "SMTP_USERNAME"; "SMTP_PASSWORD"; "ADMIN_EMAIL"; "EMAIL_ENABLED";
    "DB_FILE"; "DATA_DIR"; "LOG_LEVEL"; "face_recognition";
    "FACE_RECOGNITION_AVAILABLE"; "OpenCVFaceRecognizer";
    "OPENCV_FACE_RECOGNITION_AVAILABLE"; "app"; "security"; "logger";
    "ENCODINGS_FILE"; "STUDENTS_FOLDER"; "opencv_recognizer";
    "StudentPhotoUpload"; "FaceVerificationRequest";
    "QRAttendanceWithFace"; "OfflineAttendanceRecord";
    "NotificationRecord"; "init_db"; "seed_initial_students";
    "load_encodings"; "save_encodings"; "known_encodings";
    "decode_base64_image"; "detect_low_light"; "enhance_low_light_image";
    "log_event"; "send_email_notification"; "queue_notification";
    "send_pending_notifications"; "get_db_connection";
    "mock_face_detection"; "mock_face_encoding"; "mock_face_compare";
    "mock_face_distance"; "get_current_user"; "get_admin_user";
    "security_headers_middleware"; "login"; "logout";
    "get_current_user_info"; "register_user"; "root"; "health_check";
    "upload_student_photo"; "validate_attendance_token";
    "cleanup_expired_sessions"; "verify_face"; "sync_offline_attendance";
    "get_notification_status"; "retry_failed_notifications";
    "get_recent_logs"; "get_event_types"; "get_today_stats";
    "get_today_attendance_list"; "get_all_students";
    "get_attendance_report"; "recognize_face_from_image"; "stats" ].

(** The module-level settings the handlers read. *)
Record Settings : Type := {
  LOW_LIGHT_THRESHOLD : Q;
  APPLY_HISTOGRAM_EQUALIZATION : bool;
  ADMIN_EMAIL : string;
  FACE_RECOGNITION_AVAILABLE : bool;
  OPENCV_FACE_RECOGNITION_AVAILABLE : bool;
  opencv_recognizer : option Recognizer.t
}.

(** The request models. *)
Record FaceVerificationRequest : Type := {
  fv_studentId : string;
  fv_studentName : string;
  fv_image : string
}.

Record OfflineAttendanceRecord : Type := {
  studentId : string;
  studentName : string;
  image : string;
  timestamp : string
}.

(** [InputValidator.validate_face_image] *)
Definition validate_face_image (image_data : string) : bool :=
  if String.eqb image_data EmptyString then false else b64decode_ok image_data.

(** [decode_base64_image].  With a [bytes] argument the test
    [',' in image_data] has a [str] on its left and raises [TypeError];
    the function turns every exception into status 400. *)
Definition decode_base64_image (image_data : Py.Data) : Py.Result Image :=
  match image_data with
  | Py.PyBytes _ =>
      Py.Raise (Py.HTTPException 400
        ("Invalid image: " ++
         Py.str (Py.TypeError "a bytes-like object is required, not 'str'")))
  | Py.PyStr s =>
      let s := if Text.has_comma s then Text.split_comma_1 s else s in
      match imdecode s with
      | Some image => Py.Return image
      | None =>
          Py.Raise (Py.HTTPException 400
            ("Invalid image: " ++
             Py.str (Py.LibraryError "Failed to decode image")))
      end
  end.

Record LowLight : Type := {
  brightness : Q;
  is_low_light : bool;
  threshold : Q
}.

(** [detect_low_light].  The [try] block measures the image, compares the
    measure with the threshold and serialises the result for the log
    before it returns it; [is_low_light] is the [numpy.bool_] of the
    comparison, so [json.dumps(result)] raises and the [except] clause
    answers.  [log_event] catches its own errors. *)
Definition detect_low_light (cfg : Settings) (image : Image) : LowLight :=
  let body :=
    match mean_brightness image with
    | None => Py.Raise (Py.LibraryError "cvtColor")
    | Some avg_brightness =>
        let is_low_light :=
          Recognizer.Qltb avg_brightness (LOW_LIGHT_THRESHOLD cfg) in
        let result :=
          [ ("brightness", Py.PyFloat avg_brightness);
            ("is_low_light", Py.NumpyBool is_low_light);
            ("threshold", Py.PyFloat (LOW_LIGHT_THRESHOLD cfg)) ] in
        _ <- Py.json_dumps result ;;
        Py.Return
          {| brightness := avg_brightness;
             is_low_light := is_low_light;
             threshold := LOW_LIGHT_THRESHOLD cfg |}
    end in
  match body with
  | Py.Return result => result
  | Py.Raise _ =>
      {| brightness := 0; is_low_light := false;
         threshold := LOW_LIGHT_THRESHOLD cfg |}
  end.

Definition enhance_low_light_image (image : Image) : Image :=
  equalize_luminance image.

(** The ["message"] of a result of [recognize_face_from_image]. *)
Inductive Message : Type :=
| LOW_LIGHT_DETECTED (brightness threshold : Q)
| FaceMismatch (recognized expected : string) (confidence : Q)
    (* "Face does not match expected student. Recognized as .., but expected .." *)
| StudentNotInDatabase (sid : string)
| FromRecognizer (m : Recognizer.Message)
| NoFaceInImage            (* "No face detected in image" *)
| SeveralFaces             (* "Multiple faces detected" *)
| NoEncoding               (* "Could not generate face encoding" *)
| NoRegisteredEncodings    (* "No registered face encodings found" *)
| NotExpectedStudent (expected detected_student : string)
| NoMatchingFace (best_distance : option Q)
| MockMode                 (* "Mock mode - face recognition not available" *)
| FaceRecognitionError (e : Py.Exn).

Record FaceResult : Type := {
  is_match : bool;                   (* "match" *)
  message : option Message;
  student_id : option string;
  student_name : option string;
  confidence : option Q
}.

Definition no_match (m : Message) (c : option Q) : FaceResult :=
  {| is_match := false; message := Some m; student_id := None;
     student_name := None; confidence := c |}.

(** The branch of [recognize_face_from_image] that uses the OpenCV
    recognizer. *)
Definition classify_opencv (db : DB) (r : Recognizer.t) (image : Image)
           (expected_student_id : option string) : Py.Result FaceResult :=
  let result := Recognizer.recognize_face r image 60 in
  if Recognizer.is_match result then
    match Recognizer.student_id result with
    | None => Py.Raise (Py.KeyError "student_id")
    | Some sid =>
        if Py.truthy expected_student_id
           && negb (String.eqb sid
                      (match expected_student_id with
                       | Some e => e | None => EmptyString end))
        then
          Py.Return
            (no_match
               (FaceMismatch sid
                  (match expected_student_id with
                   | Some e => e | None => EmptyString end)
                  (Recognizer.confidence result))
               (Some (Recognizer.confidence result)))
        else
          match select_student_name (students db) sid with
          | Some name =>
              Py.Return
                {| is_match := true;
                   message :=
                     Some (FromRecognizer (Recognizer.message result));
                   student_id := Some sid;
                   student_name := Some name;
                   confidence := Some (Recognizer.confidence result) |}
          | None => Py.Return (no_match (StudentNotInDatabase sid) None)
          end
    end
  else
    Py.Return (no_match (FromRecognizer (Recognizer.message result))
                        (Some (Recognizer.confidence result))).

(** Rows of the join of [students] with [face_encodings] for the students
    that have an encoding flag. *)
Definition encoded_students (db : DB)
  : list (string * string * option Encoding) :=
  map (fun s =>
         (st_student_id s, st_name s,
          option_map snd
            (find (fun fe => String.eqb (fst fe) (st_student_id s))
                  (face_encodings db))))
      (filter st_has_face_encoding (students db)).

(** [max(0, min(100, (1 - face_distance) * 100))] *)
Definition distance_confidence (d : Q) : Q :=
  let x := ((1 - d) * 100)%Q in
  let m := if Recognizer.Qltb x 100 then x else 100%Q in
  if Recognizer.Qltb 0 m then m else 0%Q.

(** The comparison loop: the best row so far with its distance. *)
Fixpoint best_of (rows : list (string * string * option Encoding))
         (unknown : Encoding) (best : option (string * string * Q))
  : option (string * string * Q) :=
  match rows with
  | [] => best
  | (sid, name, None) :: rest => best_of rest unknown best
  | (sid, name, Some known) :: rest =>
      let d := face_distance known unknown in
      let better :=
        match best with
        | None => true
        | Some (_, _, bd) => Recognizer.Qltb d bd
        end in
      best_of rest unknown (if better then Some (sid, name, d) else best)
  end.

(** The branch that uses the [face_recognition] library. *)
Definition classify_face_recognition (db : DB) (image : Image)
           (expected_student_id : option string) : Py.Result FaceResult :=
  match face_locations image with
  | None => Py.Raise (Py.LibraryError "face_locations")
  | Some [] => Py.Return (no_match NoFaceInImage None)
  | Some (_ :: _ :: _) => Py.Return (no_match SeveralFaces None)
  | Some [loc] =>
      match face_encodings_of image [loc] with
      | None => Py.Raise (Py.LibraryError "face_encodings")
      | Some [] => Py.Return (no_match NoEncoding None)
      | Some (unknown :: _) =>
          match encoded_students db with
          | [] => Py.Return (no_match NoRegisteredEncodings None)
          | rows =>
              match best_of rows unknown None with
              | Some (sid, name, d) =>
                  if Recognizer.Qltb d (6 # 10) then
                    if Py.truthy expected_student_id
                       && negb (String.eqb sid
                                  (match expected_student_id with
                                   | Some e => e | None => EmptyString end))
                    then
                      Py.Return
                        (no_match
                           (NotExpectedStudent
                              (match expected_student_id with
                               | Some e => e | None => EmptyString end) name)
                           None)
                    else
                      Py.Return
                        {| is_match := true; message := None;
                           student_id := Some sid;
                           student_name := Some name;
                           confidence :=
                             Some (round (distance_confidence d) 2) |}
                  else
                    Py.Return
                      (no_match (NoMatchingFace (Some (round d 4))) None)
              | None => Py.Return (no_match (NoMatchingFace None) None)
              end
          end
      end
  end.

(** Lines 1462-1613: the recognition proper, after the brightness gate. *)
Definition classify (cfg : Settings) (db : DB) (image : Image)
           (expected_student_id : option string) : Py.Result FaceResult :=
  match OPENCV_FACE_RECOGNITION_AVAILABLE cfg, opencv_recognizer cfg with
  | true, Some r => classify_opencv db r image expected_student_id
  | _, _ =>
      if FACE_RECOGNITION_AVAILABLE cfg
      then classify_face_recognition db image expected_student_id
      else
        Py.Return
          {| is_match := true; message := Some MockMode;
             student_id :=
               Some (if Py.truthy expected_student_id
                     then match expected_student_id with
                          | Some e => e | None => EmptyString end
                     else "20221CIT0043");
             student_name := Some "Test Student";
             confidence := Some (95 # 1) |}
  end.

(** Lines 1430-1460: the brightness gate.  [inl] is the image handed to
    the recognition, [inr] the rejection. *)
Definition low_light_gate (cfg : Settings) (image : Image)
  : Image + FaceResult :=
  let low_light_result := detect_low_light cfg image in
  if is_low_light low_light_result then
    if APPLY_HISTOGRAM_EQUALIZATION cfg then
      let image' := enhance_low_light_image image in
      let enhanced_check := detect_low_light cfg image' in
      if is_low_light enhanced_check
      then inr (no_match (LOW_LIGHT_DETECTED (brightness enhanced_check)
                                             (LOW_LIGHT_THRESHOLD cfg)) None)
      else inl image'
    else inr (no_match (LOW_LIGHT_DETECTED (brightness low_light_result)
                                           (LOW_LIGHT_THRESHOLD cfg)) None)
  else inl image.

Definition recognize_face_from_image (cfg : Settings) (db : DB)
           (image_data : Py.Data) (expected_student_id : option string)
  : FaceResult :=
  let body :=
    image <- decode_base64_image image_data ;;
    match low_light_gate cfg image with
    | inr rejected => Py.Return rejected
    | inl image' => classify cfg db image' expected_student_id
    end in
  match body with
  | Py.Return result => result
  | Py.Raise e => no_match (FaceRecognitionError e) None
  end.

(** The [except] clauses that close every handler: an [HTTPException]
    goes through, any other exception becomes status 500 with [str(e)].
    A connection that was not committed leaves the stored tables as they
    were. *)
Definition run_request {R : Type} (committed : DB)
           (body : Py.Result (DB * R)) : DB * Py.Result R :=
  match body with
  | Py.Return (db', r) => (db', Py.Return r)
  | Py.Raise (Py.HTTPException c d) =>
      (committed, Py.Raise (Py.HTTPException c d))
  | Py.Raise e => (committed, Py.Raise (Py.HTTPException 500 (Py.str e)))
  end.

Definition with_sessions (db : DB) (tbl : list Session) : DB :=
  {| students := students db; attendance := attendance db;
     attendance_sessions := tbl; face_encodings := face_encodings db;
     notifications := notifications db |}.

Definition with_attendance (db : DB) (tbl : list Attendance) : DB :=
  {| students := students db; attendance := tbl;
     attendance_sessions := attendance_sessions db;
     face_encodings := face_encodings db;
     notifications := notifications db |}.

Definition cleanup_expired_sessions (db : DB) (now : Z) : DB :=
  with_sessions db (delete_expired (attendance_sessions db) now).

Record TokenResponse : Type := {
  tr_success : bool;
  tr_studentId : string;
  tr_studentName : string
}.

(** [POST /api/validate-attendance-token]; [data] is the JSON body. *)
Definition validate_attendance_token (db : DB) (now : Z)
           (data : Py.dict string) : DB * Py.Result TokenResponse :=
  match Py.get data "token" with
  | None => run_request db (Py.Raise (Py.HTTPException 400 "Token is required"))
  | Some raw =>
      let token := Text.strip raw in
      if String.eqb token EmptyString || (String.length token <? 10)%nat then
        run_request db
          (_ <- Security.log_security_event 2 [] ;;
           Py.Raise (Py.HTTPException 400 "Invalid token format"))
      else
        let student_id :=
          if (15 <=? String.length token)%nat
          then Text.prefix 15 token else token in
        if negb (Security.validate_student_id student_id) then
          run_request db
            (_ <- Security.log_security_event 2 [] ;;
             Py.Raise (Py.HTTPException 400 "Invalid student ID in token"))
        else
          match select_student_name (students db) student_id with
          | None =>
              run_request db
                (_ <- Security.log_security_event 2 [] ;;
                 Py.Raise (Py.HTTPException 404 "Student not found"))
          | Some name =>
              let db1 := cleanup_expired_sessions db now in
              run_request db1
                (let sessions1 :=
                   delete_sessions_of (attendance_sessions db1) student_id in
                 (* expires_at = datetime.now() + timedelta(seconds=60) *)
                 _ <- Py.resolve module_globals "datetime" ;;
                 _ <- Py.resolve module_globals "timedelta" ;;
                 let expires_at := now + 60 in
                 sessions2 <-
                   insert_session sessions1
                     {| ses_student_id := student_id;
                        ses_session_token := token;
                        ses_qr_verified := 1;
                        ses_face_verified := 0;
                        ses_created_at := now;
                        ses_expires_at := expires_at |} ;;
                 Py.Return
                   (with_sessions db1 sessions2,
                    {| tr_success := true; tr_studentId := student_id;
                       tr_studentName := name |}))
          end
  end.

Record VerifyResponse : Type := {
  vr_success : bool;
  vr_verified : bool;
  vr_message : option Message;       (* [None]: the success text *)
  vr_confidenceScore : Q;
  vr_studentId : option string;
  vr_studentName : option string;
  vr_method : option string
}.

(** Lines 1004-1039 of [verify_face]: the writes that follow a matching
    face, on the handler's connection. *)
Definition verify_face_commit (db : DB) (now : Z) (sid : string)
           (session : Session) (result : FaceResult)
  : Py.Result (DB * VerifyResponse) :=
  let sessions1 :=
    mark_face_verified (attendance_sessions db) sid
                       (ses_session_token session) in
  match select_student_name (students db) sid with
  | None => Py.Raise (Py.TypeError "'NoneType' object is not subscriptable")
  | Some name =>
      match confidence result with
      | None => Py.Raise (Py.KeyError "confidence")
      | Some c =>
          attendance1 <-
            insert_attendance (attendance db)
              {| att_student_id := sid;
                 att_student_name := name;
                 att_date := CURRENT_DATE now;
                 att_check_in_time := CURRENT_TIME now;
                 att_method := "qr_face";
                 att_confidence_score := c;
                 att_is_offline := 0 |} ;;
          Py.Return
            (with_attendance (with_sessions db sessions1) attendance1,
             {| vr_success := true; vr_verified := true;
                vr_message := None; vr_confidenceScore := c;
                vr_studentId := Some sid; vr_studentName := Some name;
                vr_method := Some "qr_face" |})
      end
  end.

(** Lines 986-1002 of [verify_face]: the answer to a face that did not
    match.  The first call passes [student_id=] and [level=] keywords. *)
Definition verify_face_rejected (db : DB) (result : FaceResult)
  : Py.Result (DB * VerifyResponse) :=
  _ <- Security.log_security_event 2 ["student_id"; "level"] ;;
  (* audit_log("FACE_VERIFICATION_FAILED", user_id, {...}) *)
  _ <- Security.log_security_event 3 [] ;;
  Py.Return
    (db, {| vr_success := false; vr_verified := false;
            vr_message := message result; vr_confidenceScore := 0;
            vr_studentId := None; vr_studentName := None;
            vr_method := None |}).

(** [POST /api/verify-face], for an authenticated caller. *)
Definition verify_face (cfg : Settings) (db : DB) (now : Z)
           (data : FaceVerificationRequest) : DB * Py.Result VerifyResponse :=
  run_request db
    (if negb (Security.validate_student_id (fv_studentId data)) then
       _ <- Security.log_security_event 2 [] ;;
       Py.Raise (Py.HTTPException 400 "Invalid student ID format")
     else if String.eqb (sanitize_input (fv_studentName data)) EmptyString then
       Py.Raise (Py.HTTPException 400 "Student name is required")
     else if negb (validate_face_image (fv_image data)) then
       _ <- Security.log_security_event 2 [] ;;
       Py.Raise (Py.HTTPException 400 "Invalid image data")
     else
       match select_open_session (attendance_sessions db)
                                 (fv_studentId data) now with
       | None =>
           _ <- Security.log_security_event 2 [] ;;
           Py.Raise (Py.HTTPException 400
                       "QR verification required before face scan.")
       | Some session =>
           let image_data := Py.encode (fv_image data) in
           let result :=
             recognize_face_from_image cfg db image_data
                                       (Some (fv_studentId data)) in
           if negb (is_match result)
           then verify_face_rejected db result
           else verify_face_commit db now (fv_studentId data) session result
       end).

(** The entries of ["results"] in the answer of the offline sync. *)
Inductive SyncMessage : Type :=
| FaceFailed (m : option Message)   (* the message of the face result *)
| Synced                            (* "Offline attendance synced successfully" *)
| ErrorProcessing (e : Py.Exn).     (* "Error processing record: .." *)

Record SyncResult : Type := {
  sr_studentId : string;
  sr_success : bool;
  sr_message : SyncMessage
}.

(** The local variables of the loop of [sync_offline_attendance];
    [cursor_attendance] is the attendance table as the open connection
    sees it. *)
Record SyncState : Type := {
  cursor_attendance : list Attendance;
  results : list SyncResult;
  success_count : Z;
  failure_count : Z
}.

Definition sync_failure (st : SyncState) (record : OfflineAttendanceRecord)
           (m : SyncMessage) : SyncState :=
  {| cursor_attendance := cursor_attendance st;
     results := results st ++
                [{| sr_studentId := studentId record; sr_success := false;
                    sr_message := m |}];
     success_count := success_count st;
     failure_count := failure_count st + 1 |}.

(** Lines 1076-1083: the client timestamp, or the server clock when it
    does not parse: [timestamp.date()] and [timestamp.time()], a
    [datetime.date] and a [datetime.time]. *)
Definition resolve_timestamp (now : Z) (record : OfflineAttendanceRecord)
  : Z * Z :=
  match fromisoformat (Text.replace_Z (timestamp record)) with
  | Some (attendance_date, attendance_time) =>
      (attendance_date, attendance_time)
  | None => (CURRENT_DATE now, CURRENT_TIME now)
  end.

(** The row that the [INSERT] of lines 1085-1091 describes. *)
Definition offline_row (now : Z) (record : OfflineAttendanceRecord)
           (sid name : string) (c : Q) : Attendance :=
  {| att_student_id := sid;
     att_student_name := name;
     att_date := fst (resolve_timestamp now record);
     att_check_in_time := snd (resolve_timestamp now record);
     att_method := "face_recognition";
     att_confidence_score := c;
     att_is_offline := 1 |}.

(** Lines 1076-1103: what the loop does with a matching face result.
    The date and the time of day are handed to [execute] as the objects
    [resolve_timestamp] made. *)
Definition sync_store (now : Z) (st : SyncState)
           (record : OfflineAttendanceRecord) (face_result : FaceResult)
  : SyncState :=
  let body :=
    match student_id face_result, student_name face_result,
          confidence face_result with
    | Some sid, Some name, Some c =>
        let attendance_date := fst (resolve_timestamp now record) in
        let attendance_time := snd (resolve_timestamp now record) in
        _ <- bind_parameters
               [ PText sid; PText name; PDate attendance_date;
                 PTime attendance_time; PReal c ] ;;
        insert_attendance (cursor_attendance st)
                          (offline_row now record sid name c)
    | None, _, _ => Py.Raise (Py.KeyError "student_id")
    | _, None, _ => Py.Raise (Py.KeyError "student_name")
    | _, _, None => Py.Raise (Py.KeyError "confidence")
    end in
  match body with
  | Py.Return attendance1 =>
      {| cursor_attendance := attendance1;
         results := results st ++
                    [{| sr_studentId := studentId record;
                        sr_success := true; sr_message := Synced |}];
         success_count := success_count st + 1;
         failure_count := failure_count st |}
  | Py.Raise e => sync_failure st record (ErrorProcessing e)
  end.

(** One turn of the loop. *)
Definition sync_record (cfg : Settings) (db : DB) (now : Z)
           (st : SyncState) (record : OfflineAttendanceRecord) : SyncState :=
  let image_data := Py.encode (image record) in
  let face_result :=
    recognize_face_from_image cfg db image_data (Some (studentId record)) in
  if negb (is_match face_result)
  then sync_failure st record (FaceFailed (message face_result))
  else sync_store now st record face_result.

Record SyncSummary : Type := {
  total : Z;
  success : Z;
  failed : Z
}.

Record SyncResponse : Type := {
  sync_results : list SyncResult;
  summary : SyncSummary
}.

(** [queue_notification(ADMIN_EMAIL, ...)]: one more pending row. *)
Definition queue_notification (cfg : Settings) (db : DB) : DB :=
  {| students := students db; attendance := attendance db;
     attendance_sessions := attendance_sessions db;
     face_encodings := face_encodings db;
     notifications :=
       notifications db ++
       [{| ntf_recipient := ADMIN_EMAIL cfg;
           ntf_subject := "Offline Attendance Sync Completed";
           ntf_status := "pending" |}] |}.

Definition sync_loop (cfg : Settings) (db : DB) (now : Z)
           (records : list OfflineAttendanceRecord) : SyncState :=
  fold_left (sync_record cfg db now) records
            {| cursor_attendance := attendance db; results := [];
               success_count := 0; failure_count := 0 |}.

(** [POST /api/sync-offline-attendance] *)
Definition sync_offline_attendance (cfg : Settings) (db : DB) (now : Z)
           (records : list OfflineAttendanceRecord)
  : DB * Py.Result SyncResponse :=
  let st := sync_loop cfg db now records in
  let db1 := with_attendance db (cursor_attendance st) in
  let db2 := if 0 <? success_count st
             then queue_notification cfg db1 else db1 in
  (db2,
   Py.Return
     {| sync_results := results st;
        summary := {| total := Z.of_nat (List.length records);
                      success := success_count st;
                      failed := failure_count st |} |}).

End WithHost.
End App.

(* ================================================================== *)
(** * The columns of the tables, and the statements that name them *)
(* ================================================================== *)

Module Schema.

(** The [CREATE TABLE] statements of [init_db]: each table with its
    columns. *)
Definition tables : Py.dict (list string) :=
  [ ("students",
     ["id"; "student_id"; "name"; "grade"; "photo_path"; "has_face_encoding";
      "created_at"]);
    ("attendance",
     ["id"; "student_id"; "student_name"; "date"; "check_in_time"; "method";
      "confidence_score"; "created_at"; "is_offline"]);
    ("face_encodings", ["id"; "student_id"; "encoding"; "created_at"]);
    ("notifications",
     ["id"; "recipient"; "subject"; "message"; "status"; "created_at";
      "sent_at"; "retry_count"]);
    ("logs",
     ["id"; "timestamp"; "event_type"; "message"; "student_id"; "level"]);
    ("offline_sync_queue",
     ["id"; "student_id"; "student_name"; "date"; "check_in_time"; "method";
      "confidence_score"; "client_timestamp"; "sync_status"; "created_at";
      "retry_count"]);
    ("attendance_sessions",
     ["id"; "student_id"; "session_token"; "qr_verified"; "face_verified";
      "created_at"; "expires_at"]) ].

(** [cursor.execute] of a statement that names the given columns of a
    table: SQLite refuses the statement ([sqlite3.OperationalError]) when
    the table or one of the columns does not exist. *)
Definition execute (table : string) (columns : list string) : Py.Result unit :=
  match Py.get tables table with
  | None => Py.Raise (Py.LibraryError ("no such table: " ++ table))
  | Some known =>
      match find (fun c => negb (existsb (String.eqb c) known)) columns with
      | Some c => Py.Raise (Py.LibraryError ("no such column: " ++ c))
      | None => Py.Return tt
      end
  end.

(** Stable sort by an integer key, ascending. *)
Fixpoint insert_by {A} (key : A -> Z) (x : A) (l : list A) : list A :=
  match l with
  | [] => [x]
  | y :: l' => if key y <=? key x then y :: insert_by key x l' else x :: l
  end.

Definition order_by {A} (key : A -> Z) (l : list A) : list A :=
  fold_left (fun sorted x => insert_by key x sorted) l [].

(** [LIMIT n]; a negative [n] is no limit. *)
Definition limit {A} (n : Z) (l : list A) : list A :=
  if n <? 0 then l else firstn (Z.to_nat n) l.

End Schema.

(* ================================================================== *)
(** * backend/app.py: telemetry *)
(* ================================================================== *)

Module Telemetry.

Record LogRow : Type := {
  log_timestamp : Z;
  log_event_type : string;
  log_message : string;
  log_student_id : option string;
  log_level : string
}.

(** [log_event]: the [INSERT] names the columns [event_type], [message],
    [details], [student_id] and [level]; any exception is caught and the
    event is printed instead. *)
Definition log_event (logs : list LogRow) (now : Z) (event_type message : string)
           (student_id details : option string) (level : string)
  : list LogRow :=
  match Schema.execute "logs"
          ["event_type"; "message"; "details"; "student_id"; "level"] with
  | Py.Return _ =>
      logs ++ [{| log_timestamp := now; log_event_type := event_type;
                  log_message := message; log_student_id := student_id;
                  log_level := level |}]
  | Py.Raise _ => logs
  end.

(** [GET /api/logs/recent] *)
Definition get_recent_logs (logs : list LogRow) (limit : Z)
           (event_type : option string) : Py.Result (list LogRow * Z) :=
  let body :=
    _ <- Schema.execute "logs"
           ["event_type"; "message"; "details"; "student_id"; "timestamp";
            "level"] ;;
    let selected :=
      if Py.truthy event_type
      then filter (fun row =>
                     String.eqb (log_event_type row)
                                (match event_type with
                                 | Some e => e | None => EmptyString end))
                  logs
      else logs in
    let rows :=
      Schema.limit limit
        (Schema.order_by (fun row => - log_timestamp row) selected) in
    Py.Return (rows, Z.of_nat (List.length rows)) in
  match body with
  | Py.Return r => Py.Return r
  | Py.Raise e => Py.Raise (Py.HTTPException 500 (Py.str e))
  end.

End Telemetry.

(* ================================================================== *)
(** * backend/app.py: the notification queue *)
(* ================================================================== *)

Module Notify.
Section WithMail.

(** [EMAIL_ENABLED], and whether the SMTP exchange of
    [send_email_notification] goes through for a message. *)
Variable EMAIL_ENABLED : bool.
Variable smtp_delivers : string -> string -> string -> bool.

Record Row : Type := {
  id : Z;
  recipient : string;
  subject : string;
  message : string;
  status : string;
  created_at : Z;
  sent_at : option Z;
  retry_count : Z
}.

Definition send_email_notification (to subj msg : string) : bool :=
  if negb EMAIL_ENABLED then false else smtp_delivers to subj msg.

(** [SELECT ... WHERE status = 'pending' ORDER BY created_at ASC LIMIT 10]
    (rows of equal [created_at] in table order). *)
Definition pending (tbl : list Row) : list Row :=
  Schema.limit 10
    (Schema.order_by created_at
       (filter (fun n => String.eqb (status n) "pending") tbl)).

Definition set_status (tbl : list Row) (nid : Z) (st : string)
           (sent : option Z) : list Row :=
  map (fun n =>
         if id n =? nid
         then {| id := id n; recipient := recipient n; subject := subject n;
                 message := message n; status := st;
                 created_at := created_at n;
                 sent_at := match sent with Some t => Some t | None => sent_at n end;
                 retry_count := retry_count n |}
         else n) tbl.

(** The loop over the selected rows, on the open connection: the mails
    that went out so far, and the table as the connection sees it, or the
    exception that ended the loop. *)
Fixpoint deliver (now : Z) (batch : list Row) (mails : list Z)
         (tbl : list Row) : list Z * Py.Result (list Row) :=
  match batch with
  | [] => (mails, Py.Return tbl)
  | n :: rest =>
      if send_email_notification (recipient n) (subject n) (message n)
      then
        match Schema.execute "notifications" ["status"; "sent_at"; "id"] with
        | Py.Return _ =>
            deliver now rest (mails ++ [id n])
                    (set_status tbl (id n) "sent" (Some now))
        | Py.Raise e => (mails ++ [id n], Py.Raise e)
        end
      else
        match Schema.execute "notifications"
                ["status"; "error_message"; "id"] with
        | Py.Return _ =>
            deliver now rest mails (set_status tbl (id n) "failed" None)
        | Py.Raise e => (mails, Py.Raise e)
        end
  end.

(** [send_pending_notifications]: the mails sent and the stored table
    afterwards; the updates are committed after the loop only. *)
Definition send_pending_notifications (now : Z) (tbl : list Row)
  : list Z * list Row :=
  match deliver now (pending tbl) [] tbl with
  | (mails, Py.Return tbl') => (mails, tbl')
  | (mails, Py.Raise _) => (mails, tbl)
  end.

(** Whether the mail of a row goes out. *)
Definition sends (n : Row) : bool :=
  send_email_notification (recipient n) (subject n) (message n).

(** The rows of a batch marked as sent, one after the other. *)
Definition mark_sent (now : Z) (batch tbl : list Row) : list Row :=
  fold_left (fun t n => set_status t (id n) "sent" (Some now)) batch tbl.

End WithMail.
End Notify.

(* ================================================================== *)
(** * backend/security.py: brute-force protection, and the login gate *)
(* ================================================================== *)

Module Lockout.

Definition LOCKOUT_DURATION_MINUTES : Q := 15.
Definition MAX_LOGIN_ATTEMPTS : nat := 5.

(** [BruteForceProtection.failed_attempts]: the times of the failures,
    by identifier. *)
Definition Attempts : Type := Py.dict (list Q).

(** [record_failed_attempt], both readings of the clock taken as one. *)
Definition record_failed_attempt (fa : Attempts) (identifier : string)
           (now : Q) : Attempts :=
  let fa1 := if Py.contains fa identifier then fa
             else Py.set fa identifier [] in
  let attempts :=
    match Py.get fa1 identifier with
    | Some l => l ++ [now]
    | None => [now]
    end in
  let cutoff := (now - LOCKOUT_DURATION_MINUTES * 60)%Q in
  Py.set fa1 identifier
         (filter (fun attempt => Recognizer.Qltb cutoff attempt) attempts).

Definition is_locked_out (fa : Attempts) (identifier : string) : bool :=
  match Py.get fa identifier with
  | None => false
  | Some l => (MAX_LOGIN_ATTEMPTS <=? List.length l)%nat
  end.

(** [min(l)] of a list that is not empty. *)
Definition minimum (l : list Q) : Q :=
  match l with
  | [] => 0
  | x :: rest => fold_left (fun m y => if Recognizer.Qltb y m then y else m) rest x
  end.

(** [max(0, int(remaining))] *)
Definition get_remaining_lockout_time (fa : Attempts) (identifier : string)
           (now : Q) : Z :=
  if negb (is_locked_out fa identifier) then 0
  else
    match Py.get fa identifier with
    | None => 0
    | Some l =>
        let lockout_end := (minimum l + LOCKOUT_DURATION_MINUTES * 60)%Q in
        let remaining := (lockout_end - now)%Q in
        let seconds := Z.quot (Qnum remaining) (Zpos (Qden remaining)) in
        if 0 <? seconds then seconds else 0
    end.

Definition is_alpha (c : ascii) : bool :=
  let n := nat_of_ascii c in
  (((65 <=? n) && (n <=? 90)) || ((97 <=? n) && (n <=? 122)))%nat.

Definition is_alnum (c : ascii) : bool := is_alpha c || Text.is_digit c.

Definition one_of (chars : string) (c : ascii) : bool :=
  existsb (Ascii.eqb c) (list_ascii_of_string chars).

(** The text before the first [stop] and the text after it. *)
Fixpoint split_first (stop : ascii) (l : list ascii)
  : option (list ascii * list ascii) :=
  match l with
  | [] => None
  | c :: l' =>
      if Ascii.eqb c stop then Some ([], l')
      else match split_first stop l' with
           | Some (before, rest) => Some (c :: before, rest)
           | None => None
           end
  end.

(** [security.validate_email]:
    [^[a-zA-Z0-9._%+-]+@[a-zA-Z0-9.-]+\.[a-zA-Z]{2,}$].  The local part
    ends at the first [@]; the last group holds no dot, so it starts after
    the last dot; [$] allows one final newline. *)
Definition validate_email (email : string) : bool :=
  let l := list_ascii_of_string email in
  let l := match rev l with
           | nl :: front => if Ascii.eqb nl "010"%char then rev front else l
           | [] => l
           end in
  match split_first "@"%char l with
  | None => false
  | Some (local, rest) =>
      negb (Nat.eqb (List.length local) 0)
      && forallb (fun c => is_alnum c || one_of "._%+-" c) local
      && match split_first "."%char (rev rest) with
         | None => false
         | Some (tld_rev, domain_rev) =>
             negb (Nat.eqb (List.length domain_rev) 0)
             && forallb (fun c => is_alnum c || one_of ".-" c) domain_rev
             && (2 <=? List.length tld_rev)%nat
             && forallb is_alpha tld_rev
         end
  end.

Section WithAccounts.

(** [auth_manager.authenticate_user] and [create_access_token]: the user
    id behind valid credentials, and the token made for it. *)
Variable authenticate_user : string -> string -> option string.
Variable create_access_token : string -> string.

(** [POST /api/auth/login] for a caller at address [ip]. *)
Definition login (fa : Attempts) (now : Q) (ip email password : string)
  : Attempts * Py.Result string :=
  if is_locked_out fa ip then
    (fa, Py.Raise
           (Py.HTTPException 429
              ("Too many failed attempts. Try again in "
               ++ Py.str_of_Z (get_remaining_lockout_time fa ip now)
               ++ " seconds")))
  else if negb (validate_email email) then
    (fa, Py.Raise (Py.HTTPException 400 "Invalid email format"))
  else
    match authenticate_user email password with
    | None =>
        (record_failed_attempt fa ip now,
         Py.Raise (Py.HTTPException 401 "Invalid credentials"))
    | Some user =>
        (if Py.contains fa ip then Py.del fa ip else fa,
         Py.Return (create_access_token user))
    end.

End WithAccounts.
End Lockout.

(* ================================================================== *)
(** * backend/app.py: start-up and enrolment *)
(* ================================================================== *)

Module Admin.
Section WithHost.
Context {cv : CV2} {host : Host}.
Import Sqlite.

(** [mock_face_encoding(image)], a random vector in the source. *)
Variable mock_face_encoding : Image -> Encoding.

(** The module-level dictionary [known_encodings] of [app.py]: name and
    encoding by student. *)
Definition Known : Type := Py.dict (string * Encoding).

(** What [DATA_DIR / 'face_encodings.json'] holds: the pickle written by
    the recognizer's [save_encodings], or the JSON text written by the
    [save_encodings] of [app.py].  Both use this one path. *)
Inductive EncodingsFile : Type :=
| Pickle (data : Py.dict (list Template) * Py.dict Z * Z)
| Json (data : Known).

(** The file the recognizer leaves on disk. *)
Definition file_of (r : Recognizer.t) : option EncodingsFile :=
  option_map Pickle (Recognizer.encodings_file r).

(** [OpenCVFaceRecognizer(ENCODINGS_FILE, STUDENTS_FOLDER)]: [pickle.load]
    of a file that is not a pickle raises, which [load_encodings] catches. *)
Definition start_recognizer (file : option EncodingsFile) : Recognizer.t :=
  match file with
  | Some (Pickle data) => Recognizer.restart (Some data)
  | Some (Json _) | None => Recognizer.restart None
  end.

(** [load_encodings()] of [app.py]: [json.load] of the file opened as
    UTF-8 text.  A pickle starts with the byte 0x80 and cannot be read as
    UTF-8; nothing catches the error. *)
Definition load_encodings (file : option EncodingsFile) : Py.Result Known :=
  match file with
  | None => Py.Return []
  | Some (Json data) => Py.Return data
  | Some (Pickle _) =>
      Py.Raise
        (Py.LibraryError
           "'utf-8' codec can't decode byte 0x80 in position 0: invalid start byte")
  end.

(** The import of [app.py] up to [known_encodings = load_encodings()]. *)
Definition import_app (opencv_available : bool) (file : option EncodingsFile)
  : Py.Result (option Recognizer.t * Known) :=
  let opencv_recognizer :=
    if opencv_available then Some (start_recognizer file) else None in
  known_encodings <- load_encodings file ;;
  Py.Return (opencv_recognizer, known_encodings).

Definition with_students (db : DB) (tbl : list Student) : DB :=
  {| students := tbl; attendance := attendance db;
     attendance_sessions := attendance_sessions db;
     face_encodings := face_encodings db;
     notifications := notifications db |}.

Definition initial_students : list (string * string) :=
  [ ("20221CIT0043", "Amrutha M");
    ("20221CIT0049", "C M Shalini");
    ("20221CIT0151", "Vismaya L") ].

(** [INSERT OR IGNORE INTO students]: a taken [student_id] is skipped. *)
Definition insert_or_ignore (tbl : list Student) (row : Student)
  : list Student :=
  if existsb (fun s => String.eqb (st_student_id s) (st_student_id row)) tbl
  then tbl else tbl ++ [row].

Definition seed_initial_students (db : DB) : DB :=
  match students db with
  | [] =>
      with_students db
        (fold_left
           (fun tbl '(student_id, name) =>
              insert_or_ignore tbl
                {| st_student_id := student_id; st_name := name;
                   st_has_face_encoding := false |})
           initial_students [])
  | _ :: _ => db
  end.

(** [INSERT OR REPLACE INTO students]: a row with the same [student_id] is
    deleted, the new row is added. *)
Definition insert_or_replace (tbl : list Student) (row : Student)
  : list Student :=
  filter (fun s => negb (String.eqb (st_student_id s) (st_student_id row))) tbl
  ++ [row].

Record StudentPhotoUpload : Type := {
  up_studentId : string;
  up_studentName : string;
  up_image : string
}.

Record UploadResponse : Type := {
  up_success : bool;
  up_opencv_mode : bool;
  up_mock_mode : option bool
}.

(** What an upload meets outside the process: the students folder, the
    encodings file and the database file.  [Some msg] stands for the
    exception that the call raises, [None] for a call that returns. *)
Record Storage : Type := {
  (** [cv2.cvtColor] to BGR and [cv2.imwrite(str(image_path), image_bgr)];
      the answer of [imwrite] is not looked at. *)
  imwrite : string -> Image -> option string;
  (** [save_encodings(known_encodings)] of [app.py]: the JSON file is
      opened and written. *)
  write_encodings : Known -> option string;
  (** [get_db_connection()], the [INSERT OR REPLACE] and [commit()] on the
      database file, which another connection may hold locked. *)
  commit_students : Student -> option string
}.

(** The state an upload works on: the recognizer, the tables and the
    dictionary of [app.py], and the storage under them. *)
Record Installation : Type := {
  settings : App.Settings;
  tables : DB;
  known_encodings : Known;
  storage : Storage
}.

(** A call of the storage: it returns, or raises the exception [exn]
    with the message of the failure. *)
Definition call (exn : string -> Py.Exn) (failure : option string)
  : Py.Result unit :=
  match failure with
  | Some msg => Py.Raise (exn msg)
  | None => Py.Return tt
  end.

Definition with_recognizer (cfg : App.Settings) (r : Recognizer.t)
  : App.Settings :=
  {| App.LOW_LIGHT_THRESHOLD := App.LOW_LIGHT_THRESHOLD cfg;
     App.APPLY_HISTOGRAM_EQUALIZATION := App.APPLY_HISTOGRAM_EQUALIZATION cfg;
     App.ADMIN_EMAIL := App.ADMIN_EMAIL cfg;
     App.FACE_RECOGNITION_AVAILABLE := App.FACE_RECOGNITION_AVAILABLE cfg;
     App.OPENCV_FACE_RECOGNITION_AVAILABLE :=
       App.OPENCV_FACE_RECOGNITION_AVAILABLE cfg;
     App.opencv_recognizer := Some r |}.

Definition enrolled_row (student : StudentPhotoUpload) : Student :=
  {| st_student_id := up_studentId student;
     st_name := up_studentName student;
     st_has_face_encoding := true |}.

(** The exits of the handler: an [HTTPException] goes through, any other
    exception becomes status 500. *)
Definition http_errors {R} (e : Py.Exn) : Py.Result R :=
  match e with
  | Py.HTTPException c d => Py.Raise (Py.HTTPException c d)
  | _ => Py.Raise (Py.HTTPException 500 (Py.str e))
  end.

(** Lines 796-805 and 843-851: the row of the student is written and
    committed; an error leaves the tables as they were. *)
Definition update_database (inst : Installation)
           (student : StudentPhotoUpload) (response : UploadResponse)
  : Installation * Py.Result UploadResponse :=
  match call Py.OperationalError
             (commit_students (storage inst) (enrolled_row student)) with
  | Py.Raise e => (inst, http_errors e)
  | Py.Return _ =>
      ({| settings := settings inst;
          tables :=
            with_students (tables inst)
              (insert_or_replace (students (tables inst))
                                 (enrolled_row student));
          known_encodings := known_encodings inst;
          storage := storage inst |},
       Py.Return response)
  end.

(** [POST /api/admin/upload-student-photo].  The image arrives as text.
    In the OpenCV mode the recognizer registers, trains and saves first,
    then the photo is written, then the students table; in the other modes
    the photo is written first, then the dictionary is updated and saved,
    then the students table.  Nothing undoes an earlier step when a later
    one raises. *)
Definition upload_student_photo (inst : Installation)
           (student : StudentPhotoUpload)
  : Installation * Py.Result UploadResponse :=
  let cfg := settings inst in
  let image_path := (up_studentId student ++ ".jpg")%string in
  match App.decode_base64_image (Py.PyStr (up_image student)) with
  | Py.Raise e => (inst, http_errors e)
  | Py.Return rgb_image =>
      match App.OPENCV_FACE_RECOGNITION_AVAILABLE cfg,
            App.opencv_recognizer cfg with
      | true, Some r =>
          let '(r', success) :=
            Recognizer.register_face r (up_studentId student) rgb_image in
          let registered :=
            {| settings := with_recognizer cfg r'; tables := tables inst;
               known_encodings := known_encodings inst;
               storage := storage inst |} in
          if negb success then
            (registered,
             Py.Raise
               (Py.HTTPException 400
                  "Failed to register face - no face detected or multiple faces"))
          else
            match call Py.LibraryError
                       (imwrite (storage inst) image_path rgb_image) with
            | Py.Raise e => (registered, http_errors e)
            | Py.Return _ =>
                update_database registered student
                  {| up_success := true; up_opencv_mode := true;
                     up_mock_mode := None |}
            end
      | _, _ =>
          let encoding : Py.Result Encoding :=
            if App.FACE_RECOGNITION_AVAILABLE cfg then
              match face_locations rgb_image with
              | None => Py.Raise (Py.LibraryError "face_locations")
              | Some [] => Py.Raise (Py.HTTPException 400 "No face detected")
              | Some (_ :: _ :: _) =>
                  Py.Raise (Py.HTTPException 400 "Multiple faces detected")
              | Some [loc] =>
                  match face_encodings_of rgb_image [loc] with
                  | None => Py.Raise (Py.LibraryError "face_encodings")
                  | Some [] =>
                      Py.Raise (Py.LibraryError "list index out of range")
                  | Some (face_encoding :: _) => Py.Return face_encoding
                  end
              end
            else Py.Return (mock_face_encoding rgb_image) in
          match encoding with
          | Py.Raise e => (inst, http_errors e)
          | Py.Return face_encoding =>
              match call Py.LibraryError
                         (imwrite (storage inst) image_path rgb_image) with
              | Py.Raise e => (inst, http_errors e)
              | Py.Return _ =>
                  let known :=
                    Py.set (known_encodings inst) (up_studentId student)
                           (up_studentName student, face_encoding) in
                  let encoded :=
                    {| settings := cfg; tables := tables inst;
                       known_encodings := known;
                       storage := storage inst |} in
                  match call Py.LibraryError
                             (write_encodings (storage inst) known) with
                  | Py.Raise e => (encoded, http_errors e)
                  | Py.Return _ =>
                      update_database encoded student
                        {| up_success := true; up_opencv_mode := false;
                           up_mock_mode :=
                             Some (negb (App.FACE_RECOGNITION_AVAILABLE cfg)) |}
                  end
              end
          end
      end
  end.

End WithHost.
End Admin.

(* ================================================================== *)
(** * Predicates used in the statements *)
(* ================================================================== *)

Module Props.
Import Sqlite.

(** The key of [UNIQUE(student_id, date)]. *)
Definition attendance_key (r : Attendance) : string * Z :=
  (att_student_id r, att_date r).

(** At most one attendance row for a student and a date. *)
Definition unique_attendance (tbl : list Attendance) : Prop :=
  NoDup (map attendance_key tbl).

(** A token that passes the checks of [validate_attendance_token] and
    names an existing student. *)
Definition accepted_token {cv : CV2} (db : DB) (raw : string) : Prop :=
  let token := Text.strip raw in
  let student_id :=
    if (15 <=? String.length token)%nat then Text.prefix 15 token else token in
  token <> EmptyString /\ (10 <= String.length token)%nat /\
  Security.validate_student_id student_id = true /\
  select_student_name (students db) student_id <> None.

(** The student the token of an accepted request names. *)
Definition token_student (raw : string) : string :=
  let token := Text.strip raw in
  if (15 <=? String.length token)%nat then Text.prefix 15 token else token.

(** A request that passes the input checks of [verify_face]. *)
Definition well_formed_request {cv : CV2} {host : Host}
           (data : App.FaceVerificationRequest) : Prop :=
  Security.validate_student_id (App.fv_studentId data) = true /\
  sanitize_input (App.fv_studentName data) <> EmptyString /\
  App.validate_face_image (App.fv_image data) = true.

(** The offline items that fail classification: the photo of the item, the
    base64 text that the client sent, is not recognised as the student of
    the item. *)
Definition fails_classification {cv : CV2} {host : Host}
           (cfg : App.Settings) (db : DB)
           (record : App.OfflineAttendanceRecord) : bool :=
  negb (App.is_match
          (App.recognize_face_from_image cfg db
             (Py.PyStr (App.image record)) (Some (App.studentId record)))).

(** The entry of ["results"] for an item whose image did not decode. *)
Definition rejected_item {cv : CV2}
           (record : App.OfflineAttendanceRecord) : App.SyncResult :=
  {| App.sr_studentId := App.studentId record;
     App.sr_success := false;
     App.sr_message :=
       App.FaceFailed
         (Some (App.FaceRecognitionError
                  (Py.HTTPException 400
                     "Invalid image: a bytes-like object is required, not 'str'"))) |}.

(** The samples a recognizer holds for a student ([[]] when it has none). *)
Definition stored {cv : CV2} (r : Recognizer.t) (sid : string) : list Template :=
  match Py.get (Recognizer.known_encodings r) sid with
  | Some samples => samples
  | None => []
  end.

(** The cut of [register_face] to the newest five samples. *)
Definition trim {A} (samples : list A) : list A :=
  if (Recognizer.MAX_SAMPLES <? List.length samples)%nat
  then Py.last_n Recognizer.MAX_SAMPLES samples else samples.

(** The bookkeeping of a recognizer: dictionary keys are unique, labels are
    distinct and below the counter, every enrolled student has a label and
    five samples at most. *)
Record consistent {cv : CV2} (r : Recognizer.t) : Prop := {
  students_unique : NoDup (map fst (Recognizer.known_encodings r));
  labelled_unique : NoDup (map fst (Recognizer.label_map r));
  labels_distinct : NoDup (map snd (Recognizer.label_map r));
  labels_below_next :
    forall sid l, In (sid, l) (Recognizer.label_map r) ->
                  l < Recognizer.next_label r;
  samples_bounded :
    forall sid samples, In (sid, samples) (Recognizer.known_encodings r) ->
                        (List.length samples <= Recognizer.MAX_SAMPLES)%nat;
  enrolled_labelled :
    forall sid, In sid (map fst (Recognizer.known_encodings r)) ->
                In sid (map fst (Recognizer.label_map r))
}.

End Props.

(* ================================================================== *)
(** * A small concrete installation, for the examples *)
(* ================================================================== *)

Module Fixture.

(** A photo is described by what the libraries report about it. *)
Record Photo : Type := {
  boxes : option (list (Z * Z * Z * Z));
  patch : option nat;
  light : option Q
}.

Definition predict (corpus : list (nat * Z)) (face : nat) : option (Z * Q) :=
  match find (fun s => Nat.eqb (fst s) face) corpus with
  | Some (_, label) => Some (label, 10 # 1)
  | None =>
      match corpus with
      | (_, label) :: _ => Some (label, 95 # 1)
      | [] => None
      end
  end.

Definition vision : CV2 :=
  {| Image := Photo; Template := nat; Encoding := nat;
     detectMultiScale := boxes;
     face_patch := fun image _ => patch image;
     lbph_train := fun _ => true;
     lbph_predict := predict |}.

Definition photo (face : nat) : Photo :=
  {| boxes := Some [(40, 30, 120, 120)]; patch := Some face;
     light := Some (120 # 1) |}.

Definition empty_room : Photo :=
  {| boxes := Some []; patch := None; light := Some (120 # 1) |}.

Definition unreadable : Photo :=
  {| boxes := Some [(40, 30, 120, 120)]; patch := Some 1%nat; light := None |}.

Definition decode (s : string) : option Photo :=
  if String.eqb s "QUxJQ0U=" then Some (photo 1)
  else if String.eqb s "Qk9C" then Some (photo 2)
  else if String.eqb s "RU1QVFk=" then Some empty_room
  else if String.eqb s "Tk9MSUdIVA==" then Some unreadable
  else None.

Definition parse_iso (s : string) : option (Z * Z) :=
  if String.eqb s "2025-01-15T09:30:00+00:00" then Some (20103, 34200)
  else None.

Definition libraries : @Host vision :=
  @Build_Host vision
    (fun s => s)                 (* sanitize_input *)
    (fun _ => true)              (* b64decode_ok *)
    decode                       (* imdecode *)
    light                        (* mean_brightness *)
    (fun image => image)         (* equalize_luminance *)
    parse_iso                    (* fromisoformat *)
    boxes                        (* face_locations *)
    (fun _ _ => Some [])         (* face_encodings_of *)
    (fun _ _ => 1%Q)             (* face_distance *)
    (fun q _ => q).              (* round *)

Definition alice : string := "2022CIT0043".
Definition bob : string := "2022CIT0049".

(** A recognizer after six enrolments of one student. *)
Definition enrol (faces : list nat) (sid : string)
           (r : @Recognizer.t vision) : @Recognizer.t vision :=
  fold_left (fun r face => fst (@Recognizer.register_face vision r sid (photo face)))
            faces r.

Definition trained : @Recognizer.t vision :=
  enrol [2%nat] bob (enrol [1%nat] alice (@Recognizer.init vision)).

Definition settings : @App.Settings vision :=
  {| App.LOW_LIGHT_THRESHOLD := 50 # 1;
     App.APPLY_HISTOGRAM_EQUALIZATION := true;
     App.ADMIN_EMAIL := "admin@school.edu";
     App.FACE_RECOGNITION_AVAILABLE := false;
     App.OPENCV_FACE_RECOGNITION_AVAILABLE := true;
     App.opencv_recognizer := Some trained |}.

Definition session (sid : string) (t : Z) : Sqlite.Session :=
  {| Sqlite.ses_student_id := sid; Sqlite.ses_session_token := sid;
     Sqlite.ses_qr_verified := 1; Sqlite.ses_face_verified := 0;
     Sqlite.ses_created_at := t; Sqlite.ses_expires_at := t + 60 |}.

Definition school : list Sqlite.Student :=
  [ {| Sqlite.st_student_id := alice; Sqlite.st_name := "Amrutha M";
       Sqlite.st_has_face_encoding := true |};
    {| Sqlite.st_student_id := bob; Sqlite.st_name := "C M Shalini";
       Sqlite.st_has_face_encoding := true |} ].

Definition database (sessions : list Sqlite.Session)
           (rows : list Sqlite.Attendance) : @Sqlite.DB vision :=
  {| Sqlite.students := school; Sqlite.attendance := rows;
     Sqlite.attendance_sessions := sessions;
     Sqlite.face_encodings := []; Sqlite.notifications := [] |}.

Definition request (sid image : string) : @App.FaceVerificationRequest :=
  {| App.fv_studentId := sid; App.fv_studentName := "Amrutha M";
     App.fv_image := image |}.

Definition item (sid image ts : string) : @App.OfflineAttendanceRecord :=
  {| App.studentId := sid; App.studentName := "Amrutha M";
     App.image := image; App.timestamp := ts |}.

Definition marked (sid : string) (day : Z) : Sqlite.Attendance :=
  {| Sqlite.att_student_id := sid; Sqlite.att_student_name := "Amrutha M";
     Sqlite.att_date := day; Sqlite.att_check_in_time := 30000;
     Sqlite.att_method := "qr_face"; Sqlite.att_confidence_score := 90 # 1;
     Sqlite.att_is_offline := 0 |}.

(** A matching face result, as the recognition would hand it to a caller. *)
Definition matched (sid name : string) : App.FaceResult :=
  {| App.is_match := true; App.message := None;
     App.student_id := Some sid; App.student_name := Some name;
     App.confidence := Some (90 # 1) |}.

(** The default administrator of [auth.py] as the only account. *)
Definition accounts (email password : string) : option string :=
  if String.eqb email "admin@school.edu" && String.eqb password "admin123"
  then Some "admin" else None.

Definition access_token (user : string) : string := "token-of-" ++ user.

(** An address whose oldest failure is fifteen minutes old at time 900 and
    whose newest is one second old. *)
Definition locked_lately : Lockout.Attempts :=
  [("10.0.0.8", [0; 100; 200; 300; 899]%Q)].

(** A mail server that refuses one recipient. *)
Definition delivers (to subj msg : string) : bool :=
  negb (String.eqb to "nobody@school.edu").

Definition notice (nid : Z) (to : string) (created : Z) : Notify.Row :=
  {| Notify.id := nid; Notify.recipient := to;
     Notify.subject := "Offline Attendance Sync Completed";
     Notify.message := "Successfully synced 1 offline attendance records.";
     Notify.status := "pending"; Notify.created_at := created;
     Notify.sent_at := None; Notify.retry_count := 0 |}.

(** The installation without OpenCV, on the [face_recognition] library. *)
Definition fallback_settings : @App.Settings vision :=
  {| App.LOW_LIGHT_THRESHOLD := 50 # 1;
     App.APPLY_HISTOGRAM_EQUALIZATION := false;
     App.ADMIN_EMAIL := "admin@school.edu";
     App.FACE_RECOGNITION_AVAILABLE := true;
     App.OPENCV_FACE_RECOGNITION_AVAILABLE := false;
     App.opencv_recognizer := None |}.

Definition dark : Photo :=
  {| boxes := Some [(40, 30, 120, 120)]; patch := Some 1%nat;
     light := Some (20 # 1) |}.

(** Libraries that decode one more text, to the dark photo, and whose
    equalisation brings the brightness to 120 and alters the face patch. *)
Definition decode_dark (s : string) : option Photo :=
  if String.eqb s "REFSSw==" then Some dark else decode s.

Definition brighten (image : Photo) : Photo :=
  {| boxes := boxes image; patch := option_map S (patch image);
     light := Some (120 # 1) |}.

Definition dim_libraries : @Host vision :=
  @Build_Host vision
    (fun s => s) (fun _ => true) decode_dark light brighten parse_iso boxes
    (fun _ _ => Some []) (fun _ _ => 1%Q) (fun q _ => q).

(** Tables with no student yet. *)
Definition blank : @Sqlite.DB vision :=
  {| Sqlite.students := []; Sqlite.attendance := [];
     Sqlite.attendance_sessions := []; Sqlite.face_encodings := [];
     Sqlite.notifications := [] |}.

(** A storage on which every write succeeds, and one whose database file
    is held locked by another connection. *)
Definition disk : @Admin.Storage vision :=
  {| Admin.imwrite := fun _ _ => None;
     Admin.write_encodings := fun _ => None;
     Admin.commit_students := fun _ => None |}.

Definition locked_disk : @Admin.Storage vision :=
  {| Admin.imwrite := fun _ _ => None;
     Admin.write_encodings := fun _ => None;
     Admin.commit_students := fun _ => Some "database is locked" |}.

Definition upload_of (sid name image : string) : Admin.StudentPhotoUpload :=
  {| Admin.up_studentId := sid; Admin.up_studentName := name;
     Admin.up_image := image |}.

End Fixture.


(* ================================================================== *)
(** * Facts about dictionaries and slices *)
(* ================================================================== *)

Lemma get_set_same {V} (d : Py.dict V) (k : string) (v : V) :
  Py.get (Py.set d k v) k = Some v.
Proof.
  induction d as [| [k' v'] d IH]; simpl.
  - now rewrite String.eqb_refl.
  - destruct (String.eqb k' k) eqn:E; simpl; rewrite E; auto.
Qed.

Lemma contains_of_get {V} (d : Py.dict V) (k : string) (v : V) :
  Py.get d k = Some v -> Py.contains d k = true.
Proof. unfold Py.contains. now intros ->. Qed.

Lemma last_n_drops_oldest {A} (x : A) (l : list A) (y : A) (n : nat) :
  List.length l = n -> Py.last_n (S n) ((x :: l) ++ [y]) = l ++ [y].
Proof.
  intros H. unfold Py.last_n.
  rewrite length_app. simpl List.length. rewrite H.
  replace (S n + 1 - S n)%nat with 1%nat by lia.
  reflexivity.
Qed.

(* ================================================================== *)
(** * The recognizer *)
(* ================================================================== *)

Section RecognizerFacts.
Context {cv : CV2}.
Import Recognizer.

Lemma train_keeps_encodings (r : t) :
  known_encodings (fst (_train_recognizer r)) = known_encodings r /\
  label_map (fst (_train_recognizer r)) = label_map r.
Proof.
  destruct r as [ke lm nl mt rc ef]. unfold _train_recognizer.
  cbn [known_encodings label_map].
  destruct ke as [| p l]; [auto |].
  destruct (training_data (p :: l) lm) as [[| s c] |]; cbn [fst]; auto.
  destruct (lbph_train (s :: c)); cbn [fst known_encodings label_map]; auto.
Qed.

(** Training never clears the flag: it is set or left as it was. *)
Lemma train_keeps_trained (r : t) :
  model_trained r = true -> model_trained (fst (_train_recognizer r)) = true.
Proof.
  destruct r as [ke lm nl mt rc ef]. unfold _train_recognizer.
  cbn [known_encodings label_map model_trained]. intros H.
  destruct ke as [| p l]; [auto |].
  destruct (training_data (p :: l) lm) as [[| s c] |]; cbn [fst]; auto.
  destruct (lbph_train (s :: c)); cbn [fst model_trained]; auto.
Qed.

(** With no template left, training returns at once and changes nothing. *)
Lemma train_without_templates (r : t) :
  known_encodings r = [] -> _train_recognizer r = (r, false).
Proof. intros H. unfold _train_recognizer. now rewrite H. Qed.

(** C7: when a student holds five templates, one more successful
    registration leaves five: the oldest is gone, the other four keep their
    order and the new template comes last. *)
Theorem register_face_keeps_five_latest
        (r : t) (sid : string) (image : Image) (face : Z * Z * Z * Z)
        (oldest new : Template) (others : list Template) :
  detect_faces image = [face] ->
  extract_face_features image face = Some new ->
  Py.get (known_encodings r) sid = Some (oldest :: others) ->
  List.length others = 4%nat ->
  snd (register_face r sid image) = true /\
  Py.get (known_encodings (fst (register_face r sid image))) sid
    = Some (others ++ [new]) /\
  List.length (others ++ [new]) = MAX_SAMPLES.
Proof.
  intros Hd He Hg Hl. unfold register_face. rewrite Hd, He.
  rewrite (contains_of_get _ _ _ Hg), Hg.
  assert (Hs : (MAX_SAMPLES <? List.length ((oldest :: others) ++ [new]))%nat
               = true).
  { rewrite length_app. simpl List.length. rewrite Hl. reflexivity. }
  rewrite Hs.
  destruct (Py.contains (label_map r) sid); cbn [fst snd];
    (split; [reflexivity |]);
    (split; [| rewrite length_app, Hl; reflexivity]);
    unfold save_encodings; cbn [known_encodings];
    rewrite (proj1 (train_keeps_encodings _)); cbn [known_encodings];
    rewrite get_set_same; f_equal;
    apply (last_n_drops_oldest oldest others new 4 Hl).
Qed.

(** C3 (defect): removing the only enrolled student empties the template
    set but leaves the model flagged as trained, so a later classification
    does not answer with the no-faces-registered reason. *)
Theorem remove_last_student_stays_trained
        (r : t) (sid : string) (samples : list Template) :
  model_trained r = true ->
  known_encodings r = [(sid, samples)] ->
  known_encodings (fst (remove_student r sid)) = [] /\
  model_trained (fst (remove_student r sid)) = true /\
  forall image threshold,
    message (recognize_face (fst (remove_student r sid)) image threshold)
    <> NoFacesRegistered.
Proof.
  intros Ht Hk.
  assert (Hc : Py.contains (known_encodings r) sid = true).
  { rewrite Hk. unfold Py.contains. simpl. now rewrite String.eqb_refl. }
  assert (Hd : Py.del (known_encodings r) sid = []).
  { rewrite Hk. simpl. now rewrite String.eqb_refl. }
  unfold remove_student. rewrite Hc, Hd.
  rewrite train_without_templates by reflexivity.
  cbn [fst save_encodings known_encodings model_trained].
  repeat split; auto.
  intros image threshold. unfold recognize_face.
  cbn [model_trained]. rewrite Ht. cbn [negb].
  destruct (detect_faces image) as [| f [| g fs]]; cbn; try discriminate.
  destruct (extract_face_features image f); cbn; try discriminate.
  destruct (lbph_predict _ _) as [[label distance] |]; cbn; try discriminate.
  destruct (student_of_label _ _); cbn; try discriminate.
  destruct (Qltb _ _); cbn; discriminate.
Qed.

(** The sound part of the state machine: a successful registration whose
    training pass is accepted by OpenCV leaves the model trained. *)
Lemma register_face_trains
      (r : t) (sid : string) (image : Image) :
  (forall corpus, lbph_train corpus = true) ->
  label_map r = [] -> known_encodings r = [] ->
  snd (register_face r sid image) = true ->
  model_trained (fst (register_face r sid image)) = true.
Proof.
  intros Htrain Hl Hk. unfold register_face.
  destruct (detect_faces image) as [| f [| g fs]]; cbn [snd]; try discriminate.
  destruct (extract_face_features image f) as [new |]; cbn [snd];
    try discriminate.
  intros _. rewrite Hl, Hk. cbn.
  rewrite !String.eqb_refl. cbn.
  unfold _train_recognizer. cbn. rewrite !String.eqb_refl. cbn.
  rewrite Htrain. reflexivity.
Qed.

(** Once trained, the model stays trained across every registration and
    every removal. *)
Lemma trained_is_stable (r : t) (sid : string) (image : Image) :
  model_trained r = true ->
  model_trained (fst (register_face r sid image)) = true /\
  model_trained (fst (remove_student r sid)) = true.
Proof.
  intros H. split.
  - unfold register_face.
    destruct (detect_faces image) as [| f [| g fs]]; cbn [fst]; auto.
    destruct (extract_face_features image f); cbn [fst]; auto.
    destruct (Py.contains (label_map r) sid); cbn [fst];
      unfold save_encodings; cbn [model_trained];
      apply train_keeps_trained; exact H.
  - unfold remove_student. cbn [fst]. unfold save_encodings.
    cbn [model_trained]. apply train_keeps_trained. exact H.
Qed.

(** C6 (as the code has it): with no detectable face, a trained model
    answers no-face; an untrained model answers no-faces-registered, before
    any detection. *)
Theorem recognize_face_without_faces
        (r : t) (image : Image) (threshold : Q) :
  detect_faces image = [] ->
  recognize_face r image threshold =
    failure (if model_trained r then NoFaceDetected else NoFacesRegistered)
            0 None.
Proof.
  intros H. unfold recognize_face. rewrite H.
  destruct (model_trained r); reflexivity.
Qed.

End RecognizerFacts.

(* ================================================================== *)
(** * The attendance table *)
(* ================================================================== *)

Section TableFacts.
Import Sqlite Props.

Lemma conflict_iff_key (tbl : list Attendance) (sid : string) (d : Z) :
  existsb (same_student_date sid d) tbl = true <->
  In (sid, d) (map attendance_key tbl).
Proof.
  rewrite existsb_exists, in_map_iff. unfold same_student_date, attendance_key.
  split; intros [r H]; exists r.
  - destruct H as [Hin H]. apply andb_true_iff in H as [H1 H2].
    apply String.eqb_eq in H1. apply Z.eqb_eq in H2. now subst.
  - destruct H as [H Hin]. inversion H; subst. split; [assumption |].
    now rewrite String.eqb_refl, Z.eqb_refl.
Qed.

(** An [INSERT] either fails and writes nothing, or adds one row with a
    fresh key. *)
Lemma insert_attendance_unique (tbl tbl' : list Attendance) (row : Attendance) :
  unique_attendance tbl ->
  insert_attendance tbl row = Py.Return tbl' ->
  unique_attendance tbl'.
Proof.
  unfold insert_attendance, unique_attendance. intros Hu.
  destruct (existsb _ tbl) eqn:E; [discriminate |].
  intros H. inversion H; subst. rewrite map_app. simpl.
  apply NoDup_app; [assumption | repeat constructor; intros [] |].
  intros a Ha [Hb | []]. subst a.
  apply conflict_iff_key in Ha. unfold attendance_key in Ha.
  congruence.
Qed.

Lemma insert_attendance_conflict (tbl : list Attendance) (row : Attendance) :
  existsb (same_student_date (att_student_id row) (att_date row)) tbl = true ->
  insert_attendance tbl row = Py.Raise (Py.IntegrityError UNIQUE_attendance).
Proof. unfold insert_attendance. now intros ->. Qed.

End TableFacts.

(* ================================================================== *)
(** * The handlers *)
(* ================================================================== *)

Section AppFacts.
Context {cv : CV2} {host : Host}.
Import Sqlite Props App.

(** Both callers hand [recognize_face_from_image] the image as [bytes];
    decoding then fails and the result is never a match. *)
Lemma recognize_bytes (cfg : Settings) (db : DB) (b : string)
      (expected : option string) :
  recognize_face_from_image cfg db (Py.PyBytes b) expected =
    no_match
      (FaceRecognitionError
         (Py.HTTPException 400
            "Invalid image: a bytes-like object is required, not 'str'"))
      None.
Proof. reflexivity. Qed.

(** The check of the recognised student against the expected one, on an
    image that reached the recognizer. *)
Lemma classify_opencv_mismatch
      (db : DB) (r : Recognizer.t) (image : Image)
      (expected recognised : string) (result : Recognizer.Result) :
  Recognizer.recognize_face r image 60 = result ->
  Recognizer.is_match result = true ->
  Recognizer.student_id result = Some recognised ->
  expected <> EmptyString -> recognised <> expected ->
  classify_opencv db r image (Some expected) =
    Py.Return
      (no_match (FaceMismatch recognised expected (Recognizer.confidence result))
                (Some (Recognizer.confidence result))).
Proof.
  intros Hr Hm Hs He Hne. unfold classify_opencv. rewrite Hr, Hm, Hs.
  cbn [Py.truthy].
  apply String.eqb_neq in He, Hne. rewrite He, Hne. reflexivity.
Qed.

Lemma request_checks (data : FaceVerificationRequest) :
  well_formed_request data ->
  negb (Security.validate_student_id (fv_studentId data)) = false /\
  String.eqb (sanitize_input (fv_studentName data)) EmptyString = false /\
  negb (validate_face_image (fv_image data)) = false.
Proof.
  intros (H1 & H2 & H3). rewrite H1, H3.
  apply String.eqb_neq in H2. auto.
Qed.

(** C1 (defect): a face submitted under an open session never reaches the
    reply that carries the recognition message.  The image is passed on as
    [bytes], so it is not decoded, and the rejection branch calls
    [log_security_event] with a keyword it does not have; the request ends
    with status 500 and the tables are left as they were. *)
Theorem verify_face_rejection_is_internal_error
        (cfg : Settings) (db : DB) (now : Z) (data : FaceVerificationRequest)
        (session : Session) :
  well_formed_request data ->
  select_open_session (attendance_sessions db) (fv_studentId data) now
    = Some session ->
  verify_face cfg db now data =
    (db, Py.Raise
           (Py.HTTPException 500
              "log_security_event() got an unexpected keyword argument 'student_id'")).
Proof.
  intros Hw Hs. apply request_checks in Hw as (H1 & H2 & H3).
  unfold verify_face. rewrite H1, H2, H3, Hs.
  reflexivity.
Qed.

(** [verify_face] never answers normally and never writes. *)
Lemma verify_face_never_writes
      (cfg : Settings) (db : DB) (now : Z) (data : FaceVerificationRequest) :
  fst (verify_face cfg db now data) = db /\
  exists c d, snd (verify_face cfg db now data)
              = Py.Raise (Py.HTTPException c d).
Proof.
  unfold verify_face.
  destruct (negb (Security.validate_student_id _)); [cbn; eauto |].
  destruct (String.eqb _ EmptyString); [cbn; eauto |].
  destruct (negb (validate_face_image _)); [cbn; eauto |].
  destruct (select_open_session _ _ _); cbn; eauto.
Qed.

Lemma find_nothing {A} (f : A -> bool) (l : list A) :
  (forall x, In x l -> f x = false) -> find f l = None.
Proof.
  induction l as [| a l IH]; intros H; simpl; [reflexivity |].
  rewrite (H a (or_introl eq_refl)). apply IH. intros x Hx. apply H. now right.
Qed.

(** C4 (as the code has it): when every session row of the student has
    reached its expiry, the face request is refused with the QR-required
    answer, the very answer given when the student has no session at all;
    nothing is written. *)
Theorem verify_face_after_expiry
        (cfg : Settings) (db : DB) (now : Z) (data : FaceVerificationRequest) :
  well_formed_request data ->
  (forall s, In s (attendance_sessions db) ->
             ses_student_id s = fv_studentId data -> ses_expires_at s <= now) ->
  verify_face cfg db now data =
    (db, Py.Raise
           (Py.HTTPException 400 "QR verification required before face scan."))
  /\ snd (verify_face cfg db now data)
     = snd (verify_face cfg (with_sessions db []) now data).
Proof.
  intros Hw He. apply request_checks in Hw as (H1 & H2 & H3).
  assert (Hn : select_open_session (attendance_sessions db)
                                   (fv_studentId data) now = None).
  { apply find_nothing. intros s Hs.
    destruct (String.eqb (ses_student_id s) (fv_studentId data)) eqn:E;
      [| reflexivity].
    apply String.eqb_eq in E. specialize (He s Hs E).
    replace (now <? ses_expires_at s) with false
      by (symmetry; apply Z.ltb_ge; exact He).
    now rewrite !andb_false_r. }
  unfold verify_face. rewrite H1, H2, H3, Hn.
  cbn [with_sessions attendance_sessions select_open_session find].
  split; reflexivity.
Qed.

(** C5 (defect): for every accepted token the handler purges the expired
    sessions and then stops on the unbound name [timedelta]: the answer is
    status 500, the delete of the student's session is not committed and no
    session row is created. *)
Theorem validate_attendance_token_fails
        (db : DB) (now : Z) (data : Py.dict string) (raw : string) :
  Py.get data "token" = Some raw ->
  accepted_token db raw ->
  validate_attendance_token db now data =
    (cleanup_expired_sessions db now,
     Py.Raise (Py.HTTPException 500 "name 'timedelta' is not defined")).
Proof.
  intros Hg (H1 & H2 & H3 & H4).
  unfold validate_attendance_token. rewrite Hg.
  apply String.eqb_neq in H1. rewrite H1.
  replace (String.length (Text.strip raw) <? 10)%nat with false
    by (symmetry; apply Nat.ltb_ge; exact H2).
  cbn [orb]. rewrite H3. cbn [negb].
  destruct (select_student_name _ _) as [name |]; [| contradiction].
  reflexivity.
Qed.

(** Given a matching face result, the store step of the offline loop ends
    in the [except] clause of the item: the connection's view of the
    attendance table is not touched. *)
Lemma sync_store_fails (now : Z) (st : SyncState)
      (record : OfflineAttendanceRecord) (face_result : FaceResult) :
  exists e,
    sync_store now st record face_result =
    sync_failure st record (ErrorProcessing e).
Proof.
  unfold sync_store.
  destruct (student_id face_result), (student_name face_result),
           (confidence face_result); eexists; reflexivity.
Qed.

(** One turn of the offline loop keeps the connection's view of the
    attendance table free of duplicates. *)
Lemma sync_record_unique (cfg : Settings) (db : DB) (now : Z)
      (st : SyncState) (record : OfflineAttendanceRecord) :
  unique_attendance (cursor_attendance st) ->
  unique_attendance (cursor_attendance (sync_record cfg db now st record)).
Proof.
  intros Hu. unfold sync_record.
  destruct (negb (is_match _)); [exact Hu |].
  destruct (sync_store_fails now st record
              (recognize_face_from_image cfg db (Py.encode (image record))
                                         (Some (studentId record))))
    as [e ->].
  exact Hu.
Qed.

Lemma sync_loop_unique (cfg : Settings) (db : DB) (now : Z)
      (records : list OfflineAttendanceRecord) (st : SyncState) :
  unique_attendance (cursor_attendance st) ->
  unique_attendance
    (cursor_attendance (fold_left (sync_record cfg db now) records st)).
Proof.
  revert st. induction records as [| record records IH]; intros st Hu; simpl.
  - exact Hu.
  - apply IH. apply sync_record_unique. exact Hu.
Qed.

Lemma sync_attendance (cfg : Settings) (db : DB) (now : Z)
      (records : list OfflineAttendanceRecord) :
  attendance (fst (sync_offline_attendance cfg db now records)) =
  cursor_attendance (sync_loop cfg db now records).
Proof.
  unfold sync_offline_attendance. cbn [fst].
  destruct (0 <? success_count _); reflexivity.
Qed.

(** C2 (as the code has it): the attendance table holds one row at most for
    a student and a date, and the commit step of [verify_face], the handler
    itself and the offline sync keep it so.  A commit for a student who
    already has a row for the day is refused by the [INSERT]: the
    uniqueness violation leaves through the [except Exception] clause of
    the handler as status 500 with the text of the constraint (the code
    has no answer of its own for it), and the tables, the earlier row
    included, stay as they were.  A commit for a student without a row for
    the day adds the row. *)
Theorem attendance_unique_per_student_and_date
        (cfg : Settings) (db : DB) (now : Z) (sid name : string)
        (session : Session) (result : FaceResult) (c : Q)
        (data : FaceVerificationRequest)
        (records : list OfflineAttendanceRecord) :
  unique_attendance (attendance db) ->
  select_student_name (students db) sid = Some name ->
  confidence result = Some c ->
  unique_attendance
    (attendance
       (fst (run_request db (verify_face_commit db now sid session result))))
  /\ unique_attendance (attendance (fst (verify_face cfg db now data)))
  /\ unique_attendance
       (attendance (fst (sync_offline_attendance cfg db now records)))
  /\ (existsb (same_student_date sid (CURRENT_DATE now)) (attendance db) = true ->
      verify_face_commit db now sid session result
        = Py.Raise (Py.IntegrityError UNIQUE_attendance) /\
      run_request db (verify_face_commit db now sid session result) =
        (db, Py.Raise (Py.HTTPException 500 UNIQUE_attendance)))
  /\ (existsb (same_student_date sid (CURRENT_DATE now)) (attendance db) = false ->
      exists response,
        run_request db (verify_face_commit db now sid session result) =
          (with_attendance
             (with_sessions db
                (mark_face_verified (attendance_sessions db) sid
                                    (ses_session_token session)))
             (attendance db ++
              [ {| att_student_id := sid; att_student_name := name;
                   att_date := CURRENT_DATE now;
                   att_check_in_time := CURRENT_TIME now;
                   att_method := "qr_face"; att_confidence_score := c;
                   att_is_offline := 0 |} ]),
           Py.Return response)).
Proof.
  intros Hu Hs Hc. split; [| split; [| split; [| split]]].
  - unfold verify_face_commit. rewrite Hs, Hc.
    destruct (insert_attendance _ _) as [tbl' | e] eqn:E.
    + cbn. eapply insert_attendance_unique; eassumption.
    + destruct e; cbn; exact Hu.
  - rewrite (proj1 (verify_face_never_writes cfg db now data)). exact Hu.
  - rewrite sync_attendance. apply sync_loop_unique. exact Hu.
  - intros Hd. unfold verify_face_commit. rewrite Hs, Hc.
    rewrite insert_attendance_conflict by exact Hd. split; reflexivity.
  - intros Hfree. unfold verify_face_commit. rewrite Hs, Hc.
    unfold insert_attendance. cbn [att_student_id att_date]. rewrite Hfree.
    eexists. reflexivity.
Qed.

(** In the offline loop every image is passed on as [bytes]: no image is
    decoded, and each item is answered with that failure. *)
Lemma sync_record_rejects (cfg : Settings) (db : DB) (now : Z)
      (st : SyncState) (record : OfflineAttendanceRecord) :
  sync_record cfg db now st record =
  sync_failure st record (sr_message (rejected_item record)).
Proof. reflexivity. Qed.

Lemma sync_loop_from (cfg : Settings) (db : DB) (now : Z)
      (records : list OfflineAttendanceRecord) (st : SyncState) :
  fold_left (sync_record cfg db now) records st =
  {| cursor_attendance := cursor_attendance st;
     results := results st ++ map rejected_item records;
     success_count := success_count st;
     failure_count := failure_count st + Z.of_nat (List.length records) |}.
Proof.
  revert st. induction records as [| record records IH]; intros st.
  - destruct st. cbn. now rewrite app_nil_r, Z.add_0_r.
  - cbn [fold_left]. rewrite IH, sync_record_rejects. unfold sync_failure.
    cbn [cursor_attendance results success_count failure_count map].
    rewrite <- app_assoc. cbn [app]. f_equal.
    rewrite <- Z.add_assoc. f_equal.
    change (List.length (record :: records)) with (S (List.length records)).
    lia.
Qed.

Lemma filter_no_longer {A} (f : A -> bool) (l : list A) :
  (List.length (filter f l) <= List.length l)%nat.
Proof.
  induction l as [| a l IH]; simpl; [lia |].
  destruct (f a); simpl; lia.
Qed.

(** Only a list whose elements all pass is as long after the filter. *)
Lemma filter_length_all {A} (f : A -> bool) (l : list A) :
  List.length (filter f l) = List.length l <->
  forall x, In x l -> f x = true.
Proof.
  induction l as [| a l IH]; simpl.
  - split; [intros _ x [] | reflexivity].
  - pose proof (filter_no_longer f l) as Hle.
    destruct (f a) eqn:E; simpl.
    + split.
      * intros H x [<- | Hx]; [exact E |]. apply IH; [lia | exact Hx].
      * intros H. f_equal. apply IH. intros x Hx. apply H. now right.
    + split; [lia |]. intros H. specialize (H a (or_introl eq_refl)).
      congruence.
Qed.

(** C8 (defect): whatever the photos of a batch of N items, the answer
    counts no success and N failures, and its results are, item by item and
    in order, the refusal of an image that was not decoded; the tables are
    not touched.  So [success + failed = N], but [failed] is the number M
    of items that fail classification only for a batch in which every
    photo fails it: an item whose photo is recognised as its student is
    counted as failed all the same. *)
Theorem sync_offline_attendance_counts
        (cfg : Settings) (db : DB) (now : Z)
        (records : list OfflineAttendanceRecord) :
  exists response,
    sync_offline_attendance cfg db now records = (db, Py.Return response) /\
    sync_results response = map rejected_item records /\
    total (summary response) = Z.of_nat (List.length records) /\
    success (summary response) = 0 /\
    failed (summary response) = Z.of_nat (List.length records) /\
    (failed (summary response)
       = Z.of_nat (List.length (filter (fails_classification cfg db) records))
     <-> forall record, In record records ->
                        fails_classification cfg db record = true).
Proof.
  unfold sync_offline_attendance, sync_loop. rewrite sync_loop_from.
  cbn [success_count failure_count cursor_attendance results app
       Z.ltb Z.compare].
  eexists. split; [destruct db; reflexivity |].
  cbn [summary total success failed sync_results].
  split; [reflexivity |]. split; [reflexivity |]. split; [reflexivity |].
  split; [lia |].
  rewrite <- filter_length_all. split; intros H; lia.
Qed.

(** C9 (defect): for an item with a matching face result the loop hands
    the [INSERT] the student, the name and the confidence of the face
    result and the resolved date and time; the time of day is a
    [datetime.time], which [sqlite3] cannot bind.  The statement raises, no
    attendance row is written, and the item is answered with the error of
    the binding and counted as failed. *)
Theorem sync_store_writes_no_row
        (now : Z) (st : SyncState) (record : OfflineAttendanceRecord)
        (face_result : FaceResult) (sid name : string) (c : Q) :
  student_id face_result = Some sid ->
  student_name face_result = Some name ->
  confidence face_result = Some c ->
  sync_store now st record face_result =
    {| cursor_attendance := cursor_attendance st;
       results :=
         results st ++
         [ {| sr_studentId := studentId record; sr_success := false;
              sr_message :=
                ErrorProcessing (Py.BindingError 4 "datetime.time") |} ];
       success_count := success_count st;
       failure_count := failure_count st + 1 |}.
Proof.
  intros Hs Hn Hc. unfold sync_store. rewrite Hs, Hn, Hc. reflexivity.
Qed.

(** The recognition proper never answers with the low-light rejection. *)
Lemma classify_is_not_low_light
      (cfg : Settings) (db : DB) (image : Image) (expected : option string)
      (result : FaceResult) (b t : Q) :
  classify cfg db image expected = Py.Return result ->
  message result <> Some (LOW_LIGHT_DETECTED b t).
Proof.
  unfold classify, classify_opencv, classify_face_recognition.
  intros H;
    repeat match type of H with
           | context [match ?x with _ => _ end] => destruct x
           | context [if ?x then _ else _] => destruct x
           end;
    inversion H; subst; cbn; discriminate.
Qed.

(** C10: when the brightness analysis raises, [detect_low_light] reports
    brightness 0 and no low light, the gate hands the image on unchanged,
    and the answer of [recognize_face_from_image] is the answer of the
    recognition, never the low-light rejection. *)
Theorem low_light_analysis_fails_open
        (cfg : Settings) (db : DB) (image_data : Py.Data) (image : Image)
        (expected : option string) :
  decode_base64_image image_data = Py.Return image ->
  mean_brightness image = None ->
  detect_low_light cfg image =
    {| brightness := 0; is_low_light := false;
       threshold := LOW_LIGHT_THRESHOLD cfg |} /\
  low_light_gate cfg image = inl image /\
  recognize_face_from_image cfg db image_data expected =
    match classify cfg db image expected with
    | Py.Return result => result
    | Py.Raise e => no_match (FaceRecognitionError e) None
    end /\
  forall b t,
    message (recognize_face_from_image cfg db image_data expected)
    <> Some (LOW_LIGHT_DETECTED b t).
Proof.
  intros Hd Hm.
  assert (Hl : detect_low_light cfg image =
               {| brightness := 0; is_low_light := false;
                  threshold := LOW_LIGHT_THRESHOLD cfg |}).
  { unfold detect_low_light. now rewrite Hm. }
  assert (Hg : low_light_gate cfg image = inl image).
  { unfold low_light_gate. now rewrite Hl. }
  assert (Hr : recognize_face_from_image cfg db image_data expected =
               match classify cfg db image expected with
               | Py.Return result => result
               | Py.Raise e => no_match (FaceRecognitionError e) None
               end).
  { unfold recognize_face_from_image. rewrite Hd. cbn [Py.bind].
    now rewrite Hg. }
  repeat split; try assumption.
  intros b t. rewrite Hr.
  destruct (classify cfg db image expected) as [result | e] eqn:E.
  - eapply classify_is_not_low_light; eassumption.
  - cbn. discriminate.
Qed.

End AppFacts.

(* ================================================================== *)
(** * The statements on the concrete installation *)
(* ================================================================== *)

Section Examples.
Import Fixture.
#[local] Existing Instance vision.
#[local] Existing Instance libraries.

(** Five enrolments of one student, then a sixth. *)
Lemma register_face_keeps_five_latest_witness :
  Py.get (Recognizer.known_encodings
            (enrol [1; 2; 3; 4; 5]%nat alice Recognizer.init)) alice
    = Some [1; 2; 3; 4; 5]%nat /\
  (snd (Recognizer.register_face
          (enrol [1; 2; 3; 4; 5]%nat alice Recognizer.init) alice (photo 6))
     = true /\
   Py.get (Recognizer.known_encodings
             (fst (Recognizer.register_face
                     (enrol [1; 2; 3; 4; 5]%nat alice Recognizer.init)
                     alice (photo 6)))) alice
     = Some ([2; 3; 4; 5] ++ [6])%nat /\
   List.length ([2; 3; 4; 5] ++ [6])%nat = Recognizer.MAX_SAMPLES).
Proof.
  split; [reflexivity |].
  apply (register_face_keeps_five_latest
           (enrol [1; 2; 3; 4; 5]%nat alice Recognizer.init) alice (photo 6)
           (30, 160, 150, 40) 1%nat 6%nat [2; 3; 4; 5]%nat);
    reflexivity.
Defined.

(** One student enrolled, then removed. *)
Lemma remove_last_student_stays_trained_witness :
  Recognizer.model_trained (enrol [1%nat] alice Recognizer.init) = true /\
  Recognizer.known_encodings
    (fst (Recognizer.remove_student (enrol [1%nat] alice Recognizer.init) alice))
    = [] /\
  Recognizer.model_trained
    (fst (Recognizer.remove_student (enrol [1%nat] alice Recognizer.init) alice))
    = true /\
  Recognizer.message
    (Recognizer.recognize_face
       (fst (Recognizer.remove_student (enrol [1%nat] alice Recognizer.init)
                                       alice))
       (photo 1) 60)
    <> Recognizer.NoFacesRegistered.
Proof.
  split; [reflexivity |].
  destruct (remove_last_student_stays_trained
              (enrol [1%nat] alice Recognizer.init) alice [1%nat]
              eq_refl eq_refl) as (H1 & H2 & H3).
  split; [exact H1 |]. split; [exact H2 |]. apply H3.
Defined.

(** C6, the claim as stated: an untrained model shown an image without a
    face does not answer no-face. *)
Lemma untrained_model_answers_before_detection :
  Recognizer.model_trained Recognizer.init = false /\
  Recognizer.detect_faces empty_room = [] /\
  Recognizer.message (Recognizer.recognize_face Recognizer.init empty_room 60)
    = Recognizer.NoFacesRegistered /\
  Recognizer.message (Recognizer.recognize_face Recognizer.init empty_room 60)
    <> Recognizer.NoFaceDetected.
Proof. repeat split; try reflexivity. discriminate. Qed.

Lemma recognize_face_without_faces_witness :
  Recognizer.detect_faces empty_room = [] /\
  Recognizer.recognize_face trained empty_room 60 =
    Recognizer.failure Recognizer.NoFaceDetected 0 None.
Proof.
  split; [reflexivity |].
  exact (recognize_face_without_faces trained empty_room 60 eq_refl).
Defined.

(** The face of another student, submitted under an open session. *)
Lemma verify_face_rejection_is_internal_error_witness :
  Props.well_formed_request (request alice "Qk9C") /\
  Sqlite.select_open_session [session alice 1000] alice 1030
    = Some (session alice 1000) /\
  App.verify_face settings (database [session alice 1000] []) 1030
                  (request alice "Qk9C") =
    (database [session alice 1000] [],
     Py.Raise
       (Py.HTTPException 500
          "log_security_event() got an unexpected keyword argument 'student_id'")).
Proof.
  assert (Hw : Props.well_formed_request (request alice "Qk9C")).
  { repeat split; try reflexivity. discriminate. }
  split; [exact Hw |]. split; [reflexivity |].
  exact (verify_face_rejection_is_internal_error
           settings (database [session alice 1000] []) 1030
           (request alice "Qk9C") (session alice 1000) Hw eq_refl).
Defined.

(** The same face, had the image reached the recognizer as text: the
    recognizer names the other student and the result is the mismatch. *)
Example recognize_face_from_image_mismatch :
  App.recognize_face_from_image settings (database [] []) (Py.PyStr "Qk9C")
                                (Some alice) =
    App.no_match (App.FaceMismatch bob alice (90 # 1)) (Some (90 # 1)).
Proof. reflexivity. Qed.

(** C4, the claim as stated: one second after the expiry of a sixty-second
    session the answer is the answer given without any session; one second
    before the expiry the session was still found. *)
Lemma expired_session_answer_is_not_distinct :
  Sqlite.ses_expires_at (session alice 1000) = 1000 + 60 /\
  Sqlite.select_open_session [session alice 1000] alice (1000 + 59)
    = Some (session alice 1000) /\
  snd (App.verify_face settings (database [session alice 1000] [])
                       (1000 + 61) (request alice "QUxJQ0U="))
  = snd (App.verify_face settings (database [] [])
                         (1000 + 61) (request alice "QUxJQ0U=")) /\
  snd (App.verify_face settings (database [session alice 1000] [])
                       (1000 + 61) (request alice "QUxJQ0U="))
  = Py.Raise
      (Py.HTTPException 400 "QR verification required before face scan.").
Proof. repeat split. Qed.

Lemma verify_face_after_expiry_witness :
  Props.well_formed_request (request alice "QUxJQ0U=") /\
  App.verify_face settings (database [session alice 1000] []) (1000 + 61)
                  (request alice "QUxJQ0U=") =
    (database [session alice 1000] [],
     Py.Raise
       (Py.HTTPException 400 "QR verification required before face scan.")).
Proof.
  assert (Hw : Props.well_formed_request (request alice "QUxJQ0U=")).
  { repeat split; try reflexivity. discriminate. }
  split; [exact Hw |].
  refine (proj1 (verify_face_after_expiry
                   settings (database [session alice 1000] []) (1000 + 61)
                   (request alice "QUxJQ0U=") Hw _)).
  intros s [Hs | []] _. subst s. cbn. lia.
Defined.

(** An accepted token, while the student still has a session. *)
Lemma validate_attendance_token_fails_witness :
  Props.accepted_token (database [session alice 1000] []) "  2022CIT0043 " /\
  App.validate_attendance_token (database [session alice 1000] []) 1030
                                [("token", "  2022CIT0043 ")] =
    (database [session alice 1000] [],
     Py.Raise (Py.HTTPException 500 "name 'timedelta' is not defined")).
Proof.
  assert (Ha : Props.accepted_token (database [session alice 1000] [])
                                    "  2022CIT0043 ").
  { unfold Props.accepted_token. vm_compute.
    repeat split; try discriminate. repeat constructor. }
  split; [exact Ha |].
  exact (validate_attendance_token_fails
           (database [session alice 1000] []) 1030
           [("token", "  2022CIT0043 ")] "  2022CIT0043 " eq_refl Ha).
Defined.

(** C2, the claim as stated: a commit for a student already marked today
    is not answered with a reason of its own.  The answer is the status 500
    that the handler's last [except] clause gives to any exception, here
    with the text of the constraint; a commit that fails for another
    reason, a student without a row in [students], is answered by the same
    clause with the same status. *)
Lemma second_commit_is_answered_as_an_internal_error :
  existsb (Sqlite.same_student_date alice (Sqlite.CURRENT_DATE 1030))
          [marked alice 0] = true /\
  snd (App.run_request (database [session alice 1000] [marked alice 0])
         (App.verify_face_commit
            (database [session alice 1000] [marked alice 0])
            1030 alice (session alice 1000) (matched alice "Amrutha M")))
    = Py.Raise
        (Py.HTTPException 500
           "UNIQUE constraint failed: attendance.student_id, attendance.date") /\
  snd (App.run_request (database [session alice 1000] [marked alice 0])
         (App.verify_face_commit
            (database [session alice 1000] [marked alice 0])
            1030 alice (session alice 1000) (matched alice "Amrutha M")))
    = snd (App.run_request (database [session alice 1000] [marked alice 0])
             (@Py.Raise (Sqlite.DB * App.VerifyResponse)
                (Py.IntegrityError Sqlite.UNIQUE_attendance))) /\
  snd (App.run_request (database [session "2022CIT0151" 1000] [])
         (App.verify_face_commit
            (database [session "2022CIT0151" 1000] [])
            1030 "2022CIT0151" (session "2022CIT0151" 1000)
            (matched "2022CIT0151" "Vismaya L")))
    = Py.Raise
        (Py.HTTPException 500 "'NoneType' object is not subscriptable").
Proof. repeat split. Qed.

(** A matching face result for a student already marked today. *)
Lemma attendance_unique_per_student_and_date_witness :
  Props.unique_attendance [marked alice 0] /\
  existsb (Sqlite.same_student_date alice (Sqlite.CURRENT_DATE 1030))
          [marked alice 0] = true /\
  App.run_request (database [session alice 1000] [marked alice 0])
    (App.verify_face_commit (database [session alice 1000] [marked alice 0])
       1030 alice (session alice 1000) (matched alice "Amrutha M")) =
    (database [session alice 1000] [marked alice 0],
     Py.Raise (Py.HTTPException 500 Sqlite.UNIQUE_attendance)).
Proof.
  assert (Hu : Props.unique_attendance [marked alice 0]).
  { repeat constructor. intros []. }
  split; [exact Hu |]. split; [reflexivity |].
  destruct (attendance_unique_per_student_and_date
              settings
              (database [session alice 1000] [marked alice 0])
              1030 alice "Amrutha M" (session alice 1000)
              (matched alice "Amrutha M") (90 # 1)
              (request alice "QUxJQ0U=") []
              Hu eq_refl eq_refl) as (_ & _ & _ & Hsecond & _).
  exact (proj2 (Hsecond eq_refl)).
Defined.

(** The first commit of the day, on the same tables without the row. *)
Example verify_face_commit_first_of_the_day :
  App.run_request (database [session alice 1000] [])
    (App.verify_face_commit (database [session alice 1000] [])
       1030 alice (session alice 1000) (matched alice "Amrutha M")) =
    (App.with_attendance
       (App.with_sessions (database [session alice 1000] [])
          [ {| Sqlite.ses_student_id := alice;
               Sqlite.ses_session_token := alice;
               Sqlite.ses_qr_verified := 1; Sqlite.ses_face_verified := 1;
               Sqlite.ses_created_at := 1000;
               Sqlite.ses_expires_at := 1060 |} ])
       [ {| Sqlite.att_student_id := alice;
            Sqlite.att_student_name := "Amrutha M";
            Sqlite.att_date := 0; Sqlite.att_check_in_time := 1030;
            Sqlite.att_method := "qr_face";
            Sqlite.att_confidence_score := 90 # 1;
            Sqlite.att_is_offline := 0 |} ],
     Py.Return
       {| App.vr_success := true; App.vr_verified := true;
          App.vr_message := None; App.vr_confidenceScore := 90 # 1;
          App.vr_studentId := Some alice;
          App.vr_studentName := Some "Amrutha M";
          App.vr_method := Some "qr_face" |}).
Proof. reflexivity. Qed.

(** A batch of two items: the photo of the first is recognised as its
    student, the photo of the second shows no face.  One item fails
    classification; the answer counts two failures and no success. *)
Lemma sync_offline_attendance_counts_witness :
  App.recognize_face_from_image settings (database [] [])
    (Py.PyStr "QUxJQ0U=") (Some alice)
    = {| App.is_match := true;
         App.message :=
           Some (App.FromRecognizer (Recognizer.Recognized (90 # 1)));
         App.student_id := Some alice;
         App.student_name := Some "Amrutha M";
         App.confidence := Some (90 # 1) |} /\
  List.length
    (filter (Props.fails_classification settings (database [] []))
            [ item alice "QUxJQ0U=" "2025-01-15T09:30:00Z";
              item bob "RU1QVFk=" "yesterday" ]) = 1%nat /\
  exists response,
    App.sync_offline_attendance settings (database [] []) 1030
      [ item alice "QUxJQ0U=" "2025-01-15T09:30:00Z";
        item bob "RU1QVFk=" "yesterday" ]
      = (database [] [], Py.Return response) /\
    App.sync_results response =
      [ Props.rejected_item (item alice "QUxJQ0U=" "2025-01-15T09:30:00Z");
        Props.rejected_item (item bob "RU1QVFk=" "yesterday") ] /\
    App.success (App.summary response) = 0 /\
    App.failed (App.summary response) = 2 /\
    App.failed (App.summary response) <> 1.
Proof.
  split; [reflexivity |]. split; [reflexivity |].
  destruct (sync_offline_attendance_counts
              settings (database [] []) 1030
              [ item alice "QUxJQ0U=" "2025-01-15T09:30:00Z";
                item bob "RU1QVFk=" "yesterday" ])
    as (response & H1 & H2 & _ & H4 & H5 & _).
  exists response. split; [exact H1 |]. split; [exact H2 |].
  split; [exact H4 |]. split; [exact H5 |].
  rewrite H5. discriminate.
Defined.

(** The configured maximum is not read by the handler: with the default
    of 50 a batch of 51 items is taken whole. *)
Example offline_batch_of_51_is_taken_whole :
  Config.MAX_OFFLINE_RECORDS_PER_BATCH [] = Some 50 /\
  exists response,
    snd (App.sync_offline_attendance settings (database [] []) 1030
           (repeat (item alice "QUxJQ0U=" "2025-01-15T09:30:00Z") 51))
      = Py.Return response /\
    App.total (App.summary response) = 51 /\
    List.length (App.sync_results response) = 51%nat.
Proof. split; [reflexivity |]. eexists. repeat split. Qed.

(** The store step of the offline loop for an item with a matching face
    result, on a table that holds no row of the student: the row that the
    [INSERT] describes, and what becomes of it. *)
Lemma sync_store_writes_no_row_witness :
  App.offline_row 1030 (item alice "QUxJQ0U=" "2025-01-15T09:30:00Z")
                  alice "Amrutha M" (90 # 1)
    = {| Sqlite.att_student_id := alice;
         Sqlite.att_student_name := "Amrutha M";
         Sqlite.att_date := 20103;
         Sqlite.att_check_in_time := 34200;
         Sqlite.att_method := "face_recognition";
         Sqlite.att_confidence_score := 90 # 1;
         Sqlite.att_is_offline := 1 |} /\
  Py.str (Py.BindingError 4 "datetime.time")
    = "Error binding parameter 4: type 'datetime.time' is not supported" /\
  App.sync_store 1030
    {| App.cursor_attendance := [marked bob 0]; App.results := [];
       App.success_count := 0; App.failure_count := 0 |}
    (item alice "QUxJQ0U=" "2025-01-15T09:30:00Z")
    (matched alice "Amrutha M") =
    {| App.cursor_attendance := [marked bob 0];
       App.results :=
         [ {| App.sr_studentId := alice; App.sr_success := false;
              App.sr_message :=
                App.ErrorProcessing (Py.BindingError 4 "datetime.time") |} ];
       App.success_count := 0;
       App.failure_count := 1 |}.
Proof.
  split; [reflexivity |]. split; [reflexivity |].
  exact (sync_store_writes_no_row
           1030
           {| App.cursor_attendance := [marked bob 0]; App.results := [];
              App.success_count := 0; App.failure_count := 0 |}
           (item alice "QUxJQ0U=" "2025-01-15T09:30:00Z")
           (matched alice "Amrutha M") alice "Amrutha M" (90 # 1)
           eq_refl eq_refl eq_refl).
Defined.

(** An image whose brightness cannot be measured. *)
Lemma low_light_analysis_fails_open_witness :
  App.decode_base64_image (Py.PyStr "data:image/jpeg;base64,Tk9MSUdIVA==")
    = Py.Return unreadable /\
  mean_brightness unreadable = None /\
  App.detect_low_light settings unreadable =
    {| App.brightness := 0; App.is_low_light := false;
       App.threshold := 50 # 1 |} /\
  App.recognize_face_from_image settings (database [] [])
    (Py.PyStr "data:image/jpeg;base64,Tk9MSUdIVA==") (Some alice) =
    {| App.is_match := true;
       App.message :=
         Some (App.FromRecognizer (Recognizer.Recognized (90 # 1)));
       App.student_id := Some alice;
       App.student_name := Some "Amrutha M";
       App.confidence := Some (90 # 1) |}.
Proof.
  assert (Hd : App.decode_base64_image
                 (Py.PyStr "data:image/jpeg;base64,Tk9MSUdIVA==")
               = Py.Return unreadable) by reflexivity.
  assert (Hm : mean_brightness unreadable = None) by reflexivity.
  split; [exact Hd |]. split; [exact Hm |].
  destruct (low_light_analysis_fails_open
              settings (database [] [])
              (Py.PyStr "data:image/jpeg;base64,Tk9MSUdIVA==") unreadable
              (Some alice) Hd Hm) as (H1 & _ & H3 & _).
  split; [exact H1 |]. exact H3.
Defined.

End Examples.

(* ================================================================== *)
(** * More on dictionaries *)
(* ================================================================== *)

Section DictFacts.
Context {V : Type}.
Implicit Types (d : Py.dict V) (k : string) (v : V).

Lemma get_in d k v : Py.get d k = Some v -> In (k, v) d.
Proof.
  induction d as [| [k' v'] d IH]; simpl; [discriminate |].
  destruct (String.eqb_spec k' k) as [-> | Hne].
  - intros H. inversion H. now left.
  - intros H. right. now apply IH.
Qed.

Lemma get_none_not_key d k : Py.get d k = None -> ~ In k (map fst d).
Proof.
  induction d as [| [k' v'] d IH]; simpl; [tauto |].
  destruct (String.eqb_spec k' k) as [-> | Hne]; [discriminate |].
  intros H [E | Hin]; [contradiction | now apply IH].
Qed.

Lemma in_get_unique d k v :
  NoDup (map fst d) -> In (k, v) d -> Py.get d k = Some v.
Proof.
  induction d as [| [k' v'] d IH]; simpl; intros Hn Hin; [contradiction |].
  inversion Hn as [| ? ? Hnot Hn']; subst.
  destruct Hin as [E | Hin].
  - inversion E; subst. now rewrite String.eqb_refl.
  - destruct (String.eqb_spec k' k) as [-> | Hne]; [| now apply IH].
    exfalso. apply Hnot. change k with (fst (k, v)). now apply in_map.
Qed.

Lemma get_set_other d k k' v : k' <> k -> Py.get (Py.set d k v) k' = Py.get d k'.
Proof.
  intros Hne. induction d as [| [k0 v0] d IH]; simpl.
  - destruct (String.eqb_spec k k'); [congruence | reflexivity].
  - destruct (String.eqb_spec k0 k) as [-> | H0]; simpl.
    + destruct (String.eqb_spec k k'); [congruence | reflexivity].
    + destruct (String.eqb_spec k0 k'); [reflexivity | exact IH].
Qed.

Lemma keys_set d k v :
  map fst (Py.set d k v) =
  if Py.contains d k then map fst d else map fst d ++ [k].
Proof.
  unfold Py.contains. induction d as [| [k0 v0] d IH]; simpl; [reflexivity |].
  destruct (String.eqb_spec k0 k) as [-> | H0]; simpl; [reflexivity |].
  rewrite IH. now destruct (Py.get d k).
Qed.

Lemma in_set d k v k' v' :
  In (k', v') (Py.set d k v) -> (k' = k /\ v' = v) \/ In (k', v') d.
Proof.
  induction d as [| [k0 v0] d IH]; simpl.
  - intros [E | []]. inversion E. now left.
  - destruct (String.eqb_spec k0 k) as [-> | H0]; simpl.
    + intros [E | Hin]; [inversion E; now left | right; now right].
    + intros [E | Hin]; [right; now left |].
      destruct (IH Hin) as [? | ?]; [now left | right; now right].
Qed.

Lemma in_del d k p : In p (Py.del d k) -> In p d.
Proof.
  induction d as [| [k0 v0] d IH]; simpl; [tauto |].
  destruct (String.eqb k0 k); simpl; [now right |].
  intros [E | Hin]; [now left | right; now apply IH].
Qed.

Lemma keys_del_subset d k x : In x (map fst (Py.del d k)) -> In x (map fst d).
Proof.
  rewrite !in_map_iff. intros [p [E Hin]]. exists p. split; [exact E |].
  eapply in_del; eassumption.
Qed.

Lemma nodup_keys_del d k : NoDup (map fst d) -> NoDup (map fst (Py.del d k)).
Proof.
  induction d as [| [k0 v0] d IH]; simpl; intros Hn; [constructor |].
  inversion Hn as [| ? ? Hnot Hn']; subst.
  destruct (String.eqb k0 k); simpl; [exact Hn' |].
  constructor; [| now apply IH].
  intros Hin. apply Hnot. eapply keys_del_subset; eassumption.
Qed.

Lemma nodup_keys_set d k v : NoDup (map fst d) -> NoDup (map fst (Py.set d k v)).
Proof.
  intros Hn. rewrite keys_set. unfold Py.contains.
  destruct (Py.get d k) eqn:E; [exact Hn |].
  apply NoDup_app; [exact Hn | repeat constructor; intros [] |].
  intros a Ha [Hb | []]. subst a. now apply (get_none_not_key d k).
Qed.

Lemma get_del_same d k : NoDup (map fst d) -> Py.get (Py.del d k) k = None.
Proof.
  induction d as [| [k0 v0] d IH]; simpl; intros Hn; [reflexivity |].
  inversion Hn as [| ? ? Hnot Hn']; subst.
  destruct (String.eqb_spec k0 k) as [-> | H0]; simpl.
  - destruct (Py.get d k) eqn:E; [| reflexivity].
    exfalso. apply Hnot. apply get_in in E.
    change k with (fst (k, v)). now apply in_map.
  - destruct (String.eqb_spec k0 k); [contradiction | now apply IH].
Qed.

Lemma get_del_other d k k' : k' <> k -> Py.get (Py.del d k) k' = Py.get d k'.
Proof.
  intros Hne. induction d as [| [k0 v0] d IH]; simpl; [reflexivity |].
  destruct (String.eqb_spec k0 k) as [-> | H0]; simpl.
  - destruct (String.eqb_spec k k'); [congruence | reflexivity].
  - destruct (String.eqb_spec k0 k'); [reflexivity | exact IH].
Qed.

Lemma contains_iff_key d k : Py.contains d k = true <-> In k (map fst d).
Proof.
  unfold Py.contains. destruct (Py.get d k) eqn:E.
  - split; [intros _ | reflexivity]. apply get_in in E.
    change k with (fst (k, v)). now apply in_map.
  - split; [discriminate |]. intros H. now apply get_none_not_key in E.
Qed.

End DictFacts.

Lemma last_n_length {A} (n : nat) (l : list A) :
  (List.length (Py.last_n n l) <= n)%nat.
Proof. unfold Py.last_n. rewrite length_skipn. lia. Qed.

Lemma last_n_keeps_last {A} (n : nat) (l : list A) (x : A) :
  (0 < n)%nat -> exists front, Py.last_n n (l ++ [x]) = front ++ [x].
Proof.
  intros Hn. unfold Py.last_n. rewrite length_app. simpl List.length.
  rewrite skipn_app.
  replace (List.length l + 1 - n - List.length l)%nat with 0%nat by lia.
  simpl. eauto.
Qed.

(* ================================================================== *)
(** * The bookkeeping of the recognizer *)
(* ================================================================== *)

Section RecognizerInvariants.
Context {cv : CV2}.
Import Recognizer Props.

Lemma set_set {V} (d : Py.dict V) (k : string) (v v' : V) :
  Py.set (Py.set d k v) k v' = Py.set d k v'.
Proof.
  induction d as [| [k0 v0] d IH]; simpl.
  - now rewrite String.eqb_refl.
  - destruct (String.eqb k0 k) eqn:E; simpl; rewrite E; [reflexivity |].
    now rewrite IH.
Qed.

Lemma set_present {V} (d : Py.dict V) (k : string) (v : V) :
  Py.contains (if Py.contains d k then d else Py.set d k v) k = true.
Proof.
  destruct (Py.contains d k) eqn:E; [exact E |].
  unfold Py.contains. now rewrite get_set_same.
Qed.

Lemma train_frame (r : t) :
  known_encodings (fst (_train_recognizer r)) = known_encodings r /\
  label_map (fst (_train_recognizer r)) = label_map r /\
  next_label (fst (_train_recognizer r)) = next_label r /\
  encodings_file (fst (_train_recognizer r)) = encodings_file r.
Proof.
  destruct r as [ke lm nl mt rc ef]. unfold _train_recognizer.
  cbn [known_encodings label_map].
  destruct ke as [| p l]; [auto |].
  destruct (training_data (p :: l) lm) as [[| s c] |]; cbn [fst]; auto.
  destruct (lbph_train (s :: c)); cbn; auto.
Qed.

(** What a successful registration leaves in the three attributes. *)
Lemma register_face_success (r : t) (sid : string) (image : Image)
      (face : Z * Z * Z * Z) (new : Template) :
  detect_faces image = [face] ->
  extract_face_features image face = Some new ->
  snd (register_face r sid image) = true /\
  known_encodings (fst (register_face r sid image))
    = Py.set (known_encodings r) sid (trim (stored r sid ++ [new])) /\
  label_map (fst (register_face r sid image))
    = (if Py.contains (label_map r) sid then label_map r
       else Py.set (label_map r) sid (next_label r)) /\
  next_label (fst (register_face r sid image))
    = (if Py.contains (label_map r) sid then next_label r
       else next_label r + 1).
Proof.
  intros Hd He. unfold register_face. rewrite Hd, He.
  assert (Hs : match Py.get (if Py.contains (known_encodings r) sid
                             then known_encodings r
                             else Py.set (known_encodings r) sid []) sid with
               | Some l => l ++ [new]
               | None => [new]
               end = stored r sid ++ [new]).
  { unfold stored, Py.contains.
    destruct (Py.get (known_encodings r) sid) eqn:E; [now rewrite E |].
    now rewrite get_set_same. }
  rewrite Hs.
  assert (Hk : Py.set (if Py.contains (known_encodings r) sid
                       then known_encodings r
                       else Py.set (known_encodings r) sid []) sid
                      (trim (stored r sid ++ [new]))
               = Py.set (known_encodings r) sid (trim (stored r sid ++ [new]))).
  { destruct (Py.contains (known_encodings r) sid); [reflexivity |].
    apply set_set. }
  fold (trim (stored r sid ++ [new])). rewrite Hk.
  destruct (Py.contains (label_map r) sid); cbn [fst snd];
    unfold save_encodings; cbn [known_encodings label_map next_label];
    match goal with
    | |- context [_train_recognizer ?x] =>
        destruct (train_frame x) as (-> & -> & -> & _)
    end; cbn; auto.
Qed.

(** A successful registration leaves a sample of the student. *)
Lemma register_face_stores_a_sample (r : t) (sid : string) (image : Image) :
  snd (register_face r sid image) = true ->
  stored (fst (register_face r sid image)) sid <> [].
Proof.
  intros Hs. pose proof Hs as H. unfold register_face in H.
  destruct (detect_faces image) as [| face [| g fs]] eqn:Hd; try discriminate.
  destruct (extract_face_features image face) as [new |] eqn:He;
    try discriminate.
  destruct (register_face_success r sid image face new Hd He)
    as (_ & Hk & _ & _).
  unfold stored at 1. rewrite Hk, get_set_same. unfold trim.
  destruct (MAX_SAMPLES <? List.length (stored r sid ++ [new]))%nat.
  - destruct (last_n_keeps_last MAX_SAMPLES (stored r sid) new)
      as [front ->]; [unfold MAX_SAMPLES; lia |].
    intros Hnil. apply app_eq_nil in Hnil as [_ Hnil]. discriminate.
  - intros Hnil. apply app_eq_nil in Hnil as [_ Hnil]. discriminate.
Qed.

(** A photo without exactly one usable face registers nothing. *)
Lemma register_face_failure (r : t) (sid : string) (image : Image) :
  snd (register_face r sid image) = false ->
  register_face r sid image = (r, false).
Proof.
  unfold register_face.
  destruct (detect_faces image) as [| f [| g fs]]; auto.
  destruct (extract_face_features image f); auto.
  destruct (Py.contains (label_map r) sid); cbn [snd]; discriminate.
Qed.

Lemma trim_bounded {A} (l : list A) : (List.length (trim l) <= MAX_SAMPLES)%nat.
Proof.
  unfold trim. destruct (Nat.ltb_spec MAX_SAMPLES (List.length l)).
  - apply last_n_length.
  - assumption.
Qed.

Lemma init_consistent : consistent init.
Proof.
  constructor; cbn; try constructor; intros; contradiction.
Qed.

Lemma register_face_consistent (r : t) (sid : string) (image : Image) :
  consistent r -> consistent (fst (register_face r sid image)).
Proof.
  intros C.
  destruct (snd (register_face r sid image)) eqn:Hs;
    [| now rewrite (register_face_failure r sid image Hs)].
  unfold register_face in Hs.
  destruct (detect_faces image) as [| face [| g fs]] eqn:Hd; try discriminate.
  destruct (extract_face_features image face) as [new |] eqn:He;
    try discriminate.
  clear Hs.
  destruct (register_face_success r sid image face new Hd He)
    as (_ & Hk & Hl & Hn).
  destruct C as [C1 C2 C3 C4 C5 C6].
  assert (Hfresh : Py.contains (label_map r) sid = false ->
                   ~ In sid (map fst (label_map r))).
  { intros E H. apply contains_iff_key in H. congruence. }
  constructor; rewrite ?Hk, ?Hl, ?Hn.
  - now apply nodup_keys_set.
  - destruct (Py.contains (label_map r) sid); [assumption |].
    now apply nodup_keys_set.
  - destruct (Py.contains (label_map r) sid) eqn:E; [assumption |].
    assert (Hshape : Py.set (label_map r) sid (next_label r)
                     = label_map r ++ [(sid, next_label r)]).
    { specialize (Hfresh eq_refl). clear - Hfresh.
      induction (label_map r) as [| [k0 v0] d IH]; simpl; [reflexivity |].
      destruct (String.eqb_spec k0 sid) as [-> | H0].
      - exfalso. apply Hfresh. now left.
      - rewrite IH; [reflexivity |]. intros H. apply Hfresh. now right. }
    rewrite Hshape, map_app. simpl.
    apply NoDup_app; [assumption | repeat constructor; intros [] |].
    intros a Ha [Hb | []]. subst a.
    apply in_map_iff in Ha as [[k l] [El Hin]]. simpl in El. subst l.
    specialize (C4 k _ Hin). lia.
  - intros k l Hin.
    destruct (Py.contains (label_map r) sid); [now apply (C4 k) |].
    apply in_set in Hin as [[_ ->] | Hin]; [| specialize (C4 k l Hin)]; lia.
  - intros k samples Hin.
    apply in_set in Hin as [[_ ->] | Hin]; [apply trim_bounded | eauto].
  - intros k Hin. rewrite keys_set in Hin.
    assert (Hk' : In k (map fst (known_encodings r)) \/ k = sid).
    { destruct (Py.contains (known_encodings r) sid); [now left |].
      apply in_app_or in Hin as [? | [? | []]]; [now left | now right]. }
    destruct (Py.contains (label_map r) sid) eqn:E.
    + destruct Hk' as [? | ->]; [now apply C6 | now apply contains_iff_key].
    + rewrite keys_set, E. apply in_or_app.
      destruct Hk' as [? | ->]; [left; now apply C6 | right; now left].
Qed.

Lemma remove_student_fields (r : t) (sid : string) :
  known_encodings (fst (remove_student r sid))
    = (if Py.contains (known_encodings r) sid
       then Py.del (known_encodings r) sid else known_encodings r) /\
  label_map (fst (remove_student r sid))
    = (if Py.contains (label_map r) sid
       then Py.del (label_map r) sid else label_map r) /\
  next_label (fst (remove_student r sid)) = next_label r.
Proof.
  unfold remove_student. cbn [fst]. unfold save_encodings.
  cbn [known_encodings label_map next_label].
  match goal with
  | |- context [_train_recognizer ?x] =>
      destruct (train_frame x) as (-> & -> & -> & _)
  end.
  cbn. auto.
Qed.

Lemma remove_student_consistent (r : t) (sid : string) :
  consistent r -> consistent (fst (remove_student r sid)).
Proof.
  intros [C1 C2 C3 C4 C5 C6].
  destruct (remove_student_fields r sid) as (Hk & Hl & Hn).
  constructor; rewrite ?Hk, ?Hl, ?Hn.
  - destruct (Py.contains (known_encodings r) sid);
      [now apply nodup_keys_del | assumption].
  - destruct (Py.contains (label_map r) sid);
      [now apply nodup_keys_del | assumption].
  - destruct (Py.contains (label_map r) sid); [| assumption].
    clear - C3. induction (label_map r) as [| [k0 v0] d IH]; simpl;
      [constructor |].
    simpl in C3. inversion C3 as [| ? ? Hnot Hn']; subst.
    destruct (String.eqb k0 sid); simpl; [assumption |].
    constructor; [| now apply IH].
    intros Hin. apply Hnot. apply in_map_iff in Hin as [p [E Hp]].
    apply in_map_iff. exists p. split; [exact E |]. eapply in_del; eassumption.
  - intros k l Hin. apply (C4 k).
    destruct (Py.contains (label_map r) sid); [eapply in_del |]; eassumption.
  - intros k samples Hin. apply (C5 k).
    destruct (Py.contains (known_encodings r) sid); [eapply in_del |];
      eassumption.
  - intros k Hin.
    destruct (String.eqb_spec k sid) as [-> | Hne].
    + exfalso.
      destruct (Py.contains (known_encodings r) sid) eqn:E.
      * apply contains_iff_key in Hin. unfold Py.contains in Hin.
        now rewrite get_del_same in Hin.
      * apply contains_iff_key in Hin. congruence.
    + assert (Hin' : In k (map fst (known_encodings r))).
      { destruct (Py.contains (known_encodings r) sid);
          [eapply keys_del_subset |]; eassumption. }
      apply C6 in Hin'.
      destruct (Py.contains (label_map r) sid); [| assumption].
      apply contains_iff_key. apply contains_iff_key in Hin'.
      unfold Py.contains in *. now rewrite get_del_other.
Qed.

Lemma reachable_consistent (r : t) : reachable r -> consistent r.
Proof.
  induction 1.
  - apply init_consistent.
  - now apply register_face_consistent.
  - now apply remove_student_consistent.
Qed.

End RecognizerInvariants.

(* ================================================================== *)
(** * Properties of the recognizer beyond the state machine *)
(* ================================================================== *)

Section RecognizerProperties.
Context {cv : CV2}.
Import Recognizer Props.

Lemma stored_bounded (r : t) (sid : string) :
  consistent r -> (List.length (stored r sid) <= MAX_SAMPLES)%nat.
Proof.
  intros C. unfold stored.
  destruct (Py.get (known_encodings r) sid) eqn:E; [| cbn; lia].
  apply get_in in E. eapply samples_bounded; eassumption.
Qed.

Lemma sum_bounded {A} (f : A -> nat) (n : nat) (l : list A) :
  (forall x, In x l -> (f x <= n)%nat) ->
  (list_sum (map f l) <= n * List.length l)%nat.
Proof.
  induction l as [| a l IH]; intros H; simpl; [lia |].
  specialize (H a (or_introl eq_refl)) as Ha.
  assert (IH' := IH (fun x Hx => H x (or_intror Hx))). lia.
Qed.

(** X1: from a first start on, whatever is registered and removed, no
    student holds more than five samples, and [get_stats] never reports
    more than five samples for each registered student. *)
Theorem samples_never_exceed_five (r : t) :
  reachable r ->
  (forall sid, (List.length (stored r sid) <= 5)%nat) /\
  (total_samples (get_stats r) <= 5 * registered_students (get_stats r))%nat.
Proof.
  intros H. apply reachable_consistent in H as C. split.
  - intros sid. now apply stored_bounded.
  - cbn [get_stats total_samples registered_students].
    apply sum_bounded. intros [sid samples] Hin. cbn [snd].
    eapply (samples_bounded r C); eassumption.
Qed.

(** X2: two students never share a label, and a student keeps the label
    through every later registration, of that student or of another. *)
Theorem labels_are_distinct_and_stable (r : t) :
  reachable r ->
  (forall s1 s2 l, Py.get (label_map r) s1 = Some l ->
                   Py.get (label_map r) s2 = Some l -> s1 = s2) /\
  (forall sid image other l,
      Py.get (label_map r) other = Some l ->
      Py.get (label_map (fst (register_face r sid image))) other = Some l).
Proof.
  intros H. apply reachable_consistent in H as C. split.
  - intros s1 s2 l H1 H2. apply get_in in H1, H2.
    pose proof (labels_distinct r C) as Hn. clear - H1 H2 Hn.
    induction (label_map r) as [| [k v] d IH]; [contradiction |].
    simpl in Hn. inversion Hn as [| ? ? Hnot Hn']; subst.
    destruct H1 as [E1 | H1], H2 as [E2 | H2].
    + congruence.
    + inversion E1; subst. exfalso. apply Hnot.
      change l with (snd (s2, l)). now apply in_map.
    + inversion E2; subst. exfalso. apply Hnot.
      change l with (snd (s1, l)). now apply in_map.
    + now apply IH.
  - intros sid image other l Hg.
    destruct (snd (register_face r sid image)) eqn:Hs;
      [| now rewrite (register_face_failure r sid image Hs)].
    unfold register_face in Hs.
    destruct (detect_faces image) as [| face [| g fs]] eqn:Hd; try discriminate.
    destruct (extract_face_features image face) as [new |] eqn:He;
      try discriminate.
    destruct (register_face_success r sid image face new Hd He)
      as (_ & _ & -> & _).
    destruct (Py.contains (label_map r) sid) eqn:E; [exact Hg |].
    rewrite get_set_other; [exact Hg |].
    intros ->. unfold Py.contains in E. now rewrite Hg in E.
Qed.

(** X3: labels are not reused.  A student who is removed and registered
    again gets the current value of the counter, which is above the label
    held before and above every label still in use. *)
Theorem removed_student_gets_fresh_label
        (r : t) (sid : string) (image : Image) (old : Z) :
  reachable r ->
  Py.get (label_map r) sid = Some old ->
  snd (register_face (fst (remove_student r sid)) sid image) = true ->
  Py.get (label_map
            (fst (register_face (fst (remove_student r sid)) sid image))) sid
    = Some (next_label r) /\
  old < next_label r /\
  forall other l, Py.get (label_map r) other = Some l -> l < next_label r.
Proof.
  intros H Hg Hs. apply reachable_consistent in H as C.
  assert (Hb : forall other l, Py.get (label_map r) other = Some l ->
                               l < next_label r).
  { intros other l Ho. apply get_in in Ho. eapply labels_below_next; eassumption. }
  split; [| split; [now apply (Hb sid) | exact Hb]].
  destruct (remove_student_fields r sid) as (_ & Hl & Hn).
  assert (Hgone : Py.contains (label_map (fst (remove_student r sid))) sid
                  = false).
  { rewrite Hl. rewrite (contains_of_get _ _ _ Hg).
    unfold Py.contains. rewrite get_del_same; [reflexivity |].
    apply (labelled_unique r C). }
  unfold register_face in Hs.
  destruct (detect_faces image) as [| face [| g fs]] eqn:Hd; try discriminate.
  destruct (extract_face_features image face) as [new |] eqn:He;
    try discriminate.
  destruct (register_face_success (fst (remove_student r sid)) sid image
                                  face new Hd He) as (_ & _ & -> & _).
  rewrite Hgone, get_set_same, Hn. reflexivity.
Qed.

(** X4: a registration is all or nothing.  Either it answers [False] and
    the recognizer is exactly as before, or it answers [True], the photo
    had one face, and the student's samples are the former ones followed by
    the new template, cut to the newest five; the samples of every other
    student are untouched. *)
Theorem register_face_all_or_nothing (r : t) (sid : string) (image : Image) :
  register_face r sid image = (r, false) \/
  (snd (register_face r sid image) = true /\
   exists face new,
     detect_faces image = [face] /\
     extract_face_features image face = Some new /\
     stored (fst (register_face r sid image)) sid
       = trim (stored r sid ++ [new]) /\
     forall other, other <> sid ->
       stored (fst (register_face r sid image)) other = stored r other).
Proof.
  destruct (snd (register_face r sid image)) eqn:Hs;
    [right | left; now apply register_face_failure].
  split; [reflexivity |]. unfold register_face in Hs.
  destruct (detect_faces image) as [| face [| g fs]] eqn:Hd; try discriminate.
  destruct (extract_face_features image face) as [new |] eqn:He;
    try discriminate.
  exists face, new. split; [reflexivity |]. split; [exact He |].
  destruct (register_face_success r sid image face new Hd He)
    as (_ & Hk & _ & _).
  unfold stored at 1 3. rewrite Hk. split.
  - now rewrite get_set_same.
  - intros other Hne. now rewrite get_set_other.
Qed.

(** X5: removal forgets the student, samples and label, answers [True],
    and leaves the samples and the label of every other student as they
    were. *)
Theorem remove_student_forgets_only_that_student (r : t) (sid : string) :
  reachable r ->
  snd (remove_student r sid) = true /\
  Py.get (known_encodings (fst (remove_student r sid))) sid = None /\
  Py.get (label_map (fst (remove_student r sid))) sid = None /\
  forall other, other <> sid ->
    Py.get (known_encodings (fst (remove_student r sid))) other
      = Py.get (known_encodings r) other /\
    Py.get (label_map (fst (remove_student r sid))) other
      = Py.get (label_map r) other.
Proof.
  intros H. apply reachable_consistent in H as C.
  destruct (remove_student_fields r sid) as (Hk & Hl & _).
  split; [reflexivity |]. rewrite Hk, Hl.
  assert (Hnone : forall V (d : Py.dict V),
             NoDup (map fst d) ->
             Py.get (if Py.contains d sid then Py.del d sid else d) sid = None).
  { intros V d Hn. unfold Py.contains.
    destruct (Py.get d sid) eqn:E; [now apply get_del_same | exact E]. }
  assert (Hother : forall V (d : Py.dict V) other,
             other <> sid ->
             Py.get (if Py.contains d sid then Py.del d sid else d) other
             = Py.get d other).
  { intros V d other Hne.
    destruct (Py.contains d sid); [now apply get_del_other | reflexivity]. }
  split; [apply Hnone, (students_unique r C) |].
  split; [apply Hnone, (labelled_unique r C) |].
  intros other Hne. split; now apply Hother.
Qed.

(** X6: what [save_encodings] writes is what a new process reads back: the
    samples, the labels and the counter are those of the saved recognizer,
    and when a training pass succeeds on them the new process is trained on
    the same corpus. *)
Theorem restart_restores_saved_recognizer (r : t) :
  known_encodings (restart (encodings_file (save_encodings r)))
    = known_encodings r /\
  label_map (restart (encodings_file (save_encodings r))) = label_map r /\
  next_label (restart (encodings_file (save_encodings r))) = next_label r /\
  (snd (_train_recognizer r) = true ->
   model_trained (restart (encodings_file (save_encodings r))) = true /\
   recognizer (restart (encodings_file (save_encodings r)))
     = recognizer (fst (_train_recognizer r))).
Proof.
  destruct r as [ke lm nl mt rc ef].
  unfold restart, load_encodings, save_encodings.
  cbn [encodings_file known_encodings label_map next_label].
  destruct ke as [| p l]; [cbn; repeat split; discriminate |].
  unfold _train_recognizer. cbn [known_encodings label_map].
  destruct (training_data (p :: l) lm) as [[| s c] |];
    cbn; try (repeat split; discriminate).
  destruct (lbph_train (s :: c)); cbn; repeat split; discriminate.
Qed.

Lemma Qltb_false_le (x y : Q) : Qltb x y = false -> (y <= x)%Q.
Proof.
  unfold Qltb. intros H. apply negb_false_iff in H. now apply Qle_bool_iff.
Qed.

Lemma Qltb_true_lt (x y : Q) : Qltb x y = true -> (x < y)%Q.
Proof.
  unfold Qltb. intros H. apply negb_true_iff in H.
  apply Qnot_le_lt. intros Hle. apply Qle_bool_iff in Hle. congruence.
Qed.

Lemma confidence_score_nonneg (d : Q) : (0 <= confidence_score d)%Q.
Proof.
  unfold confidence_score. destruct (Qltb 0 (100 - d)) eqn:E.
  - apply Qlt_le_weak. now apply Qltb_true_lt.
  - apply Qle_refl.
Qed.

Lemma student_of_label_known (labels : Py.dict Z) (label : Z) (sid : string) :
  student_of_label labels label = Some sid -> In (sid, label) labels.
Proof.
  induction labels as [| [k v] d IH]; simpl; [discriminate |].
  destruct (Z.eqb_spec v label) as [-> | Hne].
  - intros E. inversion E. now left.
  - intros E. right. now apply IH.
Qed.

(** X7: [recognize_face] never reports a match on a weak or unknown face:
    the confidence it reports is never negative, and a match comes from a
    trained model, names a student who has a label, and has a confidence
    at or above the threshold asked for. *)
Theorem recognize_face_match_is_sound (r : t) (image : Image) (threshold : Q) :
  (0 <= confidence (recognize_face r image threshold))%Q /\
  (is_match (recognize_face r image threshold) = true ->
   model_trained r = true /\
   (threshold <= confidence (recognize_face r image threshold))%Q /\
   exists sid label,
     student_id (recognize_face r image threshold) = Some sid /\
     Py.get (label_map r) sid <> None /\ In (sid, label) (label_map r)).
Proof.
  unfold recognize_face.
  destruct (model_trained r); cbn [negb];
    [| split; [apply Qle_refl | discriminate]].
  destruct (detect_faces image) as [| face [| g fs]];
    try (split; [apply Qle_refl | discriminate]).
  destruct (extract_face_features image face) as [new |];
    try (split; [apply Qle_refl | discriminate]).
  destruct (lbph_predict (recognizer r) new) as [[label distance] |];
    try (split; [apply Qle_refl | discriminate]).
  destruct (student_of_label (label_map r) label) as [sid |] eqn:Es;
    [| split; [apply confidence_score_nonneg | discriminate]].
  destruct (Qltb (confidence_score distance) threshold) eqn:Et;
    cbn; (split; [apply confidence_score_nonneg |]); [discriminate |].
  intros _. split; [reflexivity |]. split; [now apply Qltb_false_le |].
  exists sid, label. apply student_of_label_known in Es.
  repeat split; [| exact Es].
  intros Hn. apply get_none_not_key in Hn. apply Hn.
  change sid with (fst (sid, label)). now apply in_map.
Qed.

Lemma student_of_label_unique (labels : Py.dict Z) (label : Z) (sid : string) :
  NoDup (map snd labels) -> In (sid, label) labels ->
  student_of_label labels label = Some sid.
Proof.
  induction labels as [| [k v] d IH]; simpl; intros Hn Hin; [contradiction |].
  inversion Hn as [| ? ? Hnot Hn']; subst.
  destruct Hin as [E | Hin].
  - inversion E; subst. now rewrite Z.eqb_refl.
  - destruct (Z.eqb_spec v label) as [-> | Hne]; [| now apply IH].
    exfalso. apply Hnot. change label with (snd (sid, label)). now apply in_map.
Qed.

(** X8: a registered face is recognised, as far as the code goes: when the
    training pass after the registration succeeded and LBPH answers, for
    the registered photo, the label of the student at a distance of 40 at
    most, [recognize_face] with threshold 60 reports a match for that
    student with confidence 100 minus the distance. *)
Theorem registered_face_is_recognised
        (r : t) (sid : string) (image : Image) (label : Z) (distance : Q)
        (face : Z * Z * Z * Z) (new : Template) :
  reachable r ->
  detect_faces image = [face] ->
  extract_face_features image face = Some new ->
  model_trained (fst (register_face r sid image)) = true ->
  Py.get (label_map (fst (register_face r sid image))) sid = Some label ->
  lbph_predict (recognizer (fst (register_face r sid image))) new
    = Some (label, distance) ->
  (distance <= 40)%Q ->
  is_match (recognize_face (fst (register_face r sid image)) image 60) = true /\
  student_id (recognize_face (fst (register_face r sid image)) image 60)
    = Some sid /\
  (confidence (recognize_face (fst (register_face r sid image)) image 60)
   == 100 - distance)%Q.
Proof.
  intros H Hd He Ht Hl Hp Hdist.
  assert (C : consistent (fst (register_face r sid image))).
  { apply reachable_consistent. now constructor. }
  unfold recognize_face. rewrite Ht, Hd, He, Hp. cbn [negb].
  rewrite (student_of_label_unique _ label sid (labels_distinct _ C)
                                   (get_in _ _ _ Hl)).
  assert (Hpos : Qltb 0 (100 - distance) = true).
  { unfold Qltb. apply negb_true_iff.
    destruct (Qle_bool (100 - distance) 0) eqn:E; [| reflexivity].
    apply Qle_bool_iff in E. lra. }
  unfold confidence_score. rewrite Hpos.
  assert (Hok : Qltb (100 - distance) 60 = false).
  { unfold Qltb. apply negb_false_iff. apply Qle_bool_iff. lra. }
  rewrite Hok. cbn. repeat split; reflexivity.
Qed.

End RecognizerProperties.

(* ================================================================== *)
(** * Properties of the recognition pipeline and of the sessions *)
(* ================================================================== *)

Section PipelineProperties.
Context {cv : CV2} {host : Host}.
Import Sqlite Props App.

(** The serialisation of the result of the brightness analysis raises,
    whatever the measure. *)
Lemma detect_low_light_answer (cfg : Settings) (image : Image) :
  detect_low_light cfg image =
    {| brightness := 0; is_low_light := false;
       threshold := LOW_LIGHT_THRESHOLD cfg |}.
Proof.
  unfold detect_low_light. destruct (mean_brightness image); reflexivity.
Qed.

Lemma low_light_gate_passes (cfg : Settings) (image : Image) :
  low_light_gate cfg image = inl image.
Proof. unfold low_light_gate. now rewrite detect_low_light_answer. Qed.

(** X9: the brightness gate refuses nothing.  For every image, measurable
    or not, dark or bright, [detect_low_light] answers brightness 0 and no
    low light, because the serialisation of its result for the log raises
    on the [numpy.bool_] of the comparison; the gate hands the image on
    as it is, and [recognize_face_from_image] never answers
    [LOW_LIGHT_DETECTED], with the enhancement switched on or off. *)
Theorem low_light_gate_never_refuses
        (cfg : Settings) (db : DB) (image_data : Py.Data) (image : Image)
        (expected : option string) :
  detect_low_light cfg image =
    {| brightness := 0; is_low_light := false;
       threshold := LOW_LIGHT_THRESHOLD cfg |} /\
  low_light_gate cfg image = inl image /\
  forall b t,
    message (recognize_face_from_image cfg db image_data expected)
    <> Some (LOW_LIGHT_DETECTED b t).
Proof.
  split; [apply detect_low_light_answer |].
  split; [apply low_light_gate_passes |].
  intros b t. unfold recognize_face_from_image.
  destruct (decode_base64_image image_data) as [decoded | e];
    cbn [Py.bind]; [| cbn; discriminate].
  rewrite low_light_gate_passes.
  destruct (classify cfg db decoded expected) as [result | e] eqn:E.
  - eapply classify_is_not_low_light; eassumption.
  - cbn. discriminate.
Qed.

(** X10: the equalisation is never applied.  An image that decodes, a dark
    one included, reaches the recognition as it was decoded: the answer of
    [recognize_face_from_image] is the answer of the recognition on that
    image, not on [enhance_low_light_image] of it. *)
Theorem decoded_image_is_recognised_as_it_is
        (cfg : Settings) (db : DB) (image_data : Py.Data) (image : Image)
        (expected : option string) :
  decode_base64_image image_data = Py.Return image ->
  recognize_face_from_image cfg db image_data expected =
    match classify cfg db image expected with
    | Py.Return result => result
    | Py.Raise e => no_match (FaceRecognitionError e) None
    end.
Proof.
  intros Hd. unfold recognize_face_from_image. rewrite Hd. cbn [Py.bind].
  now rewrite low_light_gate_passes.
Qed.

Lemma classify_match_is_expected
      (cfg : Settings) (db : DB) (image : Image) (expected : string)
      (result : FaceResult) :
  classify cfg db image (Some expected) = Py.Return result ->
  is_match result = true ->
  expected <> EmptyString ->
  student_id result = Some expected /\
  student_name result <> None /\ confidence result <> None.
Proof.
  intros H Hm He. apply String.eqb_neq in He.
  unfold classify, classify_opencv, classify_face_recognition in H.
  cbn [Py.truthy] in H. rewrite He in H. cbn [negb andb] in H.
  repeat match type of H with
         | context [match ?x with _ => _ end] => destruct x eqn:?
         | context [if ?x then _ else _] => destruct x eqn:?
         end;
    inversion H; subst; cbn in Hm; try discriminate; cbn;
    repeat split; try discriminate;
    repeat match goal with
           | E : negb (String.eqb ?a ?b) = false |- _ =>
               apply negb_false_iff in E; apply String.eqb_eq in E; subst
           end; reflexivity.
Qed.

(** X11: a match is never for somebody else.  Whenever
    [recognize_face_from_image] is asked about an expected student and
    reports a match, in the OpenCV mode, the [face_recognition] mode or the
    mock mode, the student it names is the expected one, and the result
    carries a name and a confidence. *)
Theorem match_names_the_expected_student
        (cfg : Settings) (db : DB) (image_data : Py.Data) (expected : string) :
  expected <> EmptyString ->
  is_match (recognize_face_from_image cfg db image_data (Some expected)) = true ->
  student_id (recognize_face_from_image cfg db image_data (Some expected))
    = Some expected /\
  student_name (recognize_face_from_image cfg db image_data (Some expected))
    <> None /\
  confidence (recognize_face_from_image cfg db image_data (Some expected))
    <> None.
Proof.
  intros He. unfold recognize_face_from_image.
  destruct (decode_base64_image image_data) as [image | e];
    cbn [Py.bind]; [| cbn; discriminate].
  destruct (low_light_gate cfg image) as [image' | rejected] eqn:Hg.
  - destruct (classify cfg db image' (Some expected)) as [result | e] eqn:Hc;
      [| cbn; discriminate].
    intros Hm. eapply classify_match_is_expected; eassumption.
  - unfold low_light_gate in Hg.
    destruct (is_low_light (detect_low_light cfg image)); [| discriminate].
    destruct (APPLY_HISTOGRAM_EQUALIZATION cfg).
    + destruct (is_low_light (detect_low_light cfg _)); [| discriminate].
      inversion Hg. cbn. discriminate.
    + inversion Hg. cbn. discriminate.
Qed.

(** X12: [verify_face] never marks attendance.  For every request, clock,
    configuration and table content the handler ends with an HTTP error of
    status 400 or 500, and the tables are left exactly as they were. *)
Theorem verify_face_never_marks_attendance
        (cfg : Settings) (db : DB) (now : Z) (data : FaceVerificationRequest) :
  fst (verify_face cfg db now data) = db /\
  exists status detail,
    snd (verify_face cfg db now data)
      = Py.Raise (Py.HTTPException status detail) /\
    (status = 400 \/ status = 500).
Proof.
  unfold verify_face.
  destruct (negb (Security.validate_student_id _)); [cbn; eauto 6 |].
  destruct (String.eqb _ EmptyString); [cbn; eauto 6 |].
  destruct (negb (validate_face_image _)); [cbn; eauto 6 |].
  destruct (select_open_session _ _ _); cbn; eauto 6.
Qed.

(** X13: the offline sync never writes.  Whatever the batch, no attendance
    row is added, no notification is queued, the tables are left exactly as
    they were, and the summary counts no success. *)
Theorem sync_offline_attendance_changes_nothing
        (cfg : Settings) (db : DB) (now : Z)
        (records : list OfflineAttendanceRecord) :
  fst (sync_offline_attendance cfg db now records) = db /\
  exists response,
    snd (sync_offline_attendance cfg db now records) = Py.Return response /\
    success (summary response) = 0 /\
    Forall (fun r => sr_success r = false) (sync_results response).
Proof.
  unfold sync_offline_attendance, sync_loop. rewrite sync_loop_from.
  cbn [success_count cursor_attendance fst snd Z.ltb Z.compare].
  split; [destruct db; reflexivity |].
  eexists. split; [reflexivity |]. split; [reflexivity |].
  cbn [sync_results results app].
  apply Forall_forall. intros r Hin. apply in_map_iff in Hin as [x [<- _]].
  reflexivity.
Qed.

(** X14: [validate_attendance_token] never opens a session.  For every
    body and clock the handler ends with an HTTP error of status 400, 404
    or 500, and the only change it ever commits is the purge of expired
    sessions. *)
Theorem validate_attendance_token_never_opens_a_session
        (db : DB) (now : Z) (data : Py.dict string) :
  (fst (validate_attendance_token db now data) = db \/
   fst (validate_attendance_token db now data)
     = cleanup_expired_sessions db now) /\
  exists status detail,
    snd (validate_attendance_token db now data)
      = Py.Raise (Py.HTTPException status detail) /\
    (status = 400 \/ status = 404 \/ status = 500).
Proof.
  unfold validate_attendance_token.
  destruct (Py.get data "token") as [raw |]; [| cbn; eauto 8].
  destruct (String.eqb _ EmptyString || _); [cbn; eauto 8 |].
  destruct (negb (Security.validate_student_id _)); [cbn; eauto 8 |].
  destruct (select_student_name _ _); cbn; eauto 8.
Qed.

End PipelineProperties.

(* ================================================================== *)
(** * Tokens, expiry and the commit *)
(* ================================================================== *)

Section SessionProperties.
Context {cv : CV2} {host : Host}.
Import Sqlite Props App.

Lemma length_as_list (s : string) :
  String.length s = List.length (list_ascii_of_string s).
Proof. induction s as [| c s IH]; simpl; congruence. Qed.

Lemma prefix_length (n : nat) (s : string) :
  (n <= String.length s)%nat -> String.length (Text.prefix n s) = n.
Proof.
  unfold Text.prefix. revert s. induction n as [| n IH]; intros s H.
  - destruct s; reflexivity.
  - destruct s as [| c s]; simpl in *; [lia |].
    rewrite IH; [reflexivity | lia].
Qed.

(** An accepted student id has eleven characters, or twelve when the last
    one is a newline. *)
Lemma valid_student_id_shape (s : string) :
  Security.validate_student_id s = true ->
  String.length s = 11%nat \/
  (String.length s = 12%nat /\
   exists front, rev (list_ascii_of_string s) = "010"%char :: front).
Proof.
  unfold Security.validate_student_id. rewrite length_as_list.
  destruct (list_ascii_of_string s)
    as [| d1 [| d2 [| d3 [| d4 [| c [| i [| t [| e1 [| e2 [| e3 [| e4 rest]]]]]]]]]]];
    try discriminate.
  intros H. apply andb_true_iff in H as [_ H].
  destruct rest as [| nl [| x rest]]; [now left | | discriminate].
  right. split; [reflexivity |].
  apply Ascii.eqb_eq in H. subst nl. cbn. eauto.
Qed.

Lemma lstrip_head (l : list ascii) :
  match Text.lstrip l with
  | [] => True
  | c :: _ => Text.is_space c = false
  end.
Proof.
  induction l as [| c l IH]; simpl; [exact I |].
  destruct (Text.is_space c) eqn:E; [exact IH | exact E].
Qed.

(** A stripped text does not end with a blank. *)
Lemma strip_last (raw : string) (c : ascii) (front : list ascii) :
  rev (list_ascii_of_string (Text.strip raw)) = c :: front ->
  Text.is_space c = false.
Proof.
  unfold Text.strip. rewrite list_ascii_of_string_of_list_ascii, rev_involutive.
  intros H.
  pose proof (lstrip_head (rev (Text.lstrip (list_ascii_of_string raw)))) as Hh.
  now rewrite H in Hh.
Qed.

(** X15: the token carries nothing but the student id.  A token that
    [validate_attendance_token] accepts is, once stripped, exactly the id of
    the student it names, eleven characters long: four digits, [CIT], four
    digits. *)
Theorem accepted_token_is_the_student_id (db : DB) (raw : string) :
  accepted_token db raw ->
  token_student raw = Text.strip raw /\
  String.length (Text.strip raw) = 11%nat /\
  Security.validate_student_id (Text.strip raw) = true.
Proof.
  intros (_ & _ & Hv & _). unfold token_student.
  destruct (Nat.leb_spec 15 (String.length (Text.strip raw))) as [Hlong | Hshort].
  - exfalso. apply valid_student_id_shape in Hv.
    rewrite prefix_length in Hv by exact Hlong.
    destruct Hv as [Hv | [Hv _]]; discriminate.
  - split; [reflexivity |]. split; [| exact Hv].
    destruct (valid_student_id_shape _ Hv) as [H11 | [_ [front Hnl]]];
      [exact H11 |].
    apply strip_last in Hnl. discriminate.
Qed.

Lemma find_filter {A} (f g : A -> bool) (l : list A) :
  (forall x, f x = true -> g x = true) ->
  find f (filter g l) = find f l.
Proof.
  intros H. induction l as [| a l IH]; simpl; [reflexivity |].
  destruct (g a) eqn:Eg; simpl.
  - now rewrite IH.
  - destruct (f a) eqn:Ef; [| exact IH].
    apply H in Ef. congruence.
Qed.

(** X16: the purge and the session test agree on time.  Purging the
    expired sessions never changes which session a face request finds; and
    a session whose expiry is the very instant of the request is neither
    purged nor found. *)
Theorem purge_keeps_every_open_session
        (tbl : list Session) (sid : string) (now : Z) :
  select_open_session (delete_expired tbl now) sid now
    = select_open_session tbl sid now /\
  forall s, In s tbl -> ses_expires_at s = now ->
    In s (delete_expired tbl now) /\
    select_open_session tbl sid now <> Some s.
Proof.
  split.
  - unfold select_open_session, delete_expired. apply find_filter.
    intros s H. apply andb_true_iff in H as [_ H].
    apply Z.ltb_lt in H. apply negb_true_iff. apply Z.ltb_ge. lia.
  - intros s Hin He. split.
    + unfold delete_expired. apply filter_In. split; [exact Hin |].
      apply negb_true_iff. apply Z.ltb_ge. lia.
    + intros Hf. unfold select_open_session in Hf.
      apply find_some in Hf as [_ Hf].
      apply andb_true_iff in Hf as [_ Hf]. apply Z.ltb_lt in Hf. lia.
Qed.

(** X17: the commit that follows a matching face, for a student not yet
    marked today, adds one attendance row (method [qr_face], today's date,
    the clock's time, the confidence of the face result, not offline) and
    uses the session up: no later face request finds a session with that
    student and that token again. *)
Theorem verify_face_commit_uses_the_session_up
        (db : DB) (now : Z) (sid name : string) (session : Session)
        (result : FaceResult) (c : Q) :
  select_student_name (students db) sid = Some name ->
  confidence result = Some c ->
  existsb (same_student_date sid (CURRENT_DATE now)) (attendance db) = false ->
  exists db' response,
    verify_face_commit db now sid session result = Py.Return (db', response) /\
    attendance db' =
      attendance db ++
      [ {| att_student_id := sid; att_student_name := name;
           att_date := CURRENT_DATE now;
           att_check_in_time := CURRENT_TIME now;
           att_method := "qr_face"; att_confidence_score := c;
           att_is_offline := 0 |} ] /\
    vr_success response = true /\
    forall later s,
      select_open_session (attendance_sessions db') sid later = Some s ->
      ses_session_token s <> ses_session_token session.
Proof.
  intros Hs Hc Hfree. unfold verify_face_commit. rewrite Hs, Hc.
  unfold insert_attendance. cbn [att_student_id att_date]. rewrite Hfree.
  cbn [Py.bind]. eexists. eexists. split; [reflexivity |].
  split; [reflexivity |]. split; [reflexivity |].
  intros later s Hf Htok. cbn [with_attendance with_sessions attendance_sessions] in Hf.
  unfold select_open_session in Hf. apply find_some in Hf as [Hin Hf].
  unfold mark_face_verified in Hin. apply in_map_iff in Hin as [s0 [E _]].
  repeat (apply andb_true_iff in Hf as [Hf ?]).
  apply String.eqb_eq in Hf.
  destruct (String.eqb (ses_student_id s0) sid
            && String.eqb (ses_session_token s0) (ses_session_token session))
    eqn:Em.
  - subst s. cbn in *. discriminate.
  - subst s0. rewrite Hf, String.eqb_refl in Em. cbn in Em.
    apply String.eqb_neq in Em. contradiction.
Qed.

End SessionProperties.

(* ================================================================== *)
(** * Enrolment, seeding and start-up *)
(* ================================================================== *)

Section AdminProperties.
Context {cv : CV2} {host : Host}.
Variable mock_face_encoding : Image -> Encoding.
Import Sqlite Props Admin.

(** The leaves of [upload_student_photo]. *)
Ltac upload_cases :=
  repeat match goal with
         | |- context [call _ ?f] => destruct f; cbn [call]
         | |- context [match face_locations ?i with _ => _ end] =>
             destruct (face_locations i) as [[| ? [| ? ?]] |]
         | |- context [match face_encodings_of ?i ?l with _ => _ end] =>
             destruct (face_encodings_of i l) as [[| ? ?] |]
         end.

(** X18: an upload is not all or nothing.  The students table changes on
    success only, and an upload refused with status 400 leaves the
    recognizer, the dictionary of encodings and the tables as they were.
    But in the OpenCV mode the face is registered, trained and saved before
    the photo and the row of the student are written: when the database
    write raises, the upload is answered with status 500, the students
    table is as before, and the recognizer keeps the sample of the
    student. *)
Theorem upload_failure_keeps_the_registration
        (inst : Installation) (student : StudentPhotoUpload) :
  (forall status detail,
     snd (upload_student_photo mock_face_encoding inst student)
       = Py.Raise (Py.HTTPException status detail) ->
     tables (fst (upload_student_photo mock_face_encoding inst student))
       = tables inst /\
     (status = 400 ->
      known_encodings (fst (upload_student_photo mock_face_encoding inst student))
        = known_encodings inst /\
      App.opencv_recognizer
        (settings (fst (upload_student_photo mock_face_encoding inst student)))
        = App.opencv_recognizer (settings inst))) /\
  (forall r image msg,
     App.OPENCV_FACE_RECOGNITION_AVAILABLE (settings inst) = true ->
     App.opencv_recognizer (settings inst) = Some r ->
     App.decode_base64_image (Py.PyStr (up_image student)) = Py.Return image ->
     snd (Recognizer.register_face r (up_studentId student) image) = true ->
     imwrite (storage inst) (up_studentId student ++ ".jpg")%string image
       = None ->
     commit_students (storage inst) (enrolled_row student) = Some msg ->
     upload_student_photo mock_face_encoding inst student =
       ({| settings :=
             with_recognizer (settings inst)
               (fst (Recognizer.register_face r (up_studentId student) image));
           tables := tables inst;
           known_encodings := known_encodings inst;
           storage := storage inst |},
        Py.Raise (Py.HTTPException 500 msg)) /\
     stored (fst (Recognizer.register_face r (up_studentId student) image))
            (up_studentId student) <> []).
Proof.
  split.
  - unfold upload_student_photo, update_database.
    destruct (App.decode_base64_image _) as [image | e].
    2:{ destruct e; cbn; intros c d H; try discriminate;
        repeat split; reflexivity. }
    destruct (App.OPENCV_FACE_RECOGNITION_AVAILABLE (settings inst)) eqn:Eo;
      [destruct (App.opencv_recognizer (settings inst)) as [r |] eqn:Er |].
    + destruct (Recognizer.register_face r (up_studentId student) image)
        as [r' success] eqn:E.
      destruct success; cbn [negb].
      * upload_cases; cbn; intros c d H; try discriminate;
          inversion H; subst; split; try reflexivity;
          intros H400; discriminate H400.
      * pose proof (register_face_failure r (up_studentId student) image)
          as Hf.
        rewrite E in Hf. specialize (Hf eq_refl). inversion Hf; subst r'.
        cbn. intros c d H. repeat split; cbn; rewrite ?Er; reflexivity.
    + destruct (App.FACE_RECOGNITION_AVAILABLE (settings inst));
        upload_cases; cbn; intros c d H; try discriminate;
        inversion H; subst; split; try reflexivity;
        intros H400; try discriminate H400; split; cbn; rewrite ?Er;
        reflexivity.
    + destruct (App.FACE_RECOGNITION_AVAILABLE (settings inst));
        upload_cases; cbn; intros c d H; try discriminate;
        inversion H; subst; split; try reflexivity;
        intros H400; try discriminate H400; split; cbn; rewrite ?Er;
        reflexivity.
  - intros r image msg Ho Hr Hd Hs Hw Hc. split.
    + unfold upload_student_photo, update_database. rewrite Hd, Ho, Hr.
      destruct (Recognizer.register_face r (up_studentId student) image)
        as [r' success] eqn:E.
      cbn [snd] in Hs. subst success. cbn [negb fst].
      rewrite Hw. cbn [call storage]. rewrite Hc. reflexivity.
    + apply register_face_stores_a_sample. exact Hs.
Qed.

Lemma replaced_row_is_found (tbl : list Student) (row : Student) :
  select_student_name (insert_or_replace tbl row) (st_student_id row)
    = Some (st_name row).
Proof.
  unfold select_student_name, insert_or_replace.
  induction tbl as [| s tbl IH]; simpl.
  - now rewrite String.eqb_refl.
  - destruct (String.eqb (st_student_id s) (st_student_id row)) eqn:E; simpl;
      [exact IH | now rewrite E].
Qed.

Lemma replaced_row_keeps_others (tbl : list Student) (row : Student)
      (other : string) :
  other <> st_student_id row ->
  select_student_name (insert_or_replace tbl row) other
    = select_student_name tbl other.
Proof.
  intros Hne. unfold select_student_name, insert_or_replace.
  induction tbl as [| s tbl IH]; simpl.
  - destruct (String.eqb_spec (st_student_id row) other); [congruence |].
    reflexivity.
  - destruct (String.eqb_spec (st_student_id s) (st_student_id row)) as [E | E];
      simpl.
    + destruct (String.eqb_spec (st_student_id s) other); [congruence |].
      exact IH.
    + destruct (String.eqb (st_student_id s) other); [reflexivity | exact IH].
Qed.

Lemma replaced_rows_unique (tbl : list Student) (row : Student) :
  NoDup (map st_student_id tbl) ->
  NoDup (map st_student_id (insert_or_replace tbl row)).
Proof.
  intros Hn. unfold insert_or_replace. rewrite map_app. simpl.
  apply NoDup_app.
  - induction tbl as [| s tbl IH]; simpl; [constructor |].
    simpl in Hn. inversion Hn as [| ? ? Hnot Hn']; subst.
    destruct (negb _); simpl; [| now apply IH].
    constructor; [| now apply IH].
    intros Hin. apply Hnot. apply in_map_iff in Hin as [x [Ex Hx]].
    apply filter_In in Hx as [Hx _]. apply in_map_iff. eauto.
  - repeat constructor. intros [].
  - intros a Ha [Hb | []]. subst a.
    apply in_map_iff in Ha as [x [Ex Hx]]. apply filter_In in Hx as [_ Hx].
    apply negb_true_iff, String.eqb_neq in Hx. contradiction.
Qed.

(** X19: a successful upload registers the student.  The students table
    then finds the student under the uploaded name, every other student is
    found as before, student ids stay unique, and no other table changes;
    in the OpenCV mode the recognizer holds a sample for the student. *)
Theorem upload_registers_the_student
        (inst : Installation) (student : StudentPhotoUpload)
        (response : UploadResponse) :
  snd (upload_student_photo mock_face_encoding inst student) = Py.Return response ->
  select_student_name (students (tables (fst (upload_student_photo mock_face_encoding inst student))))
                      (up_studentId student)
    = Some (up_studentName student) /\
  (forall other, other <> up_studentId student ->
     select_student_name (students (tables (fst (upload_student_photo mock_face_encoding inst student)))) other
       = select_student_name (students (tables inst)) other) /\
  (NoDup (map st_student_id (students (tables inst))) ->
   NoDup (map st_student_id (students (tables (fst (upload_student_photo mock_face_encoding inst student)))))) /\
  attendance (tables (fst (upload_student_photo mock_face_encoding inst student))) = attendance (tables inst) /\
  face_encodings (tables (fst (upload_student_photo mock_face_encoding inst student)))
    = face_encodings (tables inst) /\
  (up_opencv_mode response = true ->
   exists r', App.opencv_recognizer (settings (fst (upload_student_photo mock_face_encoding inst student)))
                = Some r' /\
              stored r' (up_studentId student) <> []).
Proof.
  pose proof (replaced_row_is_found (students (tables inst))
                                    (enrolled_row student)) as Hfound.
  pose proof (fun other =>
                replaced_row_keeps_others (students (tables inst))
                                          (enrolled_row student) other)
    as Hkeep.
  pose proof (replaced_rows_unique (students (tables inst))
                                   (enrolled_row student)) as Huniq.
  unfold upload_student_photo, update_database.
  destruct (App.decode_base64_image _) as [image | e];
    [| destruct e; cbn; discriminate].
  destruct (App.OPENCV_FACE_RECOGNITION_AVAILABLE (settings inst)) eqn:Eo;
    [destruct (App.opencv_recognizer (settings inst)) as [r |] eqn:Er |].
  - destruct (Recognizer.register_face r (up_studentId student) image)
      as [r' success] eqn:E.
    destruct success; cbn [negb]; [| cbn; discriminate].
    upload_cases; cbn; try discriminate.
    intros _. repeat split; auto.
    intros _. exists r'. split; [reflexivity |].
    pose proof (register_face_stores_a_sample r (up_studentId student) image)
      as Hst.
    rewrite E in Hst. exact (Hst eq_refl).
  - destruct (App.FACE_RECOGNITION_AVAILABLE (settings inst));
      upload_cases; cbn; try discriminate;
      intros H; inversion H; subst; cbn; repeat split; auto; discriminate.
  - destruct (App.FACE_RECOGNITION_AVAILABLE (settings inst));
      upload_cases; cbn; try discriminate;
      intros H; inversion H; subst; cbn; repeat split; auto; discriminate.
Qed.

Lemma best_of_without_encodings
      (rows : list (string * string * option Encoding)) (unknown : Encoding)
      (best : option (string * string * Q)) :
  Forall (fun row => snd row = None) rows ->
  App.best_of rows unknown best = best.
Proof.
  revert best. induction rows as [| [[sid name] enc] rows IH];
    intros best H; simpl; [reflexivity |].
  inversion H as [| ? ? Hrow Hrest]; subst. cbn in Hrow. subst enc.
  now apply IH.
Qed.

(** X20: in the [face_recognition] mode nobody is ever recognised.  No
    upload writes the [face_encodings] table, which is the only place the
    recognition of that mode reads encodings from; with the table empty, as
    [init_db] leaves it, no image matches after any upload. *)
Theorem face_recognition_mode_never_matches
        (inst : Installation) (student : StudentPhotoUpload)
        (image_data : Py.Data) (expected : option string) :
  App.OPENCV_FACE_RECOGNITION_AVAILABLE (settings inst) = false ->
  App.FACE_RECOGNITION_AVAILABLE (settings inst) = true ->
  face_encodings (tables inst) = [] ->
  face_encodings (tables (fst (upload_student_photo mock_face_encoding inst student))) = [] /\
  App.is_match
    (App.recognize_face_from_image
       (settings (fst (upload_student_photo mock_face_encoding inst student)))
       (tables (fst (upload_student_photo mock_face_encoding inst student))) image_data expected) = false.
Proof.
  intros Ho Hf He.
  assert (Hs : settings (fst (upload_student_photo mock_face_encoding inst student)) = settings inst).
  { unfold upload_student_photo, update_database.
    destruct (App.decode_base64_image _) as [image | e]; [| reflexivity].
    rewrite Ho, Hf. upload_cases; reflexivity. }
  assert (Ht : face_encodings (tables (fst (upload_student_photo mock_face_encoding inst student))) = []).
  { unfold upload_student_photo, update_database.
    destruct (App.decode_base64_image _) as [image | e]; [| exact He].
    rewrite Ho, Hf. upload_cases; exact He. }
  split; [exact Ht |]. rewrite Hs.
  unfold App.recognize_face_from_image.
  destruct (App.decode_base64_image image_data) as [image | e];
    cbn [Py.bind]; [| reflexivity].
  destruct (App.low_light_gate (settings inst) image) as [image' | rejected]
    eqn:Hg.
  - unfold App.classify. rewrite Ho, Hf.
    unfold App.classify_face_recognition.
    destruct (face_locations image') as [[| loc [| loc' locs]] |];
      try reflexivity.
    destruct (face_encodings_of image' [loc]) as [[| unknown encs] |];
      try reflexivity.
    destruct (App.encoded_students _) as [| row rows] eqn:Erows;
      [reflexivity |].
    rewrite best_of_without_encodings; [reflexivity |].
    rewrite <- Erows. unfold App.encoded_students. rewrite Ht.
    apply Forall_forall. intros row' Hin.
    apply in_map_iff in Hin as [s0 [<- _]]. reflexivity.
  - unfold App.low_light_gate in Hg.
    destruct (App.is_low_light _); [| discriminate].
    destruct (App.APPLY_HISTOGRAM_EQUALIZATION _).
    + destruct (App.is_low_light _); [| discriminate].
      now inversion Hg.
    + now inversion Hg.
Qed.

(** X21: the seeded students cannot take attendance.  Every student that
    [seed_initial_students] puts into an empty table has an id that
    [validate_student_id] refuses, so a token made of that id is answered
    with status 400, and so is a face request for that id. *)
Theorem seeded_students_are_refused
        (cfg : App.Settings) (db : DB) (now : Z) (s : Student)
        (name image : string) :
  students db = [] ->
  In s (students (seed_initial_students db)) ->
  Security.validate_student_id (st_student_id s) = false /\
  snd (App.validate_attendance_token (seed_initial_students db) now
         [("token", st_student_id s)])
    = Py.Raise (Py.HTTPException 400 "Invalid student ID in token") /\
  snd (App.verify_face cfg (seed_initial_students db) now
         {| App.fv_studentId := st_student_id s;
            App.fv_studentName := name; App.fv_image := image |})
    = Py.Raise (Py.HTTPException 400 "Invalid student ID format").
Proof.
  intros He Hin. unfold seed_initial_students in *. rewrite He in *.
  cbn in Hin.
  destruct Hin as [<- | [<- | [<- | []]]]; repeat split.
Qed.

(** X22: after the recognizer has saved its encodings, [app.py] cannot be
    imported again.  Every successful registration and every removal
    leaves a pickle under the path that the module then reads as JSON
    text; the error is not caught, with or without OpenCV. *)
Theorem import_fails_after_the_recognizer_saved
        (r : Recognizer.t) (sid : string) (image : Image)
        (opencv_available : bool) :
  (snd (Recognizer.register_face r sid image) = true ->
   exists e,
     import_app opencv_available
                (file_of (fst (Recognizer.register_face r sid image)))
       = Py.Raise e) /\
  exists e,
    import_app opencv_available
               (file_of (fst (Recognizer.remove_student r sid)))
      = Py.Raise e.
Proof.
  split.
  - intros Hs. unfold Recognizer.register_face in *.
    destruct (Recognizer.detect_faces image) as [| face [| g fs]];
      try discriminate.
    destruct (Recognizer.extract_face_features image face); try discriminate.
    destruct (Py.contains (Recognizer.label_map r) sid); cbn; eauto.
  - cbn. eauto.
Qed.

End AdminProperties.

(* ================================================================== *)
(** * Telemetry and notifications *)
(* ================================================================== *)

Section TelemetryProperties.
Import Telemetry.

(** X23: [log_event] never stores anything.  Its [INSERT] names a column
    [details] that the [logs] table of [init_db] does not have, so every
    call, whatever the event, falls back to printing and leaves the table
    as it was. *)
Theorem log_event_never_stores
        (logs : list LogRow) (now : Z) (event_type message : string)
        (student_id details : option string) (level : string) :
  Schema.execute "logs"
    ["event_type"; "message"; "details"; "student_id"; "level"]
    = Py.Raise (Py.LibraryError "no such column: details") /\
  log_event logs now event_type message student_id details level = logs.
Proof. split; reflexivity. Qed.

(** X24: the recent-logs endpoint always answers status 500: its [SELECT]
    names the same missing column, whatever the table holds, the limit and
    the filter. *)
Theorem get_recent_logs_always_fails
        (logs : list LogRow) (limit : Z) (event_type : option string) :
  get_recent_logs logs limit event_type
    = Py.Raise (Py.HTTPException 500 "no such column: details").
Proof. reflexivity. Qed.

End TelemetryProperties.

Section NotifyProperties.
Variable EMAIL_ENABLED : bool.
Variable smtp_delivers : string -> string -> string -> bool.
Import Notify.

Lemma mark_sent_adds_no_failure (now : Z) (batch tbl : list Row) (row : Row) :
  In row (mark_sent now batch tbl) -> status row = "failed" ->
  exists before, In before tbl /\ id before = id row /\
                 status before = "failed".
Proof.
  unfold mark_sent. revert tbl.
  induction batch as [| n batch IH]; intros tbl Hin Hs.
  - cbn in Hin. eauto.
  - cbn [fold_left] in Hin. destruct (IH _ Hin Hs) as (mid & Hmid & Hid & Hm).
    unfold set_status in Hmid. apply in_map_iff in Hmid as [x [Ex Hx]].
    destruct (id x =? id n); subst mid; [cbn in Hm; discriminate |].
    eauto.
Qed.

Lemma deliver_all (now : Z) (batch : list Row) (mails : list Z)
      (tbl : list Row) :
  Forall (fun n => Notify.sends EMAIL_ENABLED smtp_delivers n = true) batch ->
  deliver EMAIL_ENABLED smtp_delivers now batch mails tbl =
    (mails ++ map id batch, Py.Return (mark_sent now batch tbl)).
Proof.
  revert mails tbl. induction batch as [| n batch IH]; intros mails tbl H.
  - cbn. now rewrite app_nil_r.
  - inversion H as [| ? ? Hn Hrest]; subst. cbn [deliver].
    unfold Notify.sends in Hn. rewrite Hn.
    change (Schema.execute "notifications"
                                    ["status"; "sent_at"; "id"])
      with (@Py.Return unit tt).
    cbn iota. rewrite IH by exact Hrest. cbn [map mark_sent fold_left].
    now rewrite <- app_assoc.
Qed.

Lemma deliver_some_failure (now : Z) (batch : list Row) (mails : list Z)
      (tbl : list Row) :
  Exists (fun n => Notify.sends EMAIL_ENABLED smtp_delivers n = false) batch ->
  exists mails' e,
    deliver EMAIL_ENABLED smtp_delivers now batch mails tbl
      = (mails', Py.Raise e) /\
    (List.length mails' < List.length mails + List.length batch)%nat.
Proof.
  revert mails tbl. induction batch as [| n batch IH]; intros mails tbl H.
  - inversion H.
  - cbn [deliver].
    assert (En : Notify.sends EMAIL_ENABLED smtp_delivers n =
                 send_email_notification EMAIL_ENABLED smtp_delivers
                   (recipient n) (subject n) (message n)) by reflexivity.
    destruct (send_email_notification EMAIL_ENABLED smtp_delivers
                (recipient n) (subject n) (message n)).
    + change (Schema.execute "notifications" ["status"; "sent_at"; "id"])
        with (@Py.Return unit tt). cbn iota.
      inversion H as [? ? Hn | ? ? Hrest]; subst; [congruence |].
      destruct (IH (mails ++ [id n])
                   (set_status tbl (id n) "sent" (Some now)) Hrest)
        as (mails' & e & -> & Hlen).
      exists mails', e. split; [reflexivity |].
      rewrite length_app in Hlen. cbn in *. lia.
    + change (Schema.execute "notifications"
                ["status"; "error_message"; "id"])
        with (@Py.Raise unit
                (Py.LibraryError "no such column: error_message")).
      cbn iota. eexists. eexists. split; [reflexivity |]. cbn. lia.
Qed.

(** X25: a notification is never marked as failed, and a run of
    [send_pending_notifications] records all or nothing.  When one mail of
    the selected batch cannot be sent, the update that should mark it names
    a column the table does not have, the run ends without a commit and the
    table is as before, although the mails sent earlier in the run have
    gone out.  When every mail of the batch is sent, exactly the rows of
    the batch are marked as sent. *)
Theorem send_pending_notifications_all_or_nothing
        (now : Z) (tbl : list Row) :
  (Exists (fun n => Notify.sends EMAIL_ENABLED smtp_delivers n = false) (pending tbl) ->
   snd (send_pending_notifications EMAIL_ENABLED smtp_delivers now tbl) = tbl /\
   (List.length
      (fst (send_pending_notifications EMAIL_ENABLED smtp_delivers now tbl))
    < List.length (pending tbl))%nat) /\
  (Forall (fun n => Notify.sends EMAIL_ENABLED smtp_delivers n = true) (pending tbl) ->
   send_pending_notifications EMAIL_ENABLED smtp_delivers now tbl
     = (map id (pending tbl), mark_sent now (pending tbl) tbl)) /\
  forall row,
    In row (snd (send_pending_notifications EMAIL_ENABLED smtp_delivers
                                            now tbl)) ->
    status row = "failed" ->
    exists before, In before tbl /\ id before = id row /\
                   status before = "failed".
Proof.
  assert (Hfail : Exists (fun n => Notify.sends EMAIL_ENABLED smtp_delivers n = false) (pending tbl) ->
    snd (send_pending_notifications EMAIL_ENABLED smtp_delivers now tbl) = tbl /\
    (List.length
       (fst (send_pending_notifications EMAIL_ENABLED smtp_delivers now tbl))
     < List.length (pending tbl))%nat).
  { intros H. unfold send_pending_notifications.
    destruct (deliver_some_failure now (pending tbl) [] tbl H)
      as (mails' & e & -> & Hlen).
    cbn in *. split; [reflexivity | exact Hlen]. }
  assert (Hall : Forall (fun n => Notify.sends EMAIL_ENABLED smtp_delivers n = true) (pending tbl) ->
    send_pending_notifications EMAIL_ENABLED smtp_delivers now tbl
      = (map id (pending tbl), mark_sent now (pending tbl) tbl)).
  { intros H. unfold send_pending_notifications.
    now rewrite (deliver_all now (pending tbl) [] tbl H). }
  split; [exact Hfail |]. split; [exact Hall |].
  intros row Hin Hst.
  destruct (Forall_Exists_dec (fun n => Notify.sends EMAIL_ENABLED smtp_delivers n = true)
              (fun n => bool_dec (Notify.sends EMAIL_ENABLED smtp_delivers n) true) (pending tbl))
    as [Hok | Hbad].
  - rewrite (Hall Hok) in Hin. cbn [snd] in Hin.
    eapply mark_sent_adds_no_failure; eassumption.
  - assert (Hex : Exists (fun n => Notify.sends EMAIL_ENABLED smtp_delivers n = false) (pending tbl)).
    { apply Exists_exists. apply Exists_exists in Hbad as [n [Hn Hne]].
      exists n. split; [exact Hn |]. now destruct (Notify.sends EMAIL_ENABLED smtp_delivers n). }
    rewrite (proj1 (Hfail Hex)) in Hin. eauto.
Qed.

End NotifyProperties.

(* ================================================================== *)
(** * The login lock-out *)
(* ================================================================== *)

Section LockoutProperties.
Variable authenticate_user : string -> string -> option string.
Variable create_access_token : string -> string.
Import Lockout.

(** X26: a lock-out never ends.  While an address is locked out, every
    login from it is answered with status 429, whatever the credentials,
    correct ones included, and the recorded failures are not touched, so
    the address is still locked out afterwards; once fifteen minutes have
    passed since the oldest recorded failure the remaining time reported is
    0, and the address is locked out all the same. *)
Theorem lockout_never_ends
        (fa : Attempts) (ip : string) (now : Q) (email password : string)
        (l : list Q) :
  is_locked_out fa ip = true ->
  Py.get fa ip = Some l ->
  fst (login authenticate_user create_access_token fa now ip email password)
    = fa /\
  (exists detail,
     snd (login authenticate_user create_access_token fa now ip email password)
       = Py.Raise (Py.HTTPException 429 detail)) /\
  ((minimum l + LOCKOUT_DURATION_MINUTES * 60 <= now)%Q ->
   get_remaining_lockout_time fa ip now = 0).
Proof.
  intros Hl Hg. unfold login. rewrite Hl. cbn [fst snd].
  split; [reflexivity |]. split; [eauto |].
  intros Hold. unfold get_remaining_lockout_time. rewrite Hl, Hg. cbn [negb].
  set (remaining := (minimum l + LOCKOUT_DURATION_MINUTES * 60 - now)%Q) in *.
  assert (Hr : (remaining <= 0)%Q) by (unfold remaining; lra).
  assert (Hnum : Qnum remaining <= 0).
  { clearbody remaining. destruct remaining as [n d].
    unfold Qle in Hr. cbn in *. lia. }
  assert (Hq : Z.quot (Qnum remaining) (Zpos (Qden remaining)) <= 0).
  { pose proof (Z.quot_le_mono (Qnum remaining) 0 (Zpos (Qden remaining))
                               eq_refl Hnum) as Hm.
    rewrite Z.quot_0_l in Hm by lia. exact Hm. }
  destruct (Z.ltb_spec 0 (Z.quot (Qnum remaining) (Zpos (Qden remaining))));
    [lia | reflexivity].
Qed.

Lemma filter_keeps_all {A} (f : A -> bool) (l : list A) :
  (forall x, In x l -> f x = true) -> filter f l = l.
Proof.
  induction l as [| a l IH]; intros H; simpl; [reflexivity |].
  rewrite (H a (or_introl eq_refl)). f_equal. apply IH.
  intros x Hx. apply H. now right.
Qed.

Lemma record_in_window (fa : Attempts) (ip : string) (lo t : Q) (l : list Q) :
  (Py.get fa ip = Some l \/ (Py.get fa ip = None /\ l = [])) ->
  (forall a, In a l -> (lo <= a)%Q) ->
  (lo <= t)%Q -> (t < lo + LOCKOUT_DURATION_MINUTES * 60)%Q ->
  Py.get (record_failed_attempt fa ip t) ip = Some (l ++ [t]).
Proof.
  intros Hg Hl Hlo Hhi. unfold record_failed_attempt. cbv zeta.
  rewrite get_set_same. f_equal.
  assert (Hold : match Py.get (if Py.contains fa ip then fa
                               else Py.set fa ip []) ip with
                 | Some l0 => l0 ++ [t]
                 | None => [t]
                 end = l ++ [t]).
  { unfold Py.contains.
    destruct Hg as [Hg | [Hg ->]]; rewrite Hg; [now rewrite Hg |].
    now rewrite get_set_same. }
  transitivity
    (filter (fun attempt =>
               Recognizer.Qltb (t - LOCKOUT_DURATION_MINUTES * 60) attempt)
            (l ++ [t])); [f_equal; exact Hold |].
  apply filter_keeps_all.
  intros a Ha. unfold Recognizer.Qltb. apply negb_true_iff.
  destruct (Qle_bool a (t - LOCKOUT_DURATION_MINUTES * 60)) eqn:E;
    [| reflexivity].
  apply Qle_bool_iff in E.
  apply in_app_or in Ha as [Ha | [<- | []]].
  - specialize (Hl a Ha). unfold LOCKOUT_DURATION_MINUTES in *. lra.
  - unfold LOCKOUT_DURATION_MINUTES in *. lra.
Qed.

(** X27: failures that fall within one span of fifteen minutes are all
    kept, in order, and the address is locked out exactly from the fifth
    one on. *)
Theorem failures_within_the_window_lock
        (fa : Attempts) (ip : string) (lo : Q) (times : list Q) :
  Py.get fa ip = None ->
  times <> [] ->
  (forall t, In t times ->
     (lo <= t)%Q /\ (t < lo + LOCKOUT_DURATION_MINUTES * 60)%Q) ->
  Py.get (fold_left (fun fa t => record_failed_attempt fa ip t) times fa) ip
    = Some times /\
  is_locked_out
    (fold_left (fun fa t => record_failed_attempt fa ip t) times fa) ip
    = (5 <=? List.length times)%nat.
Proof.
  intros Hg Hne Hw.
  assert (Hgen : forall rest fa0 done,
    (Py.get fa0 ip = Some done \/ (Py.get fa0 ip = None /\ done = [])) ->
    (forall a, In a done -> (lo <= a)%Q) ->
    (forall t, In t rest ->
       (lo <= t)%Q /\ (t < lo + LOCKOUT_DURATION_MINUTES * 60)%Q) ->
    rest <> [] ->
    Py.get (fold_left (fun fa t => record_failed_attempt fa ip t) rest fa0) ip
      = Some (done ++ rest)).
  { induction rest as [| t rest IH]; intros fa0 done H0 Hd Hr Hn;
      [contradiction |].
    cbn [fold_left].
    destruct (Hr t (or_introl eq_refl)) as [Ht1 Ht2].
    pose proof (record_in_window fa0 ip lo t done H0 Hd Ht1 Ht2) as Hrec.
    destruct rest as [| t' rest'].
    - cbn [fold_left]. exact Hrec.
    - rewrite (IH (record_failed_attempt fa0 ip t) (done ++ [t])).
      + now rewrite <- app_assoc.
      + now left.
      + intros a Ha. apply in_app_or in Ha as [Ha | [<- | []]]; auto.
      + intros x Hx. apply Hr. now right.
      + discriminate. }
  assert (Hfinal := Hgen times fa [] (or_intror (conj Hg eq_refl))
                         (fun a (H : In a []) => match H with end) Hw Hne).
  cbn [app] in Hfinal. split; [exact Hfinal |].
  unfold is_locked_out. now rewrite Hfinal.
Qed.

End LockoutProperties.

(* ================================================================== *)
(** * The further properties on the concrete installation *)
(* ================================================================== *)

Section MoreExamples.
Import Fixture.
#[local] Existing Instance vision.

Lemma enrol_is_reachable (faces : list nat) (sid : string)
      (r : Recognizer.t) :
  Recognizer.reachable r -> Recognizer.reachable (enrol faces sid r).
Proof.
  revert r. induction faces as [| face faces IH]; intros r H.
  - exact H.
  - change (Recognizer.reachable
              (enrol faces sid
                 (fst (Recognizer.register_face r sid (photo face))))).
    apply IH. apply Recognizer.reach_register. exact H.
Defined.

(** Seven enrolments of one student. *)
Lemma samples_never_exceed_five_witness :
  Props.stored (enrol [1; 2; 3; 4; 5; 6; 7]%nat alice Recognizer.init) alice
    = [3; 4; 5; 6; 7]%nat /\
  (List.length
     (Props.stored (enrol [1; 2; 3; 4; 5; 6; 7]%nat alice Recognizer.init)
                   alice) <= 5)%nat /\
  (Recognizer.total_samples
     (Recognizer.get_stats
        (enrol [1; 2; 3; 4; 5; 6; 7]%nat alice Recognizer.init))
   <= 5 * Recognizer.registered_students
            (Recognizer.get_stats
               (enrol [1; 2; 3; 4; 5; 6; 7]%nat alice Recognizer.init)))%nat.
Proof.
  split; [reflexivity |].
  destruct (samples_never_exceed_five
              (enrol [1; 2; 3; 4; 5; 6; 7]%nat alice Recognizer.init)
              (enrol_is_reachable _ alice _ Recognizer.reach_init))
    as [H1 H2].
  split; [apply H1 | exact H2].
Defined.

Lemma trained_is_reachable : Recognizer.reachable trained.
Proof.
  unfold trained. apply enrol_is_reachable, enrol_is_reachable.
  constructor.
Defined.

(** Two students, then one more photo of the first. *)
Lemma labels_are_distinct_and_stable_witness :
  Py.get (Recognizer.label_map trained) alice = Some 0 /\
  Py.get (Recognizer.label_map trained) bob = Some 1 /\
  Py.get (Recognizer.label_map
            (fst (Recognizer.register_face trained alice (photo 3)))) bob
    = Some 1.
Proof.
  split; [reflexivity |]. split; [reflexivity |].
  exact (proj2 (labels_are_distinct_and_stable trained trained_is_reachable)
               alice (photo 3) bob 1 eq_refl).
Defined.

(** The first student removed and registered again. *)
Lemma removed_student_gets_fresh_label_witness :
  Py.get (Recognizer.label_map trained) alice = Some 0 /\
  Recognizer.next_label trained = 2 /\
  Py.get (Recognizer.label_map
            (fst (Recognizer.register_face
                    (fst (Recognizer.remove_student trained alice))
                    alice (photo 1)))) alice
    = Some 2.
Proof.
  split; [reflexivity |]. split; [reflexivity |].
  exact (proj1 (removed_student_gets_fresh_label
                  trained alice (photo 1) 0
                  trained_is_reachable eq_refl eq_refl)).
Defined.

Lemma remove_student_forgets_only_that_student_witness :
  Py.get (Recognizer.known_encodings
            (fst (Recognizer.remove_student trained alice))) alice = None /\
  Py.get (Recognizer.label_map
            (fst (Recognizer.remove_student trained alice))) alice = None /\
  Py.get (Recognizer.known_encodings
            (fst (Recognizer.remove_student trained alice))) bob
    = Some [2%nat].
Proof.
  destruct (remove_student_forgets_only_that_student
              trained alice trained_is_reachable) as (_ & H1 & H2 & H3).
  split; [exact H1 |]. split; [exact H2 |].
  assert (Hne : bob <> alice) by discriminate.
  exact (proj1 (H3 bob Hne)).
Defined.

(** The first registration, and the same photo shown again. *)
Lemma registered_face_is_recognised_witness :
  lbph_predict
    (Recognizer.recognizer
       (fst (Recognizer.register_face Recognizer.init alice (photo 1))))
    1%nat = Some (0, 10 # 1) /\
  Recognizer.is_match
    (Recognizer.recognize_face
       (fst (Recognizer.register_face Recognizer.init alice (photo 1)))
       (photo 1) 60) = true /\
  Recognizer.student_id
    (Recognizer.recognize_face
       (fst (Recognizer.register_face Recognizer.init alice (photo 1)))
       (photo 1) 60) = Some alice.
Proof.
  split; [reflexivity |].
  assert (Hd : (10 # 1 <= 40)%Q) by (unfold Qle; cbn; lia).
  destruct (registered_face_is_recognised (cv := vision)
              Recognizer.init alice (photo 1) 0 (10 # 1)
              (30, 160, 150, 40) 1%nat
              Recognizer.reach_init eq_refl eq_refl eq_refl eq_refl eq_refl Hd)
    as (H1 & H2 & _).
  split; [exact H1 | exact H2].
Defined.

(** A photo measured at brightness 20, under the threshold of 50, with
    the enhancement switched on and an equalisation that would change the
    face patch: the photo is neither refused nor equalised, and the student
    is recognised from the patch of the photo itself. *)
Lemma decoded_image_is_recognised_as_it_is_witness :
  @mean_brightness vision dim_libraries dark = Some (20 # 1) /\
  App.APPLY_HISTOGRAM_EQUALIZATION settings = true /\
  @App.decode_base64_image vision dim_libraries (Py.PyStr "REFSSw==")
    = Py.Return dark /\
  @App.classify vision dim_libraries settings (database [] [])
     (@App.enhance_low_light_image vision dim_libraries dark) (Some alice)
    = Py.Return
        (App.no_match (App.FaceMismatch bob alice (90 # 1)) (Some (90 # 1))) /\
  @App.recognize_face_from_image vision dim_libraries
     settings (database [] []) (Py.PyStr "REFSSw==") (Some alice)
  = {| App.is_match := true;
       App.message :=
         Some (App.FromRecognizer (Recognizer.Recognized (90 # 1)));
       App.student_id := Some alice;
       App.student_name := Some "Amrutha M";
       App.confidence := Some (90 # 1) |}.
Proof.
  split; [reflexivity |]. split; [reflexivity |].
  assert (Hd : @App.decode_base64_image vision dim_libraries
                 (Py.PyStr "REFSSw==") = Py.Return dark) by reflexivity.
  split; [exact Hd |]. split; [reflexivity |].
  exact (@decoded_image_is_recognised_as_it_is vision dim_libraries
           settings (database [] []) (Py.PyStr "REFSSw==") dark
           (Some alice) Hd).
Defined.

#[local] Existing Instance libraries.

Lemma match_names_the_expected_student_witness :
  App.is_match
    (App.recognize_face_from_image settings (database [] [])
       (Py.PyStr "QUxJQ0U=") (Some alice)) = true /\
  App.student_id
    (App.recognize_face_from_image settings (database [] [])
       (Py.PyStr "QUxJQ0U=") (Some alice)) = Some alice.
Proof.
  split; [reflexivity |].
  assert (Hne : alice <> EmptyString) by discriminate.
  exact (proj1 (match_names_the_expected_student
                  settings (database [] []) (Py.PyStr "QUxJQ0U=") alice
                  Hne eq_refl)).
Defined.

Lemma accepted_token_is_the_student_id_witness :
  Props.accepted_token (database [] []) "  2022CIT0043 " /\
  Props.token_student "  2022CIT0043 " = Text.strip "  2022CIT0043 " /\
  String.length (Text.strip "  2022CIT0043 ") = 11%nat.
Proof.
  assert (Ha : Props.accepted_token (database [] []) "  2022CIT0043 ").
  { unfold Props.accepted_token. vm_compute.
    repeat split; try discriminate. repeat constructor. }
  split; [exact Ha |].
  destruct (accepted_token_is_the_student_id (database [] [])
                                             "  2022CIT0043 " Ha)
    as (H1 & H2 & _).
  split; [exact H1 | exact H2].
Defined.

Lemma verify_face_commit_uses_the_session_up_witness :
  exists db' response,
    App.verify_face_commit (database [session alice 1000] []) 1030 alice
                           (session alice 1000) (matched alice "Amrutha M")
      = Py.Return (db', response) /\
    List.length (Sqlite.attendance db') = 1%nat /\
    Sqlite.select_open_session (Sqlite.attendance_sessions db') alice 1031
      = None.
Proof.
  destruct (verify_face_commit_uses_the_session_up
              (database [session alice 1000] []) 1030 alice "Amrutha M"
              (session alice 1000) (matched alice "Amrutha M") (90 # 1)
              eq_refl eq_refl eq_refl)
    as (db' & response & H1 & H2 & _ & H4).
  exists db', response. split; [exact H1 |].
  split; [now rewrite H2 |].
  destruct (Sqlite.select_open_session
              (Sqlite.attendance_sessions db') alice 1031) as [s |] eqn:E;
    [| reflexivity].
  exfalso. apply (H4 1031 s E).
  cbn in H1. inversion H1; subst db'. cbn in E. discriminate.
Defined.

(** A first upload for a third student while the database is locked: the
    answer is status 500, the students table does not know the student, and
    the recognizer holds the sample. *)
Lemma upload_failure_keeps_the_registration_witness :
  Props.stored trained "2022CIT0151" = [] /\
  Admin.upload_student_photo (fun _ => 0%nat)
    {| Admin.settings := settings; Admin.tables := database [] [];
       Admin.known_encodings := []; Admin.storage := locked_disk |}
    (upload_of "2022CIT0151" "Vismaya L" "QUxJQ0U=")
  = ({| Admin.settings :=
          Admin.with_recognizer settings
            (fst (Recognizer.register_face trained "2022CIT0151" (photo 1)));
        Admin.tables := database [] [];
        Admin.known_encodings := [];
        Admin.storage := locked_disk |},
     Py.Raise (Py.HTTPException 500 "database is locked")) /\
  Props.stored (fst (Recognizer.register_face trained "2022CIT0151" (photo 1)))
               "2022CIT0151" = [1%nat] /\
  Sqlite.select_student_name (Sqlite.students (database [] [])) "2022CIT0151"
    = None.
Proof.
  split; [reflexivity |].
  split; [| split; reflexivity].
  exact (proj1 (proj2 (upload_failure_keeps_the_registration (fun _ => 0%nat)
                         {| Admin.settings := settings;
                            Admin.tables := database [] [];
                            Admin.known_encodings := [];
                            Admin.storage := locked_disk |}
                         (upload_of "2022CIT0151" "Vismaya L" "QUxJQ0U="))
                      trained (photo 1) "database is locked"
                      eq_refl eq_refl eq_refl eq_refl eq_refl eq_refl)).
Defined.

(** A first upload for a third student, in the OpenCV mode. *)
Lemma upload_registers_the_student_witness :
  snd (Admin.upload_student_photo (fun _ => 0%nat)
         {| Admin.settings := settings; Admin.tables := database [] [];
            Admin.known_encodings := [];
            Admin.storage := disk |}
         (upload_of "2022CIT0151" "Vismaya L" "QUxJQ0U="))
    = Py.Return {| Admin.up_success := true; Admin.up_opencv_mode := true;
                   Admin.up_mock_mode := None |} /\
  Sqlite.select_student_name
    (Sqlite.students
       (Admin.tables
          (fst (Admin.upload_student_photo (fun _ => 0%nat)
                  {| Admin.settings := settings;
                     Admin.tables := database [] [];
                     Admin.known_encodings := [];
                     Admin.storage := disk |}
                  (upload_of "2022CIT0151" "Vismaya L" "QUxJQ0U=")))))
    "2022CIT0151"
    = Some "Vismaya L".
Proof.
  split; [reflexivity |].
  exact (proj1 (upload_registers_the_student (fun _ => 0%nat)
                  {| Admin.settings := settings;
                     Admin.tables := database [] [];
                     Admin.known_encodings := [];
                     Admin.storage := disk |}
                  (upload_of "2022CIT0151" "Vismaya L" "QUxJQ0U=")
                  {| Admin.up_success := true; Admin.up_opencv_mode := true;
                     Admin.up_mock_mode := None |}
                  eq_refl)).
Defined.

(** An upload of a room without a face. *)
Example upload_without_a_face :
  Admin.upload_student_photo (fun _ => 0%nat)
    {| Admin.settings := settings; Admin.tables := database [] [];
       Admin.known_encodings := [];
       Admin.storage := disk |}
    (upload_of "2022CIT0151" "Vismaya L" "RU1QVFk=")
  = ({| Admin.settings := Admin.with_recognizer settings trained;
        Admin.tables := database [] []; Admin.known_encodings := [];
        Admin.storage := disk |},
     Py.Raise
       (Py.HTTPException 400
          "Failed to register face - no face detected or multiple faces")).
Proof. reflexivity. Qed.

(** The same upload on the [face_recognition] library, then the photo
    shown for recognition. *)
Lemma face_recognition_mode_never_matches_witness :
  snd (Admin.upload_student_photo (fun _ => 0%nat)
         {| Admin.settings := fallback_settings;
            Admin.tables := database [] []; Admin.known_encodings := [];
            Admin.storage := disk |}
         (upload_of "2022CIT0151" "Vismaya L" "RU1QVFk="))
    = Py.Raise (Py.HTTPException 400 "No face detected") /\
  App.is_match
    (App.recognize_face_from_image
       (Admin.settings
          (fst (Admin.upload_student_photo (fun _ => 0%nat)
                  {| Admin.settings := fallback_settings;
                     Admin.tables := database [] [];
                     Admin.known_encodings := [];
                     Admin.storage := disk |}
                  (upload_of "2022CIT0043" "Amrutha M" "QUxJQ0U="))))
       (Admin.tables
          (fst (Admin.upload_student_photo (fun _ => 0%nat)
                  {| Admin.settings := fallback_settings;
                     Admin.tables := database [] [];
                     Admin.known_encodings := [];
                     Admin.storage := disk |}
                  (upload_of "2022CIT0043" "Amrutha M" "QUxJQ0U="))))
       (Py.PyStr "QUxJQ0U=") (Some alice)) = false.
Proof.
  split; [reflexivity |].
  exact (proj2 (face_recognition_mode_never_matches (fun _ => 0%nat)
                  {| Admin.settings := fallback_settings;
                     Admin.tables := database [] [];
                     Admin.known_encodings := [];
                     Admin.storage := disk |}
                  (upload_of "2022CIT0043" "Amrutha M" "QUxJQ0U=")
                  (Py.PyStr "QUxJQ0U=") (Some alice)
                  eq_refl eq_refl eq_refl)).
Defined.

(** The first seeded student. *)
Lemma seeded_students_are_refused_witness :
  map Sqlite.st_student_id (Sqlite.students (Admin.seed_initial_students blank))
    = ["20221CIT0043"; "20221CIT0049"; "20221CIT0151"] /\
  snd (App.validate_attendance_token (Admin.seed_initial_students blank) 1030
         [("token", "20221CIT0043")])
    = Py.Raise (Py.HTTPException 400 "Invalid student ID in token").
Proof.
  split; [reflexivity |].
  exact (proj1 (proj2 (seeded_students_are_refused
                         settings blank 1030
                         {| Sqlite.st_student_id := "20221CIT0043";
                            Sqlite.st_name := "Amrutha M";
                            Sqlite.st_has_face_encoding := false |}
                         "Amrutha M" "QUxJQ0U="
                         eq_refl (or_introl eq_refl)))).
Defined.

(** The import after the first registration. *)
Example import_after_the_first_registration :
  Admin.import_app true (Admin.file_of Recognizer.init) = Py.Return (Some Recognizer.init, []) /\
  Admin.import_app true
    (Admin.file_of
       (fst (Recognizer.register_face Recognizer.init alice (photo 1))))
  = Py.Raise
      (Py.LibraryError
         "'utf-8' codec can't decode byte 0x80 in position 0: invalid start byte").
Proof. split; reflexivity. Qed.

(** Three pending notices, the second to a recipient the server refuses:
    the first mail goes out and nothing is recorded. *)
Example send_pending_notifications_with_a_refusal :
  Notify.send_pending_notifications true delivers 500
    [ notice 1 "admin@school.edu" 100; notice 2 "nobody@school.edu" 200;
      notice 3 "admin@school.edu" 300 ]
  = ([1],
     [ notice 1 "admin@school.edu" 100; notice 2 "nobody@school.edu" 200;
       notice 3 "admin@school.edu" 300 ]).
Proof. reflexivity. Qed.

(** Correct credentials from a locked-out address, fifteen minutes after
    the oldest of its failures and one second after the newest. *)
Lemma lockout_never_ends_witness :
  accounts "admin@school.edu" "admin123" = Some "admin" /\
  Lockout.is_locked_out locked_lately "10.0.0.8" = true /\
  Lockout.minimum [0; 100; 200; 300; 899]%Q == 0 /\
  fst (Lockout.login accounts access_token locked_lately 900 "10.0.0.8"
                     "admin@school.edu" "admin123") = locked_lately /\
  Lockout.get_remaining_lockout_time locked_lately "10.0.0.8" 900 = 0 /\
  snd (Lockout.login accounts access_token locked_lately 900 "10.0.0.8"
                     "admin@school.edu" "admin123")
    = Py.Raise
        (Py.HTTPException 429
           "Too many failed attempts. Try again in 0 seconds").
Proof.
  split; [reflexivity |]. split; [reflexivity |]. split; [reflexivity |].
  assert (Hold : (Lockout.minimum [0; 100; 200; 300; 899]
                  + Lockout.LOCKOUT_DURATION_MINUTES * 60 <= 900)%Q)
    by (unfold Qle; cbn; lia).
  destruct (lockout_never_ends accounts access_token locked_lately "10.0.0.8"
              900 "admin@school.edu" "admin123" [0; 100; 200; 300; 899]%Q
              eq_refl eq_refl) as (H1 & _ & H3).
  split; [exact H1 |]. split; [exact (H3 Hold) | reflexivity].
Defined.

(** Five failures in forty seconds. *)
Lemma failures_within_the_window_lock_witness :
  Lockout.is_locked_out
    (fold_left (fun fa t => Lockout.record_failed_attempt fa "10.0.0.7" t)
               [0; 10; 20; 30; 40]%Q [])
    "10.0.0.7" = true /\
  Lockout.is_locked_out
    (fold_left (fun fa t => Lockout.record_failed_attempt fa "10.0.0.7" t)
               [0; 10; 20; 30]%Q [])
    "10.0.0.7" = false.
Proof.
  assert (Hw : forall times,
             (forall t, In t times -> In t [0; 10; 20; 30; 40]%Q) ->
             forall t, In t times ->
               (0 <= t)%Q /\ (t < 0 + Lockout.LOCKOUT_DURATION_MINUTES * 60)%Q).
  { intros times Hsub t Ht. apply Hsub in Ht.
    unfold Lockout.LOCKOUT_DURATION_MINUTES.
    destruct Ht as [<- | [<- | [<- | [<- | [<- | []]]]]];
      split; unfold Qle, Qlt; cbn; lia. }
  split.
  - refine (eq_trans
              (proj2 (failures_within_the_window_lock
                        [] "10.0.0.7" 0 [0; 10; 20; 30; 40]%Q eq_refl _
                        (Hw _ (fun t H => H)))) eq_refl).
    discriminate.
  - refine (eq_trans
              (proj2 (failures_within_the_window_lock
                        [] "10.0.0.7" 0 [0; 10; 20; 30]%Q eq_refl _
                        (Hw _ _))) eq_refl).
    + discriminate.
    + intros t Ht. cbn in *. tauto.
Defined.

End MoreExamples.
